(** * cdf-warn: table extraction, cleaning and field normalisation

    A shallow embedding of the format-to-table layer of the WARN scraper
    ([modules/utils.py], [modules/datatodf.py], [config.py] and the item
    loop of [modules/spiders/base.py]) together with the properties its
    specification states about it, and of the code around that layer
    (the link search and the constructor of [modules/spiders/base.py],
    the entry builders of [modules/customdatatodf.py],
    [modules/pipelines.py] and the crawl guard of [run_scrape.py]) with
    further properties the code has.

    Conventions of the embedding.
    - A Python [str] is the [string] of its code points.  The embedding
      covers the strings whose code points are all below 256; on these
      whitespace and lower case are Python's, and upper case is
      Python's except for the three characters whose upper case is not
      below 256 (see [upper_char]).
    - [None] and [NaN] inside a DataFrame are the cell [None].
    - A function that can raise returns in the monad [M], which also
      carries the records handed to [logging].
    - The document readers the code calls (lxml, camelot, openpyxl,
      [pd.read_html]) are outside the repository: what they return is an
      argument of the embedded function.
    - pandas is modelled as far as the code uses it, with the behaviour
      of release 1.5 (the last that has [DataFrame.append]).
    - Where Python leaves a result open (the order of [list(set(l))],
      the text of [str] of a list or dict) the result is an argument
      too, constrained by what Python guarantees. *)

From Stdlib Require Import ZArith String Ascii List Bool Lia DecimalString.
From Stdlib Require Import Sorted Permutation.
From stdpp Require Import gmap strings list.

(** ** Python runtime: exceptions, logging, strings *)

Module py.

Inductive exn : Type :=
| IndexError (msg : string)
| KeyError (msg : string)
| TypeError (msg : string)
| ValueError (msg : string)
| AttributeError (msg : string)
| InvalidIndexError (msg : string)
| XMLSyntaxError (msg : string)
| OSError (msg : string)
| URLError (msg : string)
| AssertionError (msg : string)
| XPathEvalError (msg : string).

Inductive level : Type := INFO | WARNING | ERROR.

Definition LogRecord : Type := level * string.

(** A computation that logs and may raise: the outcome and the records
    emitted up to the point where it returned or raised. *)
Definition M (A : Type) : Type := (exn + A) * list LogRecord.

Definition ret {A} (a : A) : M A := (inr a, []).
Definition raise {A} (e : exn) : M A := (inl e, []).
Definition log (l : level) (msg : string) : M unit := (inr tt, [(l, msg)]).
Definition bind {A B} (m : M A) (k : A -> M B) : M B :=
  match m with
  | (inl e, out) => (inl e, out)
  | (inr a, out) => let '(r, out') := k a in (r, out ++ out')
  end.

(** [try: m except E as e: h e] for the exception classes [catches]
    accepts. *)
Definition try_except {A} (m : M A) (catches : exn -> bool) (h : exn -> M A) : M A :=
  match m with
  | (inl e, out) =>
      if catches e then let '(r, out') := h e in (r, out ++ out') else (inl e, out)
  | (inr a, out) => (inr a, out)
  end.

(** The outcome of a call outside the embedding, as a computation. *)
Definition lift {A} (r : exn + A) : M A :=
  match r with
  | inl e => raise e
  | inr a => ret a
  end.

(** Whitespace as [str.split()], [str.strip()] and [str.isspace()] see
    it, for the characters below 256: tab to carriage return, the
    separators 28 to 31, the space, NEL (133) and the no-break space
    (160). *)
Definition is_space (c : ascii) : bool :=
  let n := nat_of_ascii c in
  (n =? 32)%nat || ((9 <=? n)%nat && (n <=? 13)%nat) || ((28 <=? n)%nat && (n <=? 31)%nat)
  || (n =? 133)%nat || (n =? 160)%nat.

(** [c.lower()]: the letters A to Z and the capitals 192 to 222 of
    Latin-1 (the multiplication sign 215 is no letter) move up by 32. *)
Definition lower_char (c : ascii) : ascii :=
  let n := nat_of_ascii c in
  if ((65 <=? n)%nat && (n <=? 90)%nat)
     || ((192 <=? n)%nat && (n <=? 222)%nat && negb (n =? 215)%nat)
  then ascii_of_nat (n + 32) else c.

(** [c.upper()] where it is a character below 256: the letters a to z
    and the small letters 224 to 254 of Latin-1 (the division sign 247
    is no letter) move down by 32.  The upper case of the micro sign
    (181), of the sharp s (223) and of y with diaeresis (255) is not a
    character below 256; these three stand for themselves here. *)
Definition upper_char (c : ascii) : ascii :=
  let n := nat_of_ascii c in
  if ((97 <=? n)%nat && (n <=? 122)%nat)
     || ((224 <=? n)%nat && (n <=? 254)%nat && negb (n =? 247)%nat)
  then ascii_of_nat (n - 32) else c.

Fixpoint map_chars (f : ascii -> ascii) (s : string) : string :=
  match s with
  | EmptyString => EmptyString
  | String c s' => String (f c) (map_chars f s')
  end.

(** [s.lower()] and [s.upper()] *)
Definition lower (s : string) : string := map_chars lower_char s.
Definition upper (s : string) : string := map_chars upper_char s.

(** [s.split()]: the maximal runs of non-whitespace characters.  [cur]
    is the word being read, if any. *)
Fixpoint split_from (cur : option string) (s : string) : list string :=
  match s with
  | EmptyString => match cur with Some w => [w] | None => [] end
  | String c s' =>
      if is_space c
      then match cur with
           | Some w => w :: split_from None s'
           | None => split_from None s'
           end
      else split_from (Some (default EmptyString cur +:+ String c EmptyString)) s'
  end.

Definition split (s : string) : list string := split_from None s.

(** [sep.join(l)] *)
Fixpoint join (sep : string) (l : list string) : string :=
  match l with
  | [] => EmptyString
  | [w] => w
  | w :: l' => w +:+ sep +:+ join sep l'
  end.

Fixpoint lstrip (s : string) : string :=
  match s with
  | String c s' => if is_space c then lstrip s' else s
  | EmptyString => EmptyString
  end.

(** [s.rstrip()]: a character stays when something other than
    whitespace follows it or it is not whitespace itself. *)
Fixpoint rstrip (s : string) : string :=
  match s with
  | EmptyString => EmptyString
  | String c s' =>
      match rstrip s' with
      | EmptyString => if is_space c then EmptyString else String c EmptyString
      | r => String c r
      end
  end.

(** [s.strip()] *)
Definition strip (s : string) : string := rstrip (lstrip s).

(** [x in l] for a list of strings *)
Definition str_in (s : string) (l : list string) : bool := existsb (String.eqb s) l.

(** [s.endswith(suffix)] *)
Definition endswith (s suffix : string) : bool :=
  let n := String.length s in
  let k := String.length suffix in
  (k <=? n)%nat && String.eqb (substring (n - k) k s) suffix.

(** [re.sub(pat, '', s)] for a pattern without metacharacters: every
    occurrence of [pat] found scanning from the left is deleted, the
    scan resuming after the occurrence. *)
Fixpoint delete_all_from (fuel : nat) (pat s : string) : string :=
  match fuel with
  | O => s
  | S fuel' =>
      match s with
      | EmptyString => EmptyString
      | String c s' =>
          if String.prefix pat s
          then delete_all_from fuel' pat
                 (substring (String.length pat) (String.length s - String.length pat) s)
          else String c (delete_all_from fuel' pat s')
      end
  end.

Definition delete_all (pat s : string) : string :=
  match pat with
  | EmptyString => s
  | _ => delete_all_from (S (String.length s)) pat s
  end.

(** [s.split(sep)] for a non-empty [sep]; [cur] is the piece being read. *)
Fixpoint split_sep_from (fuel : nat) (sep cur s : string) : list string :=
  match fuel with
  | O => [cur +:+ s]
  | S fuel' =>
      match s with
      | EmptyString => [cur]
      | String c s' =>
          if String.prefix sep s
          then cur :: split_sep_from fuel' sep EmptyString
                        (substring (String.length sep) (String.length s - String.length sep) s)
          else split_sep_from fuel' sep (cur +:+ String c EmptyString) s'
      end
  end.


(** [sub in s] for strings *)
Fixpoint contains (sub s : string) : bool :=
  String.prefix sub s
  || match s with
     | EmptyString => false
     | String _ s' => contains sub s'
     end.

(** [s.strip(chars)], [p] telling the characters of [chars] *)
Fixpoint lstrip_by (p : ascii -> bool) (s : string) : string :=
  match s with
  | String c s' => if p c then lstrip_by p s' else s
  | EmptyString => EmptyString
  end.

Fixpoint rstrip_by (p : ascii -> bool) (s : string) : string :=
  match s with
  | EmptyString => EmptyString
  | String c s' =>
      match rstrip_by p s' with
      | EmptyString => if p c then EmptyString else String c EmptyString
      | r => String c r
      end
  end.

Definition strip_by (p : ascii -> bool) (s : string) : string := rstrip_by p (lstrip_by p s).

(** [str(n)] for an integer *)
Definition str_of_Z (z : Z) : string := NilZero.string_of_int (Z.to_int z).

(** [str(l)] for a list of integers *)
Definition repr_ints (l : list Z) : string := "[" +:+ join ", " (map str_of_Z l) +:+ "]".

(** [range(a, b)] *)
Definition range (a b : Z) : list Z := map (fun i => (a + Z.of_nat i)%Z) (seq 0 (Z.to_nat (b - a))).

(** [l[i]] for a list, negative subscripts counting from the end *)
Definition getitem {A} (l : list A) (i : Z) : option A :=
  let n := Z.of_nat (length l) in
  if (0 <=? i)%Z then l !! Z.to_nat i
  else if (0 <=? n + i)%Z then l !! Z.to_nat (n + i)
  else None.

End py.

Notation "'do' x <- m ; k" := (py.bind m (fun x => k))
  (at level 10, x name, m at level 100, k at level 200).
Notation "m ;;; k" := (py.bind m (fun _ => k))
  (at level 100, k at level 200, right associativity).

(** ** modules/utils.py *)

Module utils.
Import py.

(** The values [to_bool] meets in a configuration column read by
    [pd.read_csv]: text, booleans, integers, [None], and the float NaN
    of a blank cell. *)
Inductive pyobj : Type :=
| PyStr (s : string)
| PyBool (b : bool)
| PyInt (z : Z)
| PyNone
| PyNaN.

(** [str(x)] *)
Definition str (x : pyobj) : string :=
  match x with
  | PyStr s => s
  | PyBool true => "True"
  | PyBool false => "False"
  | PyInt z => str_of_Z z
  | PyNone => "None"
  | PyNaN => "nan"
  end.

Definition truthy : list string := ["yes"; "y"; "true"; "t"].
Definition falsy : list string := ["no"; "n"; "false"; "f"].
Definition blank : list string := [EmptyString; "nan"; "none"].

(** [to_bool]: the value returned ([None] is Python's [None]) and the
    records logged. *)
Definition to_bool (x : pyobj) : option bool * list LogRecord :=
  let s := lower (str x) in
  if str_in s truthy then (Some true, [])
  else if str_in s falsy then (Some false, [])
  else if str_in s blank then (None, [])
  else (None, [(WARNING, "Could not convert " +:+ str x +:+ " to bool")]).

(** [whitespace_to_singlespace] *)
Definition whitespace_to_singlespace (s : string) : string := join " " (split s).

(** [lower_and_underscore] *)
Definition lower_and_underscore (s : string) : string :=
  map_chars (fun c => if Ascii.eqb c " "%char then "_"%char else c) (lower (strip s)).

(** [bool(x)] *)
Definition truth (x : pyobj) : bool :=
  match x with
  | PyStr s => negb (String.eqb s EmptyString)
  | PyBool b => b
  | PyInt z => negb (z =? 0)%Z
  | PyNone => false
  | PyNaN => true
  end.

(** The characters of the class in the pattern of
    [remove_reserved_chars]: less-than, greater-than, colon, double
    quote, slash, bar, question mark and asterisk.  The backslash of
    the pattern escapes the bar and is not itself in the class. *)
Definition reserved (c : ascii) : bool :=
  existsb (Ascii.eqb c)
    ["<"%char; ">"%char; ":"%char; ascii_of_nat 34; "/"%char; "|"%char; "?"%char; "*"%char].

(** [remove_reserved_chars] *)
Fixpoint remove_reserved_chars (s : string) : string :=
  match s with
  | EmptyString => EmptyString
  | String c s' =>
      if reserved c then remove_reserved_chars s' else String c (remove_reserved_chars s')
  end.

End utils.

(** ** pandas: the DataFrame operations the code uses *)

Module pandas.
Import py.

(** What a cell can hold besides NaN.  [eq_str v s] is the elementwise
    comparison [v == s] of a cell value with a [str]. *)
Class CellValue (V : Type) : Type := {
  of_str : string -> V;
  eq_str : V -> string -> bool;
  eq_of_str : forall s t, eq_str (of_str s) t = String.eqb s t
}.

(** Tables of text. *)
#[global] Instance string_value : CellValue string :=
  {| of_str := fun s => s; eq_str := String.eqb; eq_of_str := fun s t => eq_refl |}.

(** A DataFrame: the column labels, and the rows in order, each with
    its index label and one cell per column; the cell [None] is NaN. *)
Record DataFrame (V : Type) : Type := mkDF {
  columns : list string;
  rows : list (Z * list (option V))
}.
Arguments mkDF {V} _ _.
Arguments columns {V} _.
Arguments rows {V} _.

(** Selection by a boolean mask ([df.loc[:, mask]], [df[mask]]). *)
Fixpoint mask_select {A} (m : list bool) (xs : list A) : list A :=
  match m, xs with
  | b :: m', x :: xs' => if b then x :: mask_select m' xs' else mask_select m' xs'
  | _, _ => []
  end.

Fixpoint nodup_eqb (l : list string) : bool :=
  match l with
  | [] => true
  | x :: l' => negb (existsb (String.eqb x) l') && nodup_eqb l'
  end.

Fixpoint labels_eqb (a b : list string) : bool :=
  match a, b with
  | [], [] => true
  | x :: a', y :: b' => String.eqb x y && labels_eqb a' b'
  | _, _ => false
  end.

(** [d.get(k)] for a dict kept as the list of its items in insertion
    order. *)
Fixpoint assoc {K V} (eqb : K -> K -> bool) (k : K) (d : list (K * V)) : option V :=
  match d with
  | [] => None
  | (k', v) :: d' => if eqb k' k then Some v else assoc eqb k d'
  end.

(** [d[k] = v] *)
Fixpoint dict_set {V} (k : string) (v : V) (d : list (string * V)) : list (string * V) :=
  match d with
  | [] => [(k, v)]
  | (k', v') :: d' => if String.eqb k' k then (k, v) :: d' else (k', v') :: dict_set k v d'
  end.

(** [dict(zip(keys, vals))] *)
Definition dict_zip {V} (keys : list string) (vals : list V) : list (string * V) :=
  foldl (fun d kv => dict_set kv.1 kv.2 d) [] (zip keys vals).

Fixpoint insert_sorted (x : string) (l : list string) : list string :=
  match l with
  | [] => [x]
  | y :: l' => if String.leb x y then x :: l else y :: insert_sorted x l'
  end.

(** Labels in sorted order (by character code). *)
Definition sort_labels (l : list string) : list string := foldr insert_sorted [] l.

Definition union_columns (a b : list string) : list string :=
  a ++ List.filter (fun c => negb (existsb (String.eqb c) a)) b.


Fixpoint mfoldl {A B} (f : A -> B -> M A) (a : A) (l : list B) : M A :=
  match l with
  | [] => ret a
  | b :: l' => do a' <- f a b; mfoldl f a' l'
  end.

Fixpoint mmap {A B} (f : A -> M B) (l : list A) : M (list B) :=
  match l with
  | [] => ret []
  | a :: l' => do b <- f a; do bs <- mmap f l'; ret (b :: bs)
  end.

Section frames.
Context {V : Type} `{CellValue V}.

Definition index (df : DataFrame V) : list Z := map fst (rows df).

(** Every row has one cell per column. *)
Definition wf (df : DataFrame V) : Prop :=
  Forall (fun r => length r.2 = length (columns df)) (rows df).

(** [pd.DataFrame()] *)
Definition empty : DataFrame V := mkDF [] [].

Definition notna (c : option V) : bool :=
  match c with Some _ => true | None => false end.

(** Elementwise [!= s]; NaN compares unequal to everything. *)
Definition ne (s : string) (c : option V) : bool :=
  match c with
  | Some v => negb (eq_str v s)
  | None => true
  end.

(** [p(df).any()]: per column, whether some row satisfies [p]. *)
Definition any_axis0 (p : option V -> bool) (df : DataFrame V) : list bool :=
  foldr (fun r acc => zip_with orb (map p r.2) acc)
        (replicate (length (columns df)) false) (rows df).

(** [p(df.T).any()]: per row, whether some column satisfies [p]. *)
Definition any_axis1 (p : option V -> bool) (df : DataFrame V) : list bool :=
  map (fun r => existsb p r.2) (rows df).

(** [df.loc[:, mask]] *)
Definition loc_columns (m : list bool) (df : DataFrame V) : DataFrame V :=
  mkDF (mask_select m (columns df)) (map (fun r => (r.1, mask_select m r.2)) (rows df)).

(** [df[mask]] with one boolean per row *)
Definition loc_rows (m : list bool) (df : DataFrame V) : DataFrame V :=
  mkDF (columns df) (mask_select m (rows df)).

(** [df.dropna(axis=0, how='all')]: rows holding only NaN go. *)
Definition dropna_rows (df : DataFrame V) : DataFrame V := loc_rows (any_axis1 notna df) df.

(** [df.dropna(axis=1, how='all')]: columns holding only NaN go. *)
Definition dropna_columns (df : DataFrame V) : DataFrame V :=
  loc_columns (any_axis0 notna df) df.

(** [df.fillna(s)] *)
Definition fillna (s : string) (df : DataFrame V) : DataFrame V :=
  mkDF (columns df)
       (map (fun r => (r.1, map (fun c => Some (default (of_str s) c)) r.2)) (rows df)).

(** [pd.DataFrame(data)] for a list of rows: the index and the column
    labels count from 0. *)
Definition of_values (data : list (list (option V))) : DataFrame V :=
  mkDF (map (fun j => str_of_Z (Z.of_nat j))
            (seq 0 (foldr (fun r w => Nat.max (length r) w) 0 data)))
       (zip_with (fun i r => (Z.of_nat i, r)) (seq 0 (length data)) data).

(** [df.columns = labels] *)
Definition set_columns (labels : list string) (df : DataFrame V) : M (DataFrame V) :=
  if (length labels =? length (columns df))%nat
  then ret (mkDF labels (rows df))
  else raise (ValueError "Length mismatch").

(** [df.iloc[i]]: the cells of the row at position [i]. *)
Definition iloc (df : DataFrame V) (i : Z) : M (list (option V)) :=
  match getitem (rows df) i with
  | Some r => ret r.2
  | None => raise (IndexError "single positional indexer is out-of-bounds")
  end.

(** [df.drop(labels, axis=0)]: every label must be in the index; the
    error names the labels that are not. *)
Definition drop (labels : list Z) (df : DataFrame V) : M (DataFrame V) :=
  if forallb (fun l => existsb (Z.eqb l) (index df)) labels
  then ret (mkDF (columns df)
              (List.filter (fun r => negb (existsb (Z.eqb r.1) labels)) (rows df)))
  else raise (KeyError
                (repr_ints (List.filter (fun l => negb (existsb (Z.eqb l) (index df))) labels)
                 +:+ " not found in axis")).

(** [df[name] = values]: one value per row; an existing column of that
    name is overwritten, otherwise the column is added last. *)
Definition set_column (name : string) (vals : list (option V)) (df : DataFrame V)
  : M (DataFrame V) :=
  if negb (length vals =? length (rows df))%nat
  then raise (ValueError "Length of values does not match length of index")
  else if existsb (String.eqb name) (columns df)
  then ret (mkDF (columns df)
              (zip_with (fun r v =>
                           (r.1, zip_with (fun c x => if String.eqb c name then v else x)
                                          (columns df) r.2))
                        (rows df) vals))
  else ret (mkDF (columns df ++ [name])
              (zip_with (fun r v => (r.1, r.2 ++ [v])) (rows df) vals)).

(** [df.reindex(columns=target)]: cells found by label, NaN for a label
    the frame lacks; the frame's labels must be unique unless they are
    the target already. *)
Definition reindex_columns (target : list string) (df : DataFrame V) : M (DataFrame V) :=
  if labels_eqb (columns df) target
  then ret df
  else if nodup_eqb (columns df)
  then ret (mkDF target
              (map (fun r => (r.1, map (fun c => mjoin (assoc String.eqb c (zip (columns df) r.2)))
                                       target))
                   (rows df)))
  else raise (InvalidIndexError "Reindexing only valid with uniquely valued Index objects").

(** [a.append(b)]: the rows of [a] then those of [b] under the union of
    their columns, index labels kept. *)
Definition append (a b : DataFrame V) : M (DataFrame V) :=
  let cols := union_columns (columns a) (columns b) in
  do a' <- reindex_columns cols a;
  do b' <- reindex_columns cols b;
  ret (mkDF cols (rows a' ++ rows b')).

(** [pd.concat(frames)] *)
Definition concat (frames : list (DataFrame V)) : M (DataFrame V) :=
  match frames with
  | [] => raise (ValueError "No objects to concatenate")
  | f :: fs => mfoldl append f fs
  end.

Definition reset_index (df : DataFrame V) : DataFrame V :=
  mkDF (columns df)
       (zip_with (fun i r => (Z.of_nat i, r.2)) (seq 0 (length (rows df))) (rows df)).


(** The labels [df.append] adds for a dict with the keys [keys]:
    [other.index.difference(self.columns)].  [Index.difference] gives
    its receiver as it is when the other index is empty, and the labels
    left sorted otherwise. *)
Definition new_labels (cols keys : list string) : list string :=
  let new := List.filter (fun c => negb (existsb (String.eqb c) cols)) keys in
  match cols with
  | [] => new
  | _ :: _ => sort_labels new
  end.

(** [df.append(fields, ignore_index=True)] for a dict [fields]: one
    more row, with new columns after those of the frame for the keys
    the frame does not have: in the order of the dict when the frame
    has no column, sorted when it has. *)
Definition append_dict (df : DataFrame V) (fields : list (string * V)) : DataFrame V :=
  let new := new_labels (columns df) (map fst fields) in
  let cols := columns df ++ new in
  reset_index
    (mkDF cols (map (fun r => (r.1, r.2 ++ replicate (length new) None)) (rows df)
                ++ [(0%Z, map (fun c => assoc String.eqb c fields) cols)])).

End frames.

End pandas.

(** ** The readers outside the repository, as far as the code uses them *)

Module openpyxl.
Import py.

(** A worksheet cell: its value (text, or nothing) and the target of
    its hyperlink, if it has one. *)
Record Cell : Type := mkCell {
  value : option string;
  hyperlink : option string
}.

(** A worksheet: rows 1 to [max_row], each a list of cells from column
    1 on. *)
Record Worksheet : Type := mkWorksheet {
  title : string;
  cells : list (list Cell)
}.

(** [ws.min_row] where [excel] reads it.  It is the first row that has
    a cell object, and reading [ws.values] has by then created a cell
    object for every position from row 1 on; a sheet without cell
    objects has 1 as well. *)
Definition min_row (ws : Worksheet) : Z := 1.

Definition max_row (ws : Worksheet) : Z :=
  match cells ws with
  | [] => 1
  | _ => Z.of_nat (length (cells ws))
  end.

(** [ws.values] *)
Definition values (ws : Worksheet) : list (list (option string)) :=
  map (map value) (cells ws).

(** [Worksheet.cell(self, row, column, value=None)] called with keyword
    arguments: a keyword the signature does not have is a [TypeError];
    a cell outside the stored rows is a fresh empty one. *)
Definition cell (ws : Worksheet) (kwargs : list (string * Z)) : M Cell :=
  match List.find (fun kv => negb (str_in kv.1 ["row"; "column"; "value"])) kwargs with
  | Some kv => raise (TypeError ("cell() got an unexpected keyword argument '" +:+ kv.1 +:+ "'"))
  | None =>
      match pandas.assoc String.eqb "row" kwargs, pandas.assoc String.eqb "column" kwargs with
      | Some r, Some c =>
          if ((r <? 1) || (c <? 1))%Z
          then raise (ValueError "Row or column values must be at least 1")
          else ret (default (mkCell None None)
                      (row ← cells ws !! Z.to_nat (r - 1); row !! Z.to_nat (c - 1)))
      | _, _ => raise (TypeError "cell() missing required positional arguments")
      end
  end.

End openpyxl.

Module lxml.

(** A table row as the code reads it: the text ([string(.)]) of each
    [.//td] below it and every [.//*/@href] below it. *)
Record Row : Type := mkRow {
  td : list string;
  href : list string
}.

(** A matched table element: the text of each [.//th], the rows found
    by [.//body/tr] and those found by [.//tr]. *)
Record Table : Type := mkTable {
  th : list string;
  body_tr : list Row;
  tr : list Row
}.

(** A parsed document: the elements an XPath expression selects in it,
    or the exception [tree.xpath] raises: AssertionError on a tree
    without a root element (what an empty file parses to),
    XPathEvalError on an expression lxml does not accept (the
    expression is built from the arguments [tag] and [table_class]). *)
Definition Document : Type := string -> py.exn + list Table.

End lxml.

(** ** modules/datatodf.py *)

Module datatodf.
Import py pandas.

(** *** [drop_empty_rows_cols] *)

Section cleaning.
Context {V : Type} `{CellValue V}.

(** The caller's frame after the call: the two [dropna(..., inplace=True)]
    change it in place. *)
Definition drop_empty_rows_cols_inplace (df : DataFrame V) : DataFrame V :=
  dropna_columns (dropna_rows df).

(** The frame [drop_empty_rows_cols] returns. *)
Definition drop_empty_rows_cols (df : DataFrame V) : DataFrame V :=
  let df := dropna_rows df in
  let df := dropna_columns df in
  let df := fillna EmptyString df in
  let df := loc_columns (any_axis0 (ne EmptyString) df) df in
  let df := loc_rows (any_axis1 (ne EmptyString) df) df in
  df.

End cleaning.

(** *** [reset_spacing_in_column_names] *)

(** The frame returned, which is the caller's frame with its labels
    replaced. *)
Definition reset_spacing_in_column_names {V : Type} (df : DataFrame V) : M (DataFrame V) :=
  set_columns (map utils.whitespace_to_singlespace (columns df)) df.

(** *** [get_google_sheets_export_link] *)

Definition get_google_sheets_export_link (url : string) : string :=
  let url_sheet_id :=
    strip_by (Ascii.eqb "/"%char)
      (hd EmptyString (split_sep_from (S (String.length url)) "/edit" EmptyString url)) in
  url_sheet_id +:+ "/export?format=csv".

(** *** [excel] *)

(** The [link_col] argument: [None], a column number, or a list of
    column numbers. *)
Inductive link_col_arg : Type :=
| LinkNone
| LinkInt (col : Z)
| LinkList (cols : list Z).

(** The columns the hyperlink loop runs over: none when [link_col] is
    falsy ([None], [0], [[]]); an int is wrapped in a list. *)
Definition link_columns (link_col : link_col_arg) : list Z :=
  match link_col with
  | LinkNone => []
  | LinkInt col => if (col =? 0)%Z then [] else [col]
  | LinkList cols => cols
  end.

(** [str(s)] of a header cell *)
Definition str_cell (c : option string) : string :=
  match c with
  | Some s => s
  | None => "None"
  end.

(** The body of [for row_index in range(...)]: the link of one row, or
    [''] and a warning when anything in the [try] raised. *)
Definition row_link (ws : openpyxl.Worksheet) (col row_index : Z) : M (option string) :=
  try_except
    (do c <- openpyxl.cell ws [("row", row_index); ("col", col)];
     match openpyxl.hyperlink c with
     | Some target => ret (Some target)
     | None => raise (AttributeError "'NoneType' object has no attribute 'target'")
     end)
    (fun _ => true)
    (fun _ =>
       log WARNING ("Expecting column " +:+ str_of_Z col +:+ " to contain a link, but none found") ;;;
       ret (Some EmptyString)).

(** The body of [for col in link_col]. *)
Definition add_link_column (ws : openpyxl.Worksheet) (skip_header drop_footer : Z)
    (columns : list string) (df : DataFrame string) (col : Z) : M (DataFrame string) :=
  do col_name <- match getitem columns col with
                 | Some n => ret n
                 | None => raise (IndexError "list index out of range")
                 end;
  do name <- match col_name with
             | EmptyString => raise (TypeError "unsupported operand type(s) for +: 'int' and 'str'")
             | _ => ret (col_name +:+ " Link")
             end;
  do links <- mmap (row_link ws col)
                   (range (openpyxl.min_row ws + skip_header) (openpyxl.max_row ws - drop_footer));
  set_column name links df.

(** The body of [for i, ws in enumerate(worksheets)], up to the frame
    appended to [df_all]. *)
Definition excel_sheet (link_col : link_col_arg) (skip_header drop_footer : Z)
    (ws : openpyxl.Worksheet) : M (DataFrame string) :=
  let df := of_values (openpyxl.values ws) in
  do header <- iloc df skip_header;
  let columns := map (fun s => utils.whitespace_to_singlespace (str_cell s)) header in
  do df <- set_columns columns df;
  let header_rows := range 0 (skip_header + 1) in
  let footer_rows := range (openpyxl.max_row ws - drop_footer) (openpyxl.max_row ws) in
  do df <- drop (header_rows ++ footer_rows) df;
  mfoldl (add_link_column ws skip_header drop_footer columns) df (link_columns link_col).

(** [wb[name]] *)
Definition workbook_getitem (wb : list openpyxl.Worksheet) (name : string) : M openpyxl.Worksheet :=
  match List.find (fun ws => String.eqb (openpyxl.title ws) name) wb with
  | Some ws => ret ws
  | None => raise (KeyError ("Worksheet " +:+ name +:+ " does not exist."))
  end.

(** [excel(filepath, link_col, skip_header, drop_footer, sheets_to_use)],
    [wb] being the workbook loaded from [filepath]. *)
Definition excel (wb : list openpyxl.Worksheet) (link_col : link_col_arg)
    (skip_header drop_footer : option Z) (sheets_to_use : option (list string))
  : M (DataFrame string) :=
  let skip_header := default 0%Z skip_header in
  let drop_footer := default 0%Z drop_footer in
  do worksheets <- match sheets_to_use with
                   | Some (n :: ns) => mmap (workbook_getitem wb) (n :: ns)
                   | _ => ret wb
                   end;
  mfoldl (fun df_all ws =>
            do df <- excel_sheet link_col skip_header drop_footer ws;
            append df_all df)
         empty worksheets.

(** *** [pdf] *)





(** *** [html_pandas] and [html] *)

(** What a cell of the tables [html] builds holds: text, or (under
    'Updated Notices') a list of links. *)
Inductive value : Type :=
| VStr (s : string)
| VList (l : list string).

#[global] Instance value_cell : CellValue value :=
  {| of_str := VStr;
     eq_str := fun v s => match v with VStr s' => String.eqb s' s | VList _ => false end;
     eq_of_str := fun s t => eq_refl |}.

(** [str(e)] *)
Definition exn_msg (e : exn) : string :=
  match e with
  | IndexError m | KeyError m | TypeError m | ValueError m | AttributeError m
  | InvalidIndexError m | XMLSyntaxError m | OSError m | URLError m
  | AssertionError m | XPathEvalError m => m
  end.

(** [html_pandas(url)]; [read_html] is what [pd.read_html(url)] did:
    the exception it raised or the frames it returned. *)
Definition html_pandas {V : Type} (read_html : exn + list (DataFrame V)) (url : string)
  : M (DataFrame V) :=
  match read_html with
  | inl e =>
      match e with
      | XMLSyntaxError _ | ValueError _ =>
          log ERROR (exn_msg e +:+ ". If directly from URL: check if the URL does in fact have HTML tables - if not, update link and/or format. If from temperary file: check if temporary file has any contents - if not, check for error in save_response_to_file.") ;;;
          ret empty
      | _ => raise e
      end
  | inr dfs =>
      if (1 <? length dfs)%nat
      then try_except (concat dfs) (fun _ => true)
             (fun e =>
                log ERROR (exn_msg e +:+ ": returning empty DataFrame for " +:+ url) ;;;
                ret empty)
      else match dfs with
           | [df] => ret df
           | _ =>
               log ERROR ("No tables found in " +:+ url +:+ ": returning empty DataFrame") ;;;
               ret empty
           end
  end.

Definition dquote : string := String (ascii_of_nat 34) EmptyString.

(** The XPath expression [html] searches with. *)
Definition search_str (tag table_class : option string) : string :=
  match table_class with
  | Some c => "//table[@class=" +:+ dquote +:+ c +:+ dquote +:+ "]"
  | None => "//" +:+ default "table" tag
  end.

(** [get_text_of_matching_elements_lxml] with the default [re_str=''],
    applied to the texts of the matched elements. *)
Definition get_text_of_matching_elements_lxml (texts : list string) : list string :=
  map strip texts.

(** [l.pop(0)]: the element removed and the list left. *)
Definition pop0 {A} (l : list A) : M (A * list A) :=
  match l with
  | [] => raise (IndexError "pop from empty list")
  | x :: l' => ret (x, l')
  end.

Section html.
(** [urllib.parse.urljoin]: the URL, or the exception raised (ValueError
    on a URL the parser rejects) *)
Variable urljoin : string -> string -> exn + string.

(** The body of [for row in rows] up to the dict appended. *)
Definition row_fields (base_url : string) (link_col : option Z) (columns : list string)
    (row : lxml.Row) : M (list (string * value)) :=
  let td := get_text_of_matching_elements_lxml (lxml.td row) in
  let fields := dict_zip columns (map VStr td) in
  match link_col with
  | None => ret fields
  | Some _ =>
      match lxml.href row with
      | h :: hs =>
          do notice_link <- lift (urljoin base_url h);
          let fields := dict_set "Notice Link" (VStr notice_link) fields in
          ret (if (1 <? length (h :: hs))%nat
               then dict_set "Updated Notices" (VList hs) fields
               else fields)
      | [] =>
          log WARNING "Expecting a link table entry to contain a link; may need to update column" ;;;
          ret fields
      end
  end.

(** The body of [for table in tables]. *)
Definition html_table (base_url : string) (link_col : option Z) (drop_first_row : bool)
    (df_all : DataFrame value) (table : lxml.Table) : M (DataFrame value) :=
  let columns := get_text_of_matching_elements_lxml (lxml.th table) in
  let rows := lxml.body_tr table in
  let rows := if (length rows =? 0)%nat then lxml.tr table else rows in
  if (length rows =? 0)%nat
  then
    log ERROR "No table rows found in this table; may need to updated xpath selectors or url" ;;;
    ret df_all
  else
    do rows <- if drop_first_row then do p <- pop0 rows; ret p.2 else ret rows;
    do cr <- if (length columns =? 0)%nat && (0 <? length rows)%nat
             then do p <- pop0 rows;
                  ret (get_text_of_matching_elements_lxml (lxml.td p.1), p.2)
             else ret (columns, rows);
    mfoldl (fun df_all row =>
              do fields <- row_fields base_url link_col cr.1 row;
              ret (append_dict df_all fields))
           df_all cr.2.

(** [html(filepath, base_url, use_pandas, tag, table_class, link_col,
    min_num_cols, use_unicode, drop_first_row)].  [parsed] is what
    opening and parsing the file did; [read_html] what [pd.read_html]
    did.  Nothing in [html] catches an exception.  [min_num_cols] is not used by the code and [use_unicode] only
    chooses the encoding the file is opened with. *)
Definition html (read_html : exn + list (DataFrame value)) (parsed : exn + lxml.Document)
    (filepath base_url : string) (use_pandas : bool) (tag table_class : option string)
    (link_col : option Z) (drop_first_row : bool) : M (DataFrame value) :=
  if use_pandas then html_pandas read_html filepath
  else
    match parsed with
    | inl e => raise e
    | inr tree =>
        do tables <- lift (tree (search_str tag table_class));
        match tables with
        | [] =>
            log ERROR "No table found; may need to updated xpath selectors or url" ;;;
            ret empty
        | _ => mfoldl (html_table base_url link_col drop_first_row) empty tables
        end
    end.

(** The defaults of [html]. *)
Definition html_default (parsed : exn + lxml.Document) (filepath : string)
  : M (DataFrame value) :=
  html (inr []) parsed filepath EmptyString false None None None false.

End html.

End datatodf.

(** ** config.py *)

Module config.
Import py.

(** [StateConfig.__init__], the field-name pairs: [row] lists the items
    of the configuration row in order.  The key is the canonical name,
    the value the raw column name of the source. *)
Definition FIELDS {V : Type} (row : list (string * V)) : gmap string V :=
  foldl (fun acc kv =>
           if endswith kv.1 "_field"
           then <[upper (delete_all "_field" kv.1) := kv.2]> acc
           else acc)
        ∅ row.

(** A [StateConfig] object: the attributes [__init__] has set on it
    apart from [FIELDS], and [FIELDS]. *)
Record StateConfig : Type := mkStateConfig {
  attributes : gmap string utils.pyobj;
  fields_dict : gmap string utils.pyobj
}.

(** [state_config.name]: reading an attribute that was never set
    raises. *)
Definition getattr (state_config : StateConfig) (name : string) : M utils.pyobj :=
  match attributes state_config !! name with
  | Some v => ret v
  | None => raise (AttributeError ("'StateConfig' object has no attribute '" +:+ name +:+ "'"))
  end.

Section state_config.
(** [name2abbrev], from the file of state identifiers *)
Variable name2abbrev : gmap string string.
(** [str(row)] *)
Variable repr_row : list (string * utils.pyobj) -> string.

(** The [try] block of [StateConfig.__init__]: the attributes set when
    it ended, and whether it ended in a KeyError.  An assignment made
    before the KeyError stays. *)
Definition required (row : list (string * utils.pyobj)) : gmap string utils.pyobj * bool :=
  match pandas.assoc String.eqb "state_name" row with
  | None => (∅, true)
  | Some state_name =>
      let self := <["STATE_NAME" := state_name]> ∅ in
      match match state_name with
            | utils.PyStr s => name2abbrev !! s
            | _ => None
            end with
      | None => (self, true)
      | Some abbrev =>
          let self := <["STATE_ABBREV" := utils.PyStr abbrev]> self in
          match pandas.assoc String.eqb "archive_url" row with
          | None => (self, true)
          | Some url =>
              let self := <["URL" := url]> self in
              match pandas.assoc String.eqb "format" row with
              | None => (self, true)
              | Some format => (<["FORMAT" := format]> self, false)
              end
          end
      end
  end.

(** [StateConfig.__init__] *)
Definition StateConfig_init (row : list (string * utils.pyobj)) : M StateConfig :=
  do self <- (if (required row).2
              then
                log WARNING ("Could not find all necessary keys in entry " +:+ repr_row row) ;;;
                ret (<["STATE_NAME" := utils.PyNone]> (required row).1)
              else ret (required row).1);
  let self := <["STATUS" := default utils.PyNone
                              (pandas.assoc String.eqb "current/archive" row)]> self in
  let self := <["IS_JOBLINK" := default utils.PyNone
                                  (pandas.assoc String.eqb "uses_joblink_interface?" row)]>
                self in
  ret (mkStateConfig self (FIELDS row)).

End state_config.

End config.

(** ** modules/items.py *)

Module items.

(** Modelled from the spec: [get_normalized_fields] of modules/items.py,
    which is not among the sources.  For each entry of the mapping whose
    raw name exists in the row, the value is copied under the canonical
    name; an entry whose raw name is absent from the row is skipped.
    The raw name of an entry is [None] where the configuration left the
    cell blank. *)
Definition get_normalized_fields {V : Type} (fields_dict : gmap string (option string))
    (fields : gmap string V) : gmap string V :=
  omap (fun raw => name ← raw; fields !! name) fields_dict.

End items.

(** ** modules/spiders/base.py *)

Module base.
Import py pandas.

Record Entry (V : Type) : Type := mkEntry {
  state_name : string;
  timestamp : Z;
  url : string;
  fields : gmap string (option V);
  normalized_fields : gmap string (option V)
}.
Arguments mkEntry {V} _ _ _ _ _.
Arguments state_name {V} _.
Arguments timestamp {V} _.
Arguments url {V} _.
Arguments fields {V} _.
Arguments normalized_fields {V} _.

(** [row.to_dict()]: a later column of the same name wins. *)
Definition to_dict {V : Type} (columns : list string) (cells : list (option V))
  : gmap string (option V) :=
  foldl (fun d kv => <[kv.1 := kv.2]> d) ∅ (zip columns cells).

(** [WARNSpider.parse_as_df] from the cleaning of the frame on: the
    items yielded, one per row. *)
Definition parse_as_df_items {V : Type} `{CellValue V} (state_name : string) (timestamp : Z)
    (url : string) (fields_dict : gmap string (option string)) (df : DataFrame V)
  : list (Entry V) :=
  let df := datatodf.drop_empty_rows_cols df in
  map (fun r =>
         let fields := to_dict (columns df) r.2 in
         let norm_fields := items.get_normalized_fields fields_dict fields in
         mkEntry state_name timestamp url fields norm_fields)
      (rows df).

(** A response as the link search reads it: its URL and the strings an
    XPath expression selects in it. *)
Record Response : Type := mkResponse {
  response_url : string;
  xpath : string -> list string
}.

(** Truth of an optional string argument: [None] and [''] are false. *)
Definition given (s : option string) : bool :=
  match s with
  | Some (String _ _) => true
  | _ => false
  end.

(** An optional string inside an f-string. *)
Definition fmt (s : option string) : string := default "None" s.

Section links.
(** [list(set(l))]: the elements of [l], each once, in an order Python
    does not fix. *)
Variable list_set : list string -> list string.
(** [str(l)] for a list of strings *)
Variable repr_list : list string -> string.

(** [WARNSpider.get_links] *)
Definition get_links (response : Response)
    (find_in_text find_in_href exclude_from_href : option string) : M (option (list string)) :=
  if negb (given find_in_text || given find_in_href)
  then
    log ERROR ("Supply one or both of find_in_text and find_in_href to search for links in "
               +:+ response_url response) ;;;
    ret None
  else
    let hrefs :=
      if given find_in_text && given find_in_href
      then xpath response ("//a[contains(text(), " +:+ datatodf.dquote +:+ fmt find_in_text
                           +:+ datatodf.dquote +:+ ")][contains(@href, " +:+ datatodf.dquote
                           +:+ fmt find_in_href +:+ datatodf.dquote +:+ ")]/@href")
      else if given find_in_text
      then xpath response ("//a[contains(text(), " +:+ datatodf.dquote +:+ fmt find_in_text
                           +:+ datatodf.dquote +:+ ")]/@href")
      else if given find_in_href
      then xpath response ("//a[contains(@href, " +:+ datatodf.dquote +:+ fmt find_in_href
                           +:+ datatodf.dquote +:+ ")]/@href")
      else [] in
    if (length hrefs =? 0)%nat
    then
      log ERROR ("No links found with text containing " +:+ fmt find_in_text
                 +:+ " and/or href containing " +:+ fmt find_in_href +:+ " in "
                 +:+ response_url response
                 +:+ ". Please inspect the HTML element(s) you are hoping to find to check if find_in_href and find_in_text need to be updated.") ;;;
      ret (Some hrefs)
    else
      let hrefs := list_set hrefs in
      let hrefs := if given exclude_from_href
                   then List.filter (fun x => negb (contains (fmt exclude_from_href) x)) hrefs
                   else hrefs in
      let hrefs := sort_labels hrefs in
      log INFO ("Found links: " +:+ repr_list hrefs) ;;;
      ret (Some hrefs).

(** [WARNSpider.parse_links]: the links handed to [response.follow], in
    order. *)
Definition parse_links (response : Response)
    (find_in_text find_in_href exclude_from_href : option string) (format : option string)
  : M (list string) :=
  do links <- get_links response find_in_text find_in_href exclude_from_href;
  match links with
  | None => raise (TypeError "'NoneType' object is not iterable")
  | Some links =>
      mmap (fun link =>
              if String.eqb (fmt format) "google_sheets"
              then
                let link := datatodf.get_google_sheets_export_link link in
                log INFO ("updating link to " +:+ link) ;;;
                ret link
              else ret link)
           links
  end.

End links.

(** The attributes [WARNSpider.__init__] sets. *)
Record Spider : Type := mkSpider {
  self_start_urls : list utils.pyobj;
  self_config_url : utils.pyobj;
  self_state_name : utils.pyobj;
  self_state_abbrev : utils.pyobj;
  self_data_format : utils.pyobj;
  self_to_df : option string;
  self_fields_dict : gmap string utils.pyobj;
  self_page_count : Z
}.

(** [WARNSpider.__init__] for a configuration object; [todf_has] tells
    the names the module [datatodf] has. *)
Definition WARNSpider_init (todf_has : string -> bool) (state_config : config.StateConfig)
  : M Spider :=
  do start_url <- config.getattr state_config "URL";
  do config_url <- config.getattr state_config "URL";
  do state_name <- config.getattr state_config "STATE_NAME";
  do state_abbrev <- config.getattr state_config "STATE_ABBREV";
  do data_format <- config.getattr state_config "FORMAT";
  do format <- config.getattr state_config "FORMAT";
  do to_df <- match format with
              | utils.PyStr f => ret (if todf_has f then Some f else None)
              | _ => raise (TypeError "getattr(): attribute name must be string")
              end;
  do _ <- match to_df with
          | None =>
              log WARNING ("invalid format " +:+ utils.str format
                           +:+ " provided for datatodf method from state configuration; will not parse")
          | Some _ => ret tt
          end;
  ret (mkSpider [start_url] config_url state_name state_abbrev data_format to_df
         (config.fields_dict state_config) 0).

End base.

(** ** run_scrape.py *)

Module run_scrape.
Import py.

(** [add_state_to_process]: the configuration a crawl was scheduled
    with, if one was; [has_spider] tells the names the module [states]
    has. *)
Definition add_state_to_process (has_spider : string -> bool)
    (CONFIG : gmap string config.StateConfig) (state : string)
  : M (option config.StateConfig) :=
  match CONFIG !! state with
  | None => raise (KeyError state)
  | Some state_config =>
      do url <- config.getattr state_config "URL";
      if utils.truth url
      then
        if has_spider (state +:+ "WARNSpider")
        then ret (Some state_config)
        else raise (AttributeError ("module 'modules.spiders.states' has no attribute '"
                                    +:+ state +:+ "WARNSpider'"))
      else
        log WARNING ("Skipping " +:+ state +:+ ": no URL or invalid URL provided") ;;;
        ret None
  end.

End run_scrape.

(** ** modules/customdatatodf.py *)

Module customdatatodf.
Import py pandas datatodf.

(** [make_HI_Series]: the entry as the list of its items, in index
    order. *)
Definition make_HI_Series (date_str company_str href_str : string) : list (string * value) :=
  let entry := [] in
  let entry := dict_set "Date Received" (VStr (strip date_str)) entry in
  let entry := dict_set "Company" (VStr (strip company_str)) entry in
  let entry := dict_set "Notice Link" (VStr href_str) entry in
  let entry := dict_set "Updated Links" (VList []) entry in
  let entry := dict_set "Notes" (VStr EmptyString) entry in
  if endswith (strip company_str) "*"
  then
    let entry :=
      dict_set "Notes"
        (VStr "(Scraping note: see HI WARN notice website for further information)") entry in
    dict_set "Company"
      (VStr (strip_by (fun c => Ascii.eqb c "*"%char || Ascii.eqb c " "%char)
               (strip company_str)))
      entry
  else entry.

(** [make_TN_Series] *)
Definition make_TN_Series (str_list : list string) (href : string) : list (string * value) :=
  let keys := ["Date Notice Posted"; "Company"; "County"; "Affected Workers";
               "Closure/Layoff Date"; "Notice/Type"] in
  foldl (fun entry key =>
           let field := map (fun s => strip (delete_all (key +:+ ":") s))
                            (List.filter (contains key) str_list) in
           let field := match field with
                        | [] => EmptyString
                        | f :: _ => f
                        end in
           let entry := dict_set key (VStr field) entry in
           dict_set "Notice Link" (VStr href) entry)
        [] keys.

End customdatatodf.

(** ** modules/pipelines.py *)

Module pipelines.

(** What [process_item] can raise. *)
Inductive raised : Type :=
| KeyError (key : string)
| NameError (name : string).

Section pipelines.
(** The item type and its ['state_name'] field. *)
Context {A : Type} (state_name : A -> string).
(** [config.name2abbrev] and [config.SAVEDIR] *)
Variable name2abbrev : gmap string string.
Variable SAVEDIR : string.
(** [os.path.join] *)
Variable path_join : string -> string -> string.

(** An exporter with its file: the path opened for appending and the
    items exported through it, in order. *)
Record Exporter : Type := mkExporter {
  file_path : string;
  exported : list A
}.

(** [open_spider]: [self.state_to_exporter = {}] *)
Definition open_spider : gmap string Exporter := ∅.

(** [PerStateJsonlinesExportPipeline._exporter_for_item]: the key of
    the exporter returned and [self.state_to_exporter] after the call. *)
Definition _exporter_for_item (state_to_exporter : gmap string Exporter) (item : A)
  : raised + (string * gmap string Exporter) :=
  match name2abbrev !! state_name item with
  | None => inl (KeyError (state_name item))
  | Some state =>
      match state_to_exporter !! state with
      | None =>
          let file_path := path_join SAVEDIR (state +:+ "_WARN_Notices.jsonl") in
          inr (state, <[state := mkExporter file_path []]> state_to_exporter)
      | Some _ => inr (state, state_to_exporter)
      end
  end.

(** [PerStateJsonlinesExportPipeline.process_item]: the item returned
    and [self.state_to_exporter] after the call. *)
Definition process_item (state_to_exporter : gmap string Exporter) (item : A)
  : raised + (A * gmap string Exporter) :=
  match _exporter_for_item state_to_exporter item with
  | inl e => inl e
  | inr (state, state_to_exporter) =>
      inr (item,
           alter (fun ex => mkExporter (file_path ex) (exported ex ++ [item]))
                 state state_to_exporter)
  end.

(** [PerStateCsvExportPipeline._exporter_for_item]: for a state without
    an entry the two files are opened and the exporters started, and
    then the name [exporter], which nothing defines, is read. *)
Definition csv_exporter_for_item (state_to_exporter : gmap string Exporter) (item : A)
  : raised + (string * gmap string Exporter) :=
  match name2abbrev !! state_name item with
  | None => inl (KeyError (state_name item))
  | Some state =>
      match state_to_exporter !! state with
      | None => inl (NameError "exporter")
      | Some _ => inr (state, state_to_exporter)
      end
  end.

(** [PerStateCsvExportPipeline.process_item] *)
Definition csv_process_item (state_to_exporter : gmap string Exporter) (item : A)
  : raised + (A * gmap string Exporter) :=
  match csv_exporter_for_item state_to_exporter item with
  | inl e => inl e
  | inr (state, state_to_exporter) =>
      inr (item,
           alter (fun ex => mkExporter (file_path ex) (exported ex ++ [item]))
                 state state_to_exporter)
  end.

End pipelines.

Arguments mkExporter {A} _ _.
Arguments file_path {A} _.
Arguments exported {A} _.

End pipelines.

(** * Vocabulary of the properties *)

Section vocabulary.
Import py pandas datatodf.

(** [a] is below [b]: wherever [a] is set, [b] is. *)
Definition mask_le (a b : list bool) : Prop :=
  Forall2 (fun x y : bool => x = true -> y = true) a b.

Section cells.
Context {V : Type} `{CellValue V}.

(** A cell that is neither null nor the empty string. *)
Definition nonempty (c : option V) : bool :=
  match c with
  | Some v => negb (eq_str v EmptyString)
  | None => false
  end.

(** What [fillna("")] makes of a cell. *)
Definition filled (c : option V) : option V := Some (default (of_str EmptyString) c).

(** The Cleaner as the specification words it: the rows and the columns
    that hold a non-empty cell stay, in their order and under their
    labels; a null that stays reads as the empty string. *)
Definition Cleaner_spec (df : DataFrame V) : DataFrame V :=
  let keep := any_axis0 nonempty df in
  mkDF (mask_select keep (columns df))
       (map (fun r => (r.1, mask_select keep (map filled r.2)))
            (List.filter (fun r => existsb nonempty r.2) (rows df))).

(** A table the Cleaner has nothing to do on. *)
Definition is_clean (df : DataFrame V) : Prop :=
  wf df /\
  Forall (fun r => Forall (fun c => is_Some c) r.2) (rows df) /\
  Forall (fun r => existsb nonempty r.2 = true) (rows df) /\
  any_axis0 nonempty df = replicate (length (columns df)) true.

(** [any_axis0] on the rows alone *)
Definition col_any (p : option V -> bool) (n : nat) (rs : list (Z * list (option V)))
  : list bool :=
  foldr (fun r acc => zip_with orb (map p r.2) acc) (replicate n false) rs.

Definition width (n : nat) (rs : list (Z * list (option V))) : Prop :=
  Forall (fun r => length r.2 = n) rs.

End cells.

(** The canonical name [StateConfig] derives from a configuration key. *)
Definition canonical (key : string) : string := upper (delete_all "_field" key).


(** The rows of a frame numbered from [k]. *)
Definition enumerate_from {A} (k : nat) (l : list A) : list (Z * A) :=
  zip_with (fun i r => (Z.of_nat i, r)) (seq k (length l)) l.





(** Every row of the sheet has as many cells as the first. *)
Definition rectangular (ws : openpyxl.Worksheet) : Prop :=
  Forall (fun r => length r = length (hd [] (openpyxl.cells ws))) (openpyxl.cells ws).

(** The column labels [excel] reads from a header row. *)
Definition header_labels (r : list openpyxl.Cell) : list string :=
  map (fun c => utils.whitespace_to_singlespace (str_cell (openpyxl.value c))) r.

(** The rows [html] works on: those under [.//body/tr], or those under
    [.//tr] when there are none. *)
Definition table_rows (t : lxml.Table) : list lxml.Row :=
  if (length (lxml.body_tr t) =? 0)%nat then lxml.tr t else lxml.body_tr t.

(** A data row zipped against the column names by position. *)
Definition zipped (columns : list string) (row : lxml.Row) : list (string * value) :=
  dict_zip columns (map VStr (get_text_of_matching_elements_lxml (lxml.td row))).

(** A string without whitespace. *)
Definition no_space (s : string) : Prop :=
  Forall (fun c => is_space c = false) (list_ascii_of_string s).

(** A word: not empty, no whitespace. *)
Definition word (s : string) : Prop := s <> EmptyString /\ no_space s.

(** What [lower_and_underscore] makes of one character. *)
Definition low_under (c : ascii) : ascii :=
  (fun c => if Ascii.eqb c " "%char then "_"%char else c) (lower_char c).

(** A string [strip] leaves alone. *)
Definition trimmed (s : string) : Prop := lstrip s = s /\ rstrip s = s.

(** A configuration row with all that [StateConfig] requires: a state
    name [name2abbrev] knows, an archive URL and a format. *)
Definition complete_row (name2abbrev : gmap string string) (row : list (string * utils.pyobj))
  : Prop :=
  exists name abbrev url format,
    assoc String.eqb "state_name" row = Some (utils.PyStr name) /\
    name2abbrev !! name = Some abbrev /\
    assoc String.eqb "archive_url" row = Some url /\
    assoc String.eqb "format" row = Some format.

(** The last character of a string. *)
Fixpoint last_char (s : string) : option ascii :=
  match s with
  | EmptyString => None
  | String c EmptyString => Some c
  | String _ s' => last_char s'
  end.

(** A pipeline fed the items of a crawl in order, the crawl going on
    after an item whose processing raised: what each call gave, and
    the exporters in the end. *)
Fixpoint feed {A S E : Type} (process : S -> A -> E + (A * S)) (st : S) (items : list A)
  : list (E + A) * S :=
  match items with
  | [] => ([], st)
  | item :: items' =>
      match process st item with
      | inl e => let '(outs, st') := feed process st items' in (inl e :: outs, st')
      | inr (item', st1) => let '(outs, st') := feed process st1 items' in (inr item' :: outs, st')
      end
  end.

(** The items of a state, in order. *)
Definition items_of {A} (state_name : A -> string) (name2abbrev : gmap string string)
    (state : string) (items : list A) : list A :=
  List.filter (fun item => bool_decide (name2abbrev !! state_name item = Some state)) items.

(** [list_set] is [list(set(l))] in some order: every element of [l]
    once. *)
Definition is_list_set (list_set : list string -> list string) : Prop :=
  forall l, NoDup (list_set l) /\ forall x, In x (list_set l) <-> In x l.

(** The XPath expression of the link search: anchors, narrowed by the
    link text and by the href where these are given. *)
Definition link_query (find_in_text find_in_href : option string) : string :=
  "//a"
  +:+ (if base.given find_in_text
       then "[contains(text(), " +:+ dquote +:+ base.fmt find_in_text +:+ dquote +:+ ")]"
       else EmptyString)
  +:+ (if base.given find_in_href
       then "[contains(@href, " +:+ dquote +:+ base.fmt find_in_href +:+ dquote +:+ ")]"
       else EmptyString)
  +:+ "/@href".

(** Ascending order of strings. *)
Definition ascending (l : list string) : Prop :=
  StronglySorted (fun a b => String.leb a b = true) l.

(** The column names and the data rows [html] settles on for a table:
    the first row goes when [drop_first_row] is set, and without header
    cells the next row gives the names. *)
Definition names_and_rows (drop_first_row : bool) (t : lxml.Table)
  : list string * list lxml.Row :=
  let rows := if drop_first_row then tail (table_rows t) else table_rows t in
  match get_text_of_matching_elements_lxml (lxml.th t), rows with
  | [], r0 :: rest => (get_text_of_matching_elements_lxml (lxml.td r0), rest)
  | columns, rows => (columns, rows)
  end.

(** The dict [row_fields] builds for a row. *)
Definition fields_of (urljoin : string -> string -> exn + string) (base_url : string)
    (link_col : option Z) (columns : list string) (row : lxml.Row) : list (string * value) :=
  match (row_fields urljoin base_url link_col columns row).1 with
  | inr fields => fields
  | inl _ => []
  end.

(** The dicts of all data rows of the tables, in document order. *)
Definition html_fields (urljoin : string -> string -> exn + string) (base_url : string)
    (link_col : option Z) (drop_first_row : bool) (tables : list lxml.Table)
  : list (list (string * value)) :=
  List.flat_map
    (fun t => map (fields_of urljoin base_url link_col (names_and_rows drop_first_row t).1)
                  (names_and_rows drop_first_row t).2)
    tables.

(** Whether [urljoin] takes the link [html] joins for a row: the first
    [href] below it, when [link_col] is given and there is one. *)
Definition joins (urljoin : string -> string -> exn + string) (base_url : string)
    (link_col : option Z) (row : lxml.Row) : bool :=
  match link_col, lxml.href row with
  | Some _, h :: _ => match urljoin base_url h with inr _ => true | inl _ => false end
  | _, _ => true
  end.

(** [urljoin] takes every link [html] joins in the tables. *)
Definition joinable (urljoin : string -> string -> exn + string) (base_url : string)
    (link_col : option Z) (drop_first_row : bool) (tables : list lxml.Table) : bool :=
  forallb (fun t => forallb (joins urljoin base_url link_col)
                      (names_and_rows drop_first_row t).2)
          tables.

(** The first [n] cells of a row, as cells of a frame. *)
Definition first_cells (n : nat) (row : lxml.Row) : list (option value) :=
  map Some (take n (map VStr (get_text_of_matching_elements_lxml (lxml.td row)))).

(** The frame [df] tabulates the dicts [fs]: one row for each dict, in
    order and numbered from 0, one cell for each column in every row, a
    column for exactly the keys that occur, and in each row under each
    label the value the dict has for it, NaN where it has none. *)
Definition tabulates (df : DataFrame value) (fs : list (list (string * value))) : Prop :=
  length (rows df) = length fs /\
  wf df /\
  index df = map Z.of_nat (seq 0 (length fs)) /\
  (forall c, In c (columns df) <-> exists f, In f fs /\ is_Some (assoc String.eqb c f)) /\
  (forall i r f j c,
     rows df !! i = Some r -> fs !! i = Some f -> columns df !! j = Some c ->
     r.2 !! j = Some (assoc String.eqb c f)).







(** The rows of a sheet under the header row [h] and above its last
    [f] rows, each under its position in the sheet counted from 0. *)
Definition data_rows (h f : Z) (ws : openpyxl.Worksheet) : list (Z * list (option string)) :=
  let k := S (Z.to_nat h) in
  enumerate_from k
    (List.firstn (Z.to_nat (Z.of_nat (length (openpyxl.cells ws)) - f) - k)
                 (List.skipn k (openpyxl.values ws))).

(** A sheet [excel] can read with header row [h] and footer [f]: its
    rows are equally long, row [h] exists and gives the labels [cols],
    and it has at least [f] rows. *)
Definition readable (h f : Z) (cols : list string) (ws : openpyxl.Worksheet) : Prop :=
  rectangular ws /\
  (f <= Z.of_nat (length (openpyxl.cells ws)))%Z /\
  header_labels <$> openpyxl.cells ws !! Z.to_nat h = Some cols.

End vocabulary.

(** ** Inputs of the examples *)

(** A table with an all-null row, a row of nulls and empty strings, and
    a column of nulls and empty strings. *)
Definition cleaner_example : pandas.DataFrame string :=
  pandas.mkDF ["Date"; "Note"; "Company"]
    [(0%Z, [Some "2020-01-02"; None; Some "Acme"]);
     (1%Z, [None; None; None]);
     (2%Z, [Some EmptyString; None; Some EmptyString]);
     (3%Z, [None; Some EmptyString; Some "Bolt"])].

(** The field mapping of a configuration row; the notes column was
    left blank. *)
Definition fields_example : gmap string (option string) :=
  config.FIELDS [("state_name", Some "Alabama"); ("company_field", Some "Company");
                 ("county_field", Some "County"); ("notes_field", None)].

(** A row that has a Company column and no County column. *)
Definition row_example : gmap string (option string) :=
  base.to_dict ["Company"; "City"] [Some "Acme"; Some "Mobile"].

Definition text_cell (s : string) : openpyxl.Cell := openpyxl.mkCell (Some s) None.

(** A sheet of five rows: a title, the column names, two notices and a
    footer. *)
Definition five_row_sheet : openpyxl.Worksheet :=
  openpyxl.mkWorksheet "Sheet1"
    [[text_cell "WARN notices"; text_cell EmptyString];
     [text_cell "Date"; text_cell "Company"];
     [text_cell "2020-01-02"; text_cell "Acme"];
     [text_cell "2020-02-03"; text_cell "Bolt"];
     [text_cell "Total"; text_cell "2"]].

Definition linked_cell (s target : string) : openpyxl.Cell :=
  openpyxl.mkCell (Some s) (Some target).

(** A sheet whose every cell carries a hyperlink. *)
Definition linked_sheet : openpyxl.Worksheet :=
  openpyxl.mkWorksheet "Sheet1"
    [[linked_cell "Date" "https://example.org/dates";
      linked_cell "Company" "https://example.org/companies"];
     [linked_cell "2020-01-02" "https://example.org/2020-01-02";
      linked_cell "Acme" "https://example.org/acme.pdf"]].

(** A document whose only table has the rows A, B and 1, 2 and no
    header cells. *)
Definition ab_document : lxml.Document :=
  fun query =>
    inr (if String.eqb query "//table"
         then [lxml.mkTable [] [] [lxml.mkRow ["A"; "B"] []; lxml.mkRow ["1"; "2"] []]]
         else []).

(** The same with the names the other way round, and a third row. *)
Definition ba_document : lxml.Document :=
  fun query =>
    inr (if String.eqb query "//table"
         then [lxml.mkTable [] []
                 [lxml.mkRow ["B"; "A"] []; lxml.mkRow ["1"; "2"] [];
                  lxml.mkRow [" 3"; "4 "; "5"] []]]
         else []).

(** A document without any table. *)
Definition empty_document : lxml.Document := fun _ => inr [].

(** What an empty file parses to: a tree without a root element. *)
Definition rootless_document : lxml.Document :=
  fun _ => inl (py.AssertionError "ElementTree not initialized, missing root").

(** A sheet without rows. *)
Definition empty_sheet : openpyxl.Worksheet := openpyxl.mkWorksheet "Sheet1" [].

(** A stand-in for [urljoin] in the examples: it rejects an href with
    an opening bracket, as [urljoin] does one with an unclosed IPv6
    host, and otherwise puts the href after the base. *)
Definition join_url (base href : string) : py.exn + string :=
  if py.contains "[" href then inl (py.ValueError "Invalid IPv6 URL")
  else inr (base +:+ href).

(** * Properties *)

(** ** The Python runtime on examples *)

Example split_ex : py.split "  Notice
  Date " = ["Notice"; "Date"].
Proof. reflexivity. Qed.

Example ws_ex : utils.whitespace_to_singlespace " a   b " = "a b".
Proof. reflexivity. Qed.

Example strip_ex : py.strip "  a b  " = "a b".
Proof. reflexivity. Qed.

Example delete_all_ex : py.delete_all "_field" "company_field_field" = "company".
Proof. reflexivity. Qed.

Example endswith_ex : py.endswith "company_field" "_field" = true /\ py.endswith "field" "_field" = false.
Proof. split; reflexivity. Qed.

Example range_ex : py.range 4 5 = [4%Z] /\ py.range 0 2 = [0%Z; 1%Z] /\ py.range 3 1 = [].
Proof. repeat split; reflexivity. Qed.

Example to_bool_ex :
  utils.to_bool (utils.PyStr "YES") = (Some true, []) /\
  utils.to_bool (utils.PyBool false) = (Some false, []) /\
  utils.to_bool utils.PyNone = (None, []) /\
  utils.to_bool (utils.PyInt 1) = (None, [(py.WARNING, "Could not convert 1 to bool")]).
Proof. repeat split; reflexivity. Qed.

(** ** Boolean masks *)

Section masks.
Import pandas.

Lemma mask_select_nil_r {A} (m : list bool) : mask_select m (@nil A) = [].
Proof. by destruct m as [|[] m]. Qed.

Lemma mask_select_map {A B} (f : A -> B) (m : list bool) (xs : list A) :
  mask_select m (map f xs) = map f (mask_select m xs).
Proof.
  revert xs; induction m as [|b m IH]; intros [|x xs]; simpl; try done.
  destruct b; simpl; by rewrite IH.
Qed.

Lemma mask_select_all {A} (xs : list A) :
  mask_select (replicate (length xs) true) xs = xs.
Proof. induction xs as [|x xs IH]; simpl; [done | by rewrite IH]. Qed.

Lemma mask_select_map_self {A} (f : A -> bool) (xs : list A) :
  mask_select (map f xs) xs = List.filter f xs.
Proof.
  induction xs as [|x xs IH]; simpl; [done |].
  destruct (f x); by rewrite IH.
Qed.

Lemma mask_select_zip_orb (m a b : list bool) :
  mask_select m (zip_with orb a b) = zip_with orb (mask_select m a) (mask_select m b).
Proof.
  revert a b; induction m as [|x m IH]; intros [|y a] [|z b]; simpl; try done.
  - destruct x; simpl; by destruct (mask_select m a).
  - destruct x; simpl; by rewrite IH.
Qed.

Lemma mask_select_length {A B} (m : list bool) (xs : list A) (ys : list B) :
  length xs = length ys -> length (mask_select m xs) = length (mask_select m ys).
Proof.
  revert xs ys; induction m as [|b m IH]; intros [|x xs] [|y ys] Hl; simpl in *; try done.
  destruct b; simpl; auto.
Qed.

Lemma mask_select_replicate {A B} (m : list bool) (xs : list A) (y : B) :
  mask_select m (replicate (length xs) y) = replicate (length (mask_select m xs)) y.
Proof.
  revert xs; induction m as [|b m IH]; intros [|x xs]; simpl; try done.
  destruct b; simpl; by rewrite IH.
Qed.

Lemma mask_select_self (m : list bool) :
  mask_select m m = replicate (length (mask_select m m)) true.
Proof.
  induction m as [|[] m IH]; simpl; [done | | done].
  by rewrite <- IH.
Qed.

(** Selecting by [k] in one step is selecting by [m] and then by what
    [m] leaves of [k], when [k] is below [m]. *)
Lemma mask_select_twice {A} (k m : list bool) (xs : list A) :
  mask_le k m ->
  mask_select (mask_select m k) (mask_select m xs) = mask_select k xs.
Proof.
  intros Hle; revert xs; induction Hle as [|x y k m Hxy Hle IH]; intros [|z xs]; simpl.
  - done.
  - done.
  - destruct y; simpl; [by destruct x | by rewrite mask_select_nil_r; destruct x].
  - destruct y; simpl.
    + destruct x; by rewrite IH.
    + destruct x; [by specialize (Hxy eq_refl) | apply IH].
Qed.

Lemma mask_le_refl (a : list bool) : mask_le a a.
Proof. induction a; constructor; auto. Qed.

Lemma mask_le_zip_orb (a b c d : list bool) :
  mask_le a b -> mask_le c d -> mask_le (zip_with orb a c) (zip_with orb b d).
Proof.
  intros Hab; revert c d; induction Hab as [|x y a b Hxy Hab IH]; intros c d Hcd.
  - constructor.
  - destruct Hcd as [|u v c d Huv Hcd]; simpl; constructor; [| by apply IH].
    intros [Hx | Hu]%orb_true_iff; apply orb_true_iff; auto.
Qed.

Lemma mask_le_zip_orb_l (a c : list bool) :
  length a = length c -> mask_le a (zip_with orb a c).
Proof.
  revert c; induction a as [|x a IH]; intros [|y c] Hl; simpl in *; try done.
  - constructor.
  - constructor; [by destruct x | apply IH; lia].
Qed.

Lemma mask_le_zip_orb_r (a b c : list bool) :
  length a = length c -> mask_le a b -> mask_le a (zip_with orb c b).
Proof.
  intros Hl Hab; revert c Hl; induction Hab as [|x y a b Hxy Hab IH]; intros [|z c] Hl;
    simpl in *; try done.
  - constructor.
  - constructor; [| apply IH; lia].
    intros Hx. rewrite (Hxy Hx). apply orb_true_r.
Qed.

Lemma zip_orb_false_l (n : nat) (a : list bool) :
  length a = n -> zip_with orb (replicate n false) a = a.
Proof.
  revert a; induction n as [|n IH]; intros [|x a] Hl; simpl in *; try done.
  rewrite IH; [done | lia].
Qed.

Lemma existsb_false_map {A} (p : A -> bool) (l : list A) :
  existsb p l = false -> map p l = replicate (length l) false.
Proof.
  induction l as [|x l IH]; simpl; [done |].
  intros [Hx Hl]%orb_false_iff. by rewrite Hx, IH.
Qed.

Lemma existsb_mask_select_le (a m : list bool) :
  mask_le a m -> existsb id (mask_select m a) = existsb id a.
Proof.
  induction 1 as [|x y a m Hxy Hle IH]; simpl; [done |].
  destruct y; simpl; [by rewrite IH |].
  destruct x; [by specialize (Hxy eq_refl) | done].
Qed.

Lemma existsb_map_id {A} (p : A -> bool) (l : list A) :
  existsb id (map p l) = existsb p l.
Proof. induction l as [|x l IH]; simpl; [done | by rewrite IH]. Qed.

Lemma filter_all {A} (f : A -> bool) (l : list A) :
  Forall (fun x => f x = true) l -> List.filter f l = l.
Proof. induction 1 as [|x l Hx Hl IH]; simpl; [done | by rewrite Hx, IH]. Qed.

Lemma filter_map_comm {A B} (g : B -> bool) (h : A -> B) (l : list A) :
  List.filter g (map h l) = map h (List.filter (fun x => g (h x)) l).
Proof.
  induction l as [|x l IH]; simpl; [done |].
  destruct (g (h x)); simpl; by rewrite IH.
Qed.

Lemma filter_filter_impl {A} (f g : A -> bool) (l : list A) :
  (forall x, g x = true -> f x = true) ->
  List.filter g (List.filter f l) = List.filter g l.
Proof.
  intros Hi; induction l as [|x l IH]; simpl; [done |].
  destruct (f x) eqn:Hf; simpl; [by rewrite IH |].
  destruct (g x) eqn:Hg; [| done].
  by rewrite (Hi x Hg) in Hf.
Qed.

Lemma filter_ext_Forall {A} (f g : A -> bool) (l : list A) :
  Forall (fun x => f x = g x) l -> List.filter f l = List.filter g l.
Proof. induction 1 as [|x l Hx Hl IH]; simpl; [done | by rewrite Hx, IH]. Qed.

Lemma all_true_lookup (l : list bool) :
  l = replicate (length l) true <-> forall j, (j < length l)%nat -> l !! j = Some true.
Proof.
  split.
  - intros -> j Hj. rewrite length_replicate in Hj. by apply lookup_replicate_2.
  - induction l as [|x l IH]; simpl; [done |]. intros Hj.
    rewrite <- IH; [| intros j Hlt; apply (Hj (S j)); lia].
    specialize (Hj 0%nat ltac:(lia)). simpl in Hj. by inversion Hj.
Qed.

End masks.

(** ** The Cleaner *)

Section cleaner.
Import py pandas datatodf.
Context {V : Type} `{CellValue V}.

Lemma col_any_length (p : option V -> bool) n (rs : list (Z * list (option V))) : width n rs -> length (col_any p n rs) = n.
Proof.
  induction 1 as [|r rs Hr Hrs IH]; simpl.
  - apply length_replicate.
  - rewrite length_zip_with, List.length_map, IH. lia.
Qed.

Lemma col_any_row_le (p : option V -> bool) n (rs : list (Z * list (option V))) r :
  width n rs -> r ∈ rs -> mask_le (map p r.2) (col_any p n rs).
Proof.
  induction 1 as [|r' rs Hr Hrs IH]; [by intros ?%elem_of_nil |].
  intros [-> | Hin]%elem_of_cons; simpl.
  - apply mask_le_zip_orb_l. by rewrite List.length_map, col_any_length.
  - apply mask_le_zip_orb_r; [| by apply IH].
    rewrite !List.length_map. apply list_elem_of_In in Hin.
    unfold width in Hrs. rewrite List.Forall_forall in Hrs.
    rewrite Hr. by apply Hrs.
Qed.

Lemma col_any_mono (p q : option V -> bool) n (rs : list (Z * list (option V))) :
  (forall c, p c = true -> q c = true) -> mask_le (col_any p n rs) (col_any q n rs).
Proof.
  intros Hpq; induction rs as [|r rs IH]; simpl; [apply mask_le_refl |].
  apply mask_le_zip_orb; [| done].
  induction (r.2) as [|c l IHl]; simpl; constructor; auto.
Qed.

Lemma col_any_ext (p q : option V -> bool) n (rs : list (Z * list (option V))) :
  Forall (fun r => Forall (fun c => p c = q c) r.2) rs -> col_any p n rs = col_any q n rs.
Proof.
  induction 1 as [|r rs Hr Hrs IH]; simpl; [done |].
  rewrite IH. f_equal. induction Hr as [|c l Hc Hl IHl]; simpl; [done | by rewrite Hc, IHl].
Qed.

Lemma col_any_filter (p : option V -> bool) f n (rs : list (Z * list (option V))) :
  width n rs ->
  (forall r, f r = false -> existsb p r.2 = false) ->
  col_any p n (List.filter f rs) = col_any p n rs.
Proof.
  intros Hw Hf; induction Hw as [|r rs Hr Hrs IH]; simpl; [done |].
  destruct (f r) eqn:Hfr; simpl; [by rewrite IH |].
  rewrite (existsb_false_map _ _ (Hf r Hfr)), IH, zip_orb_false_l; [done |].
  by rewrite col_any_length, Hr.
Qed.

Lemma col_any_select {A} (p : option V -> bool) (m : list bool) (cols : list A)
    (rs : list (Z * list (option V))) :
  col_any p (length (mask_select m cols)) (map (fun r => (r.1, mask_select m r.2)) rs)
  = mask_select m (col_any p (length cols) rs).
Proof.
  induction rs as [|r rs IH]; simpl.
  - by rewrite mask_select_replicate.
  - by rewrite IH, mask_select_zip_orb, mask_select_map.
Qed.

Lemma col_any_map_cells (p : option V -> bool) (g : option V -> option V) n
    (rs : list (Z * list (option V))) :
  col_any p n (map (fun r => (r.1, map g r.2)) rs) = col_any (fun c => p (g c)) n rs.
Proof.
  induction rs as [|r rs IH]; simpl; [done |].
  by rewrite IH, map_map.
Qed.

Lemma col_any_true (p : option V -> bool) n (rs : list (Z * list (option V))) j :
  col_any p n rs !! j = Some true ->
  exists r c, r ∈ rs /\ r.2 !! j = Some c /\ p c = true.
Proof.
  induction rs as [|r rs IH]; simpl.
  - intros Hj. apply lookup_replicate in Hj as [? _]. done.
  - intros Hj. apply lookup_zip_with_Some in Hj as (x & y & Hxy & Hx & Hy).
    symmetry in Hxy. apply orb_true_iff in Hxy as [-> | ->].
    + rewrite list_lookup_fmap in Hx.
      destruct (r.2 !! j) as [c|] eqn:Hc; simpl in Hx; [| done].
      exists r, c. split; [apply elem_of_cons; by left |]. split; [done | congruence].
    + destruct (IH Hy) as (r' & c & Hin & Hc & Hp).
      exists r', c. split; [apply elem_of_cons; by right | done].
Qed.

End cleaner.

Section cleaner_stages.
Import py pandas datatodf.
Context {V : Type} `{CellValue V}.

Lemma nonempty_notna (c : option V) : nonempty c = true -> notna c = true.
Proof. by destruct c. Qed.

Lemma ne_filled (c : option V) : ne EmptyString (filled c) = nonempty c.
Proof. destruct c; simpl; [done |]. by rewrite eq_of_str. Qed.

Lemma nonempty_Some (c : option V) : is_Some c -> nonempty c = ne EmptyString c.
Proof. by intros [v ->]. Qed.

Lemma filled_Some (c : option V) : is_Some c -> filled c = c.
Proof. by intros [v ->]. Qed.

Lemma any_axis0_fillna (df : DataFrame V) :
  any_axis0 (ne EmptyString) (fillna EmptyString df) = any_axis0 nonempty df.
Proof.
  unfold any_axis0, fillna; simpl.
  change (col_any (ne EmptyString) (length (columns df))
            (map (fun r => (r.1, map filled r.2)) (rows df))
          = col_any nonempty (length (columns df)) (rows df)).
  rewrite col_any_map_cells. apply col_any_ext.
  apply Forall_forall; intros r _. apply Forall_forall; intros c _. apply ne_filled.
Qed.

(** Whether a row keeps a non-empty cell is not changed by filling it
    and selecting the columns of a mask above the row's own pattern. *)
Lemma row_any_select (km : list bool) (r : list (option V)) :
  mask_le (map nonempty r) km ->
  existsb (ne EmptyString) (mask_select km (map filled r)) = existsb nonempty r.
Proof.
  intros Hle.
  rewrite <- existsb_map_id, <- mask_select_map, map_map.
  rewrite (map_ext _ nonempty) by apply ne_filled.
  by rewrite existsb_mask_select_le, existsb_map_id.
Qed.

(** The second half of [drop_empty_rows_cols] (from [fillna] on) is the
    Cleaner of the specification. *)
Lemma stage2_spec (df : DataFrame V) :
  wf df ->
  (let d3 := fillna EmptyString df in
   let d4 := loc_columns (any_axis0 (ne EmptyString) d3) d3 in
   loc_rows (any_axis1 (ne EmptyString) d4) d4) = Cleaner_spec df.
Proof.
  intros Hwf. cbv zeta. rewrite any_axis0_fillna.
  unfold loc_rows, any_axis1, loc_columns, Cleaner_spec; simpl.
  f_equal.
  rewrite mask_select_map_self, map_map; simpl.
  rewrite filter_map_comm; simpl. f_equal.
  apply filter_ext_Forall, Forall_forall; intros r Hr.
  apply row_any_select, col_any_row_le; [exact Hwf | done].
Qed.

Lemma wf_inplace (df : DataFrame V) : wf df -> wf (drop_empty_rows_cols_inplace df).
Proof.
  intros Hwf. unfold wf, drop_empty_rows_cols_inplace, dropna_columns, loc_columns; simpl.
  apply Forall_forall; intros r [r0 [-> Hr0]]%list_elem_of_fmap; simpl.
  apply mask_select_length.
  unfold dropna_rows, loc_rows, any_axis1 in Hr0; simpl in Hr0.
  rewrite mask_select_map_self in Hr0.
  apply list_elem_of_In, List.filter_In in Hr0 as [Hr0 _].
  unfold wf in Hwf. rewrite List.Forall_forall in Hwf. by apply Hwf.
Qed.

End cleaner_stages.

Section cleaner_results.
Import py pandas datatodf.
Context {V : Type} `{CellValue V}.

Lemma mask_le_trans (a b c : list bool) : mask_le a b -> mask_le b c -> mask_le a c.
Proof.
  intros Hab; revert c; induction Hab as [|x y a b Hxy Hab IH]; intros c Hbc;
    inversion Hbc; subst; constructor; [auto | by apply IH].
Qed.

Lemma Forall_mask_select {A} (P : A -> Prop) (m : list bool) (xs : list A) :
  Forall P xs -> Forall P (mask_select m xs).
Proof.
  intros HP; revert m; induction HP as [|x xs Hx Hxs IH]; intros [|[] m]; simpl;
    try constructor; auto.
Qed.

(** The two in-place [dropna] calls remove nothing the Cleaner keeps. *)
Lemma Cleaner_spec_inplace (df : DataFrame V) :
  wf df -> Cleaner_spec (drop_empty_rows_cols_inplace df) = Cleaner_spec df.
Proof.
  intros Hwf.
  set (f1 := fun r : Z * list (option V) => existsb notna r.2).
  set (n := length (columns df)).
  set (m1 := col_any notna n (List.filter f1 (rows df))).
  set (km := col_any nonempty n (rows df)).
  assert (Hd1 : width n (List.filter f1 (rows df))).
  { apply Forall_forall; intros r Hr%list_elem_of_In%List.filter_In.
    unfold wf in Hwf. rewrite List.Forall_forall in Hwf. apply Hwf, Hr. }
  assert (Hkm : col_any nonempty n (List.filter f1 (rows df)) = km).
  { apply col_any_filter; [exact Hwf |]. intros r Hr.
    destruct (existsb nonempty r.2) eqn:He; [| done].
    apply existsb_exists in He as (c & Hc & Hne).
    assert (f1 r = true); [| congruence].
    apply existsb_exists. exists c. split; [done | by apply nonempty_notna]. }
  assert (Hle : mask_le km m1).
  { rewrite <- Hkm. apply col_any_mono, nonempty_notna. }
  assert (Hinpl : drop_empty_rows_cols_inplace df
                  = mkDF (mask_select m1 (columns df))
                         (map (fun r => (r.1, mask_select m1 r.2)) (List.filter f1 (rows df)))).
  { unfold drop_empty_rows_cols_inplace, dropna_columns, dropna_rows, loc_columns, loc_rows,
      any_axis1; simpl.
    rewrite mask_select_map_self. reflexivity. }
  rewrite Hinpl. unfold Cleaner_spec; simpl.
  change (any_axis0 nonempty {| columns := mask_select m1 (columns df);
            rows := map (fun r => (r.1, mask_select m1 r.2)) (List.filter f1 (rows df)) |})
    with (col_any nonempty (length (mask_select m1 (columns df)))
            (map (fun r => (r.1, mask_select m1 r.2)) (List.filter f1 (rows df)))).
  change (any_axis0 nonempty df) with km.
  rewrite col_any_select. fold n. rewrite Hkm.
  rewrite (mask_select_twice _ _ _ Hle). f_equal.
  rewrite filter_map_comm, map_map; simpl.
  assert (Hrow : forall r, r ∈ rows df -> mask_le (map nonempty r.2) m1).
  { intros r Hr. eapply mask_le_trans; [| exact Hle]. by apply col_any_row_le. }
  rewrite (filter_ext_Forall _ (fun r => existsb nonempty r.2)).
  - rewrite filter_filter_impl.
    + apply map_ext; intros r.
      by rewrite <- mask_select_map, (mask_select_twice _ _ _ Hle).
    + intros r (c & Hc & Hne)%existsb_exists. apply existsb_exists.
      exists c. split; [done | by apply nonempty_notna].
  - apply Forall_forall; intros r Hr%list_elem_of_In%List.filter_In.
    destruct Hr as [Hr%list_elem_of_In _].
    rewrite <- (existsb_map_id nonempty (mask_select _ _)), <- mask_select_map.
    rewrite existsb_mask_select_le by auto. apply existsb_map_id.
Qed.

(** [drop_empty_rows_cols] computes the Cleaner of the specification. *)
Lemma drop_empty_rows_cols_spec (df : DataFrame V) :
  wf df -> drop_empty_rows_cols df = Cleaner_spec df.
Proof.
  intros Hwf.
  rewrite <- (Cleaner_spec_inplace df Hwf), <- (stage2_spec _ (wf_inplace df Hwf)).
  reflexivity.
Qed.

Lemma nonempty_filled (c : option V) : nonempty (filled c) = nonempty c.
Proof. destruct c; simpl; [done |]. by rewrite eq_of_str. Qed.

Lemma existsb_ext_Forall {A} (p q : A -> bool) (l : list A) :
  Forall (fun x => p x = q x) l -> existsb p l = existsb q l.
Proof. induction 1 as [|x l Hx Hl IH]; simpl; [done | by rewrite Hx, IH]. Qed.

Lemma Cleaner_spec_clean (df : DataFrame V) : wf df -> is_clean (Cleaner_spec df).
Proof.
  intros Hwf.
  set (km := any_axis0 nonempty df).
  assert (Hklen : length km = length (columns df)) by (apply col_any_length, Hwf).
  assert (Hrows : forall r, r ∈ rows df -> length r.2 = length (columns df)).
  { intros r Hr%list_elem_of_In. unfold wf in Hwf. rewrite List.Forall_forall in Hwf. auto. }
  assert (Hsome : forall r0 : Z * list (option V),
             Forall (fun c => is_Some c) (mask_select km (map filled r0.2))).
  { intros r0. apply Forall_mask_select, Forall_forall.
    intros c [c0 [-> _]]%list_elem_of_fmap. by eexists. }
  repeat split.
  - apply Forall_forall; intros r [r0 [-> Hr0]]%list_elem_of_fmap; simpl.
    apply mask_select_length. rewrite List.length_map.
    apply list_elem_of_In, List.filter_In in Hr0 as [Hr0%list_elem_of_In _]. auto.
  - apply Forall_forall; intros r [r0 [-> Hr0]]%list_elem_of_fmap; simpl. apply Hsome.
  - apply Forall_forall; intros r [r0 [-> Hr0]]%list_elem_of_fmap; simpl.
    apply list_elem_of_In, List.filter_In in Hr0 as [Hr0%list_elem_of_In He].
    rewrite (existsb_ext_Forall nonempty (ne EmptyString)).
    + rewrite row_any_select; [done | by apply col_any_row_le].
    + eapply Forall_impl; [apply Hsome |]. intros c Hc. by apply nonempty_Some.
  - unfold Cleaner_spec; simpl. fold km.
    change (col_any nonempty (length (mask_select km (columns df)))
              (map (fun r => (r.1, mask_select km (map filled r.2)))
                   (List.filter (fun r => existsb nonempty r.2) (rows df)))
            = replicate (length (mask_select km (columns df))) true).
    set (kept := List.filter (fun r : Z * list (option V) => existsb nonempty r.2) (rows df)).
    replace (map (fun r : Z * list (option V) => (r.1, mask_select km (map filled r.2))) kept)
      with (map (fun r : Z * list (option V) => (r.1, mask_select km r.2))
              (map (fun r : Z * list (option V) => (r.1, map filled r.2)) kept))
      by (by rewrite map_map).
    subst kept. rewrite col_any_select, col_any_map_cells.
    rewrite (col_any_ext _ nonempty)
      by (apply Forall_forall; intros r _; apply Forall_forall; intros c _;
          apply nonempty_filled).
    rewrite col_any_filter; [| exact Hwf | by intros r ->].
    change (col_any nonempty (length (columns df)) (rows df)) with km.
    rewrite (mask_select_length km (columns df) km) by done.
    apply mask_select_self.
Qed.

(** On a clean table the Cleaner changes nothing. *)
Lemma Cleaner_spec_fixpoint (df : DataFrame V) : is_clean df -> Cleaner_spec df = df.
Proof.
  intros (Hwf & Hsome & Hrow & Hcol). destruct df as [cols rs]; simpl in *.
  unfold Cleaner_spec; simpl. rewrite Hcol, mask_select_all. f_equal.
  rewrite filter_all by exact Hrow.
  rewrite <- (map_id rs) at 2. apply map_ext_Forall.
  rewrite Forall_forall; intros [i r] Hr; simpl.
  unfold wf in Hwf; simpl in Hwf. rewrite Forall_forall in Hwf, Hsome.
  specialize (Hwf _ Hr). specialize (Hsome _ Hr). simpl in *.
  f_equal. rewrite <- Hwf, <- (List.length_map filled), mask_select_all.
  rewrite <- (map_id r) at 2. apply map_ext_Forall.
  eapply Forall_impl; [exact Hsome |]. intros c Hc. by apply filled_Some.
Qed.

End cleaner_results.

Section cleaner_claims.
Import py pandas datatodf.
Context {V : Type} `{CellValue V}.

Lemma col_any_lookup (p : option V -> bool) n (rs : list (Z * list (option V))) j :
  width n rs ->
  col_any p n rs !! j = Some true <-> exists r c, r ∈ rs /\ r.2 !! j = Some c /\ p c = true.
Proof.
  intros Hw; split; [apply col_any_true |].
  intros (r & c & Hr & Hc & Hp).
  pose proof (col_any_row_le p n rs r Hw Hr) as Hle.
  assert (Hj : map p r.2 !! j = Some true) by (by rewrite list_lookup_fmap, Hc; simpl; rewrite Hp).
  destruct (Forall2_lookup_l _ _ _ _ _ Hle Hj) as (y & Hy & Hty).
  by rewrite Hy, Hty.
Qed.

(** C1.  The Cleaner is idempotent: for every table [df] (one cell per
    column in each row), cleaning the cleaned table gives the cleaned
    table again.  The same holds for the caller's own frame, which the
    call has changed in place: cleaning it gives the same table. *)
Theorem drop_empty_rows_cols_idempotent (df : DataFrame V) :
  wf df ->
  drop_empty_rows_cols (drop_empty_rows_cols df) = drop_empty_rows_cols df /\
  drop_empty_rows_cols (drop_empty_rows_cols_inplace df) = drop_empty_rows_cols df.
Proof.
  intros Hwf. split.
  - rewrite (drop_empty_rows_cols_spec df Hwf).
    pose proof (Cleaner_spec_clean df Hwf) as Hc.
    rewrite drop_empty_rows_cols_spec by apply Hc.
    by apply Cleaner_spec_fixpoint.
  - rewrite drop_empty_rows_cols_spec by (by apply wf_inplace).
    rewrite Cleaner_spec_inplace by done.
    symmetry. by apply drop_empty_rows_cols_spec.
Qed.

(** C2.  The Cleaner removes exactly the rows and the columns whose
    cells are all empty (null or the empty string).  With [keep] the
    mask of the columns of [df] that hold a non-empty cell: the result
    has the columns of [df] under [keep] and the rows of [df] that hold
    a non-empty cell, in order and under their labels, each cut to the
    columns kept, a value that is not null unchanged; and every row and
    every column of the result holds a non-empty cell. *)
Theorem drop_empty_rows_cols_exact (df : DataFrame V) :
  wf df ->
  let out := drop_empty_rows_cols df in
  let keep := any_axis0 nonempty df in
  (forall j, keep !! j = Some true <->
             exists r c, r ∈ rows df /\ r.2 !! j = Some c /\ nonempty c = true) /\
  columns out = mask_select keep (columns df) /\
  rows out = map (fun r => (r.1, mask_select keep (map filled r.2)))
                 (List.filter (fun r => existsb nonempty r.2) (rows df)) /\
  (forall v, filled (Some v) = Some v) /\
  (forall r, r ∈ rows out -> exists c, c ∈ r.2 /\ nonempty c = true) /\
  (forall j, (j < length (columns out))%nat ->
             exists r c, r ∈ rows out /\ r.2 !! j = Some c /\ nonempty c = true).
Proof.
  intros Hwf out keep.
  assert (Hout : out = Cleaner_spec df) by apply (drop_empty_rows_cols_spec df Hwf).
  destruct (Cleaner_spec_clean df Hwf) as (Hwf' & _ & Hrow & Hcol).
  rewrite <- Hout in Hwf', Hrow, Hcol.
  split; [intros j; apply (col_any_lookup nonempty _ _ j Hwf) |].
  split; [by rewrite Hout |]. split; [by rewrite Hout |]. split; [done |]. split.
  - intros r Hr. rewrite Forall_forall in Hrow. specialize (Hrow r Hr).
    apply existsb_exists in Hrow as (c & Hc%list_elem_of_In & Hne). eauto.
  - intros j Hj. apply (col_any_lookup nonempty _ _ j Hwf').
    change (any_axis0 nonempty out !! j = Some true).
    rewrite Hcol. by apply lookup_replicate_2.
Qed.

End cleaner_claims.

Example cleaner_example_result :
  datatodf.drop_empty_rows_cols cleaner_example
  = pandas.mkDF ["Date"; "Company"]
      [(0%Z, [Some "2020-01-02"; Some "Acme"]); (3%Z, [Some EmptyString; Some "Bolt"])].
Proof. reflexivity. Qed.

Lemma cleaner_example_wf : pandas.wf cleaner_example.
Proof. repeat constructor. Qed.

Lemma drop_empty_rows_cols_idempotent_witness :
  pandas.wf cleaner_example /\
  datatodf.drop_empty_rows_cols (datatodf.drop_empty_rows_cols cleaner_example)
  = datatodf.drop_empty_rows_cols cleaner_example /\
  datatodf.drop_empty_rows_cols (datatodf.drop_empty_rows_cols_inplace cleaner_example)
  = datatodf.drop_empty_rows_cols cleaner_example.
Proof.
  split; [repeat constructor |].
  apply (drop_empty_rows_cols_idempotent cleaner_example). repeat constructor.
Defined.

Lemma drop_empty_rows_cols_exact_witness :
  pandas.wf cleaner_example /\
  pandas.columns (datatodf.drop_empty_rows_cols cleaner_example)
  = pandas.mask_select [true; false; true] (pandas.columns cleaner_example) /\
  (forall r, r ∈ pandas.rows (datatodf.drop_empty_rows_cols cleaner_example) ->
             exists c, c ∈ r.2 /\ nonempty c = true).
Proof.
  split; [repeat constructor |].
  pose proof (drop_empty_rows_cols_exact cleaner_example ltac:(repeat constructor)) as Hx.
  cbv zeta in Hx. destruct Hx as (_ & Hcols & _ & _ & Hrows & _).
  split; [exact Hcols | exact Hrows].
Defined.

(** ** [to_bool] *)

Section to_bool_facts.
Import py utils.

Lemma str_in_elem (s : string) (l : list string) : str_in s l = true <-> s ∈ l.
Proof.
  unfold str_in. rewrite existsb_exists. split.
  - intros (t & Ht & ->%String.eqb_eq). by apply list_elem_of_In.
  - intros Hs. exists s. split; [by apply list_elem_of_In | apply String.eqb_refl].
Qed.

Lemma truthy_not_falsy (s : string) : s ∈ truthy -> s ∈ falsy -> False.
Proof.
  unfold truthy, falsy. rewrite !elem_of_cons, !elem_of_nil.
  intros [-> | [-> | [-> | [-> | []]]]] [? | [? | [? | [? | []]]]]; discriminate.
Qed.

(** C10.  [to_bool] returns a value for every input and never raises:
    it returns [True] exactly when the lowercased text of the input is
    one of yes, y, true, t; [False] exactly when it is one of no, n,
    false, f; and [None] for everything else, among them the empty
    string, nan and none (for which nothing is logged). *)
Theorem to_bool_cases (x : pyobj) :
  let s := lower (str x) in
  ((to_bool x).1 = Some true <-> s ∈ ["yes"; "y"; "true"; "t"]) /\
  ((to_bool x).1 = Some false <-> s ∈ ["no"; "n"; "false"; "f"]) /\
  (s ∉ ["yes"; "y"; "true"; "t"] -> s ∉ ["no"; "n"; "false"; "f"] -> (to_bool x).1 = None) /\
  to_bool (PyStr EmptyString) = (None, []) /\
  to_bool (PyStr "nan") = (None, []) /\
  to_bool (PyStr "none") = (None, []) /\
  to_bool PyNaN = (None, []) /\
  to_bool PyNone = (None, []).
Proof.
  intros s. unfold to_bool. fold s.
  change ["yes"; "y"; "true"; "t"] with truthy.
  change ["no"; "n"; "false"; "f"] with falsy.
  destruct (str_in s truthy) eqn:Ht; [| destruct (str_in s falsy) eqn:Hf].
  - apply str_in_elem in Ht. repeat split; try done.
    + intros Hs. destruct (truthy_not_falsy s Ht Hs).
  - apply str_in_elem in Hf.
    assert (s ∉ truthy) by (intros Hs%str_in_elem; congruence).
    repeat split; try done.
  - assert (s ∉ truthy) by (intros Hs%str_in_elem; congruence).
    assert (s ∉ falsy) by (intros Hs%str_in_elem; congruence).
    repeat split; try done; by destruct (str_in s blank).
Qed.

End to_bool_facts.

Lemma to_bool_cases_witness : (utils.to_bool (utils.PyStr "maybe")).1 = None.
Proof.
  apply (proj1 (proj2 (proj2 (to_bool_cases (utils.PyStr "maybe")))));
    intros Hin%str_in_elem; discriminate Hin.
Defined.

(** ** The Field Normalizer *)

Section normalizer.
Import py pandas.

Lemma FIELDS_dom_from {V} (row : list (string * V)) (acc : gmap string V) (c : string) :
  c ∈ dom (foldl (fun acc kv =>
                    if endswith kv.1 "_field"
                    then <[upper (delete_all "_field" kv.1) := kv.2]> acc
                    else acc) acc row)
  <-> c ∈ dom acc \/ exists k, k ∈ row.*1 /\ endswith k "_field" = true /\ c = canonical k.
Proof.
  revert acc; induction row as [|[k v] row IH]; intros acc; simpl.
  - split; [by left | intros [? | (k & Hk%elem_of_nil & _)]; done].
  - rewrite IH. destruct (endswith k "_field") eqn:Hk.
    + rewrite dom_insert, elem_of_union, elem_of_singleton. split.
      * intros [[-> | Hc] | (k' & Hin & He & ->)]; [right | by left | right].
        -- exists k. split; [apply elem_of_cons; by left | done].
        -- exists k'. split; [apply elem_of_cons; by right | done].
      * intros [Hc | (k' & [-> | Hin]%elem_of_cons & He & ->)]; [left; by right | |].
        -- left; by left.
        -- right. by exists k'.
    + split.
      * intros [Hc | (k' & Hin & He & ->)]; [by left | right].
        exists k'. split; [apply elem_of_cons; by right | done].
      * intros [Hc | (k' & [-> | Hin]%elem_of_cons & He & ->)]; [by left | congruence |].
        right. by exists k'.
Qed.

Lemma FIELDS_dom {V} (row : list (string * V)) (c : string) :
  c ∈ dom (config.FIELDS row)
  <-> exists k, k ∈ row.*1 /\ endswith k "_field" = true /\ c = canonical k.
Proof.
  unfold config.FIELDS. rewrite FIELDS_dom_from, dom_empty, elem_of_empty. tauto.
Qed.

(** C3.  The keys of a Normalized Record are among the canonical names
    of the field mapping.  With [M] the mapping [StateConfig] builds
    from a configuration row (its keys are the canonical names of the
    columns ending in [_field]): for every row [R] the keys of
    [get_normalized_fields M R] are keys of [M], and so are the keys of
    [normalized_fields] of every item [parse_as_df] yields. *)
Theorem normalized_fields_in_vocabulary {V W : Type} `{CellValue V}
    (cfg_row : list (string * option string)) :
  let M := config.FIELDS cfg_row in
  (forall c, c ∈ dom M <->
             (exists k, k ∈ cfg_row.*1 /\ endswith k "_field" = true /\ c = canonical k)) /\
  (forall R : gmap string W, dom (items.get_normalized_fields M R) ⊆ dom M) /\
  (forall state_name timestamp url (df : DataFrame V),
     Forall (fun e => dom (base.normalized_fields e) ⊆ dom M)
            (base.parse_as_df_items state_name timestamp url M df)).
Proof.
  intros M. split; [apply FIELDS_dom |]. split.
  - intros R. apply dom_omap_subseteq.
  - intros state_name timestamp url df. unfold base.parse_as_df_items.
    apply Forall_forall. intros e [r [-> _]]%list_elem_of_fmap; simpl.
    apply dom_omap_subseteq.
Qed.

(** C4.  An entry of the mapping whose raw name is not a key of the row
    is skipped: the Normalized Record has no entry under its canonical
    name, so in particular no null under it.  (Cells are [option W]:
    a null placeholder would be the entry [Some None].) *)
Theorem missing_raw_field_skipped {W : Type} (M : gmap string (option string))
    (R : gmap string (option W)) (canon raw : string) :
  M !! canon = Some (Some raw) ->
  raw ∉ dom R ->
  items.get_normalized_fields M R !! canon = None /\
  (canon ∉ dom (items.get_normalized_fields M R)) /\
  items.get_normalized_fields M R !! canon <> Some None.
Proof.
  intros HM HR%not_elem_of_dom.
  assert (Hn : items.get_normalized_fields M R !! canon = None).
  { unfold items.get_normalized_fields. rewrite lookup_omap, HM. simpl. exact HR. }
  split; [done |]. split; [by apply not_elem_of_dom | by rewrite Hn].
Qed.

(** An entry whose raw name is a key of the row copies the value. *)
Lemma present_raw_field_copied {W : Type} (M : gmap string (option string))
    (R : gmap string W) (canon raw : string) (v : W) :
  M !! canon = Some (Some raw) -> R !! raw = Some v ->
  items.get_normalized_fields M R !! canon = Some v.
Proof.
  intros HM HR. unfold items.get_normalized_fields. by rewrite lookup_omap, HM.
Qed.

End normalizer.

Example fields_example_lookup :
  fields_example !! "COMPANY" = Some (Some "Company") /\
  fields_example !! "COUNTY" = Some (Some "County") /\
  fields_example !! "NOTES" = Some None /\
  fields_example !! "STATE_NAME" = None.
Proof. repeat split; vm_compute; reflexivity. Qed.

Example normalized_example :
  items.get_normalized_fields fields_example row_example = {[ "COMPANY" := Some "Acme" ]}.
Proof.
  apply map_eq; intros k. unfold items.get_normalized_fields. rewrite lookup_omap.
  destruct (decide (k = "COMPANY")) as [-> | Hk]; [by vm_compute |].
  rewrite lookup_singleton_ne by done.
  destruct (fields_example !! k) as [raw|] eqn:Hf; [| done]. simpl.
  unfold fields_example, config.FIELDS in Hf. simpl in Hf.
  change (py.upper (py.delete_all "_field" "company_field")) with "COMPANY" in Hf.
  change (py.upper (py.delete_all "_field" "county_field")) with "COUNTY" in Hf.
  change (py.upper (py.delete_all "_field" "notes_field")) with "NOTES" in Hf.
  repeat (apply lookup_insert_Some in Hf as [[<- <-] | [_ Hf]]; [by vm_compute |]).
  done.
Qed.

Lemma missing_raw_field_skipped_witness :
  fields_example !! "COUNTY" = Some (Some "County") /\
  ("County" ∉ dom row_example) /\
  items.get_normalized_fields fields_example row_example !! "COUNTY" = None /\
  ("COUNTY" ∉ dom (items.get_normalized_fields fields_example row_example)) /\
  items.get_normalized_fields fields_example row_example !! "COUNTY" <> Some None.
Proof.
  assert (Hentry : fields_example !! "COUNTY" = Some (Some "County"))
    by (vm_compute; reflexivity).
  assert (Habsent : "County" ∉ dom row_example)
    by (apply not_elem_of_dom; vm_compute; reflexivity).
  split; [exact Hentry |]. split; [exact Habsent |].
  exact (missing_raw_field_skipped fields_example row_example "COUNTY" "County"
           Hentry Habsent).
Defined.

(** ** The monad *)

Section monad_facts.
Import py pandas.

Lemma bind_ret_l {A B} (a : A) (k : A -> M B) : bind (ret a) k = k a.
Proof. unfold bind, ret. by destruct (k a). Qed.

Lemma bind_value {A B} (a : A) (out : list LogRecord) (k : A -> M B) :
  bind (inr a, out) k = ((k a).1, out ++ (k a).2).
Proof. unfold bind. by destruct (k a). Qed.

(** A loop whose every step returns: the values in order, the records
    of all steps in order. *)
Lemma mmap_values {A B} (f : A -> M B) (g : A -> B) (o : A -> list LogRecord) (l : list A) :
  Forall (fun a => f a = (inr (g a), o a)) l ->
  mmap f l = (inr (map g l), List.flat_map o l).
Proof.
  induction 1 as [|a l Ha Hl IH]; simpl; [done |].
  rewrite Ha, bind_value, IH, bind_value. simpl. by rewrite app_nil_r.
Qed.

End monad_facts.

(** ** PDF extraction *)

Section pdf_facts.
Import py pandas datatodf.

Lemma enumerate_from_cons {A} (k : nat) (x : A) (l : list A) :
  enumerate_from k (x :: l) = (Z.of_nat k, x) :: enumerate_from (S k) l.
Proof. reflexivity. Qed.

Lemma enumerate_from_snd {A} (k : nat) (l : list A) : map snd (enumerate_from k l) = l.
Proof.
  revert k; induction l as [|x l IH]; intros k; [done |].
  rewrite enumerate_from_cons. simpl. by rewrite IH.
Qed.



Lemma rows_of_values {V} (data : list (list (option V))) :
  rows (of_values data) = enumerate_from 0 data.
Proof. reflexivity. Qed.





Lemma labels_eqb_refl (l : list string) : labels_eqb l l = true.
Proof. induction l as [|x l IH]; simpl; [done | by rewrite String.eqb_refl, IH]. Qed.


Lemma reset_index_enumerate {V} (cols : list string) (rs : list (Z * list (option V))) :
  reset_index (mkDF cols rs) = mkDF cols (enumerate_from 0 (map snd rs)).
Proof.
  unfold reset_index, enumerate_from; simpl. f_equal. rewrite List.length_map.
  generalize 0%nat. induction rs as [|r rs IH]; intros k; simpl; [done | by rewrite IH].
Qed.


End pdf_facts.

Section pdf_claims.
Import py pandas datatodf.





End pdf_claims.


(** ** Spreadsheet extraction *)

Section excel_facts.
Import py pandas datatodf.

Lemma filter_true {A} (l : list A) : List.filter (fun _ => true) l = l.
Proof. induction l as [|x l IH]; simpl; [done | by rewrite IH]. Qed.

(** Appending to the empty frame [pd.DataFrame()] gives the frame
    appended. *)
Lemma append_empty {V} (df : DataFrame V) : append empty df = ret df.
Proof.
  destruct df as [cols rs]. unfold append, union_columns; simpl.
  rewrite filter_true. unfold reindex_columns at 1; simpl.
  destruct cols as [|c cols]; simpl; [done |].
  unfold reindex_columns. simpl columns.
  by rewrite labels_eqb_refl, bind_ret_l.
Qed.

Lemma width_rectangular {A} (w : nat) (data : list (list A)) :
  data <> [] -> Forall (fun r => length r = w) data ->
  foldr (fun r n => Nat.max (length r) n) 0 data = w.
Proof.
  intros Hne Hall. induction Hall as [|r data Hr Hall IH]; [done |]. simpl.
  destruct data as [|r' data]; simpl in *; [lia |]. rewrite IH by done. lia.
Qed.

(** A sheet of five rows under [skip_header=1, drop_footer=1]: the
    second row names the columns, the third and fourth are the data. *)
Lemma excel_sheet_five_rows (ws : openpyxl.Worksheet) (r0 r1 r2 r3 r4 : list openpyxl.Cell) :
  openpyxl.cells ws = [r0; r1; r2; r3; r4] ->
  rectangular ws ->
  excel_sheet LinkNone 1 1 ws
  = ret (mkDF (header_labels r1)
              [(2%Z, map openpyxl.value r2); (3%Z, map openpyxl.value r3)]).
Proof.
  intros Hcells Hrect. unfold rectangular in Hrect. rewrite Hcells in Hrect. simpl in Hrect.
  unfold excel_sheet, openpyxl.values, openpyxl.max_row.
  rewrite Hcells. cbn [map length].
  set (data := [map openpyxl.value r0; map openpyxl.value r1; map openpyxl.value r2;
                map openpyxl.value r3; map openpyxl.value r4]).
  assert (Hiloc : iloc (of_values data) 1 = ret (map openpyxl.value r1)) by reflexivity.
  rewrite Hiloc, bind_ret_l. clear Hiloc.
  assert (Hset : set_columns
                   (map (fun s => utils.whitespace_to_singlespace (str_cell s))
                        (map openpyxl.value r1)) (of_values data)
                 = ret (mkDF (header_labels r1) (rows (of_values data)))).
  { unfold set_columns. cbn [columns of_values].
    rewrite !List.length_map, length_seq.
    rewrite (width_rectangular (length r0)); [| done |].
    - inversion Hrect as [|? ? _ Hrect1]; subst. inversion Hrect1 as [|? ? Hr1 _]; subst.
      rewrite Hr1, Nat.eqb_refl. unfold header_labels. by rewrite map_map.
    - change data with (map (map openpyxl.value) [r0; r1; r2; r3; r4]).
      apply Forall_fmap. eapply Forall_impl; [exact Hrect |].
      intros r Hr. simpl. by rewrite List.length_map. }
  rewrite Hset, bind_ret_l. clear Hset.
  reflexivity.
Qed.

Lemma excel_five_rows (ws : openpyxl.Worksheet) (r0 r1 r2 r3 r4 : list openpyxl.Cell) :
  openpyxl.cells ws = [r0; r1; r2; r3; r4] ->
  rectangular ws ->
  excel [ws] LinkNone (Some 1%Z) (Some 1%Z) None
  = (inr (mkDF (header_labels r1)
               [(2%Z, map openpyxl.value r2); (3%Z, map openpyxl.value r3)]), []).
Proof.
  intros Hcells Hrect. unfold excel, mfoldl. cbn [from_option id]. rewrite bind_ret_l.
  rewrite (excel_sheet_five_rows ws r0 r1 r2 r3 r4 Hcells Hrect), bind_ret_l.
  by rewrite append_empty, !bind_ret_l.
Qed.

(** C6, as amended.  For every single-worksheet spreadsheet with 5 rows
    (each as long as the first), extraction with [skip_header=1] and
    [drop_footer=1] yields a table with exactly 2 data rows: the row
    above the column names, the row of column names and the last row
    are left out, the third and fourth rows stay under the index labels
    2 and 3. *)
Theorem excel_five_rows_two_data_rows (ws : openpyxl.Worksheet) :
  length (openpyxl.cells ws) = 5%nat ->
  rectangular ws ->
  exists df,
    excel [ws] LinkNone (Some 1%Z) (Some 1%Z) None = (inr df, []) /\
    length (rows df) = 2%nat /\
    index df = [2%Z; 3%Z] /\
    Some (columns df) = header_labels <$> openpyxl.cells ws !! 1%nat /\
    Some (map snd (rows df))
    = (r2 ← openpyxl.cells ws !! 2%nat; r3 ← openpyxl.cells ws !! 3%nat;
       Some [map openpyxl.value r2; map openpyxl.value r3]).
Proof.
  intros Hlen Hrect.
  destruct (openpyxl.cells ws) as [|r0 [|r1 [|r2 [|r3 [|r4 [|r5 l]]]]]] eqn:Hcells;
    try discriminate.
  eexists. split; [by apply (excel_five_rows ws r0 r1 r2 r3 r4) |]. done.
Qed.

End excel_facts.

Example five_row_sheet_result :
  datatodf.excel [five_row_sheet] datatodf.LinkNone (Some 1%Z) (Some 1%Z) None
  = (inr (pandas.mkDF ["Date"; "Company"]
            [(2%Z, [Some "2020-01-02"; Some "Acme"]); (3%Z, [Some "2020-02-03"; Some "Bolt"])]),
     []).
Proof. reflexivity. Qed.

(** C6 as the specification states it fails: this sheet of 5 rows gives
    2 data rows, not 3. *)
Lemma excel_five_rows_not_three :
  ~ (forall ws : openpyxl.Worksheet,
       length (openpyxl.cells ws) = 5%nat ->
       exists df log,
         datatodf.excel [ws] datatodf.LinkNone (Some 1%Z) (Some 1%Z) None = (inr df, log) /\
         length (pandas.rows df) = 3%nat).
Proof.
  intros Hall. destruct (Hall five_row_sheet eq_refl) as (df & log & Heq & Hlen).
  rewrite five_row_sheet_result in Heq. inversion Heq; subst. discriminate Hlen.
Qed.

Lemma excel_five_rows_two_data_rows_witness :
  length (openpyxl.cells five_row_sheet) = 5%nat /\
  rectangular five_row_sheet /\
  exists df,
    datatodf.excel [five_row_sheet] datatodf.LinkNone (Some 1%Z) (Some 1%Z) None = (inr df, []) /\
    length (pandas.rows df) = 2%nat /\
    pandas.index df = [2%Z; 3%Z] /\
    Some (pandas.columns df) = header_labels <$> openpyxl.cells five_row_sheet !! 1%nat /\
    Some (map snd (pandas.rows df))
    = (r2 ← openpyxl.cells five_row_sheet !! 2%nat; r3 ← openpyxl.cells five_row_sheet !! 3%nat;
       Some [map openpyxl.value r2; map openpyxl.value r3]).
Proof.
  split; [reflexivity |]. split; [repeat constructor |].
  apply (excel_five_rows_two_data_rows five_row_sheet); [reflexivity | repeat constructor].
Defined.

(** ** Hyperlink columns of a spreadsheet *)

Section excel_links.
Import py pandas datatodf.

(** [ws.cell(row=row_index, col=col)] names a keyword the method does
    not have, so the lookup raises inside the [try] for every sheet,
    row and column; the handler logs a warning and the link is ['']. *)
Lemma row_link_always_empty (ws : openpyxl.Worksheet) (col row_index : Z) :
  row_link ws col row_index
  = (inr (Some EmptyString),
     [(WARNING, "Expecting column " +:+ str_of_Z col +:+ " to contain a link, but none found")]).
Proof. reflexivity. Qed.

(** Hence every value of a link column is the empty string. *)
Lemma link_values_always_empty (ws : openpyxl.Worksheet) (col : Z) (row_indices : list Z) :
  (mmap (row_link ws col) row_indices).1
  = inr (map (fun _ => Some EmptyString) row_indices).
Proof.
  rewrite (mmap_values _ (fun _ => Some EmptyString)
             (fun _ => [(WARNING, "Expecting column " +:+ str_of_Z col
                                  +:+ " to contain a link, but none found")])); [done |].
  apply Forall_forall. intros i _. apply row_link_always_empty.
Qed.

End excel_links.

(** C9 at a failing input.  With [link_col=1] the column 'Company Link'
    is added, but its value in the data row is the empty string
    although every cell of the sheet, the row's 'Company' cell among
    them, has a hyperlink. *)
Theorem excel_link_column_empty_example :
  datatodf.excel [linked_sheet] (datatodf.LinkInt 1) None None None
  = (inr (pandas.mkDF ["Date"; "Company"; "Company Link"]
            [(1%Z, [Some "2020-01-02"; Some "Acme"; Some EmptyString])]),
     [(py.WARNING, "Expecting column 1 to contain a link, but none found")]) /\
  (forall (ws : openpyxl.Worksheet) (col row_index : Z),
     (datatodf.row_link ws col row_index).1 = inr (Some EmptyString)).
Proof. split; [reflexivity | intros; reflexivity]. Qed.

(** ** Tabular HTML *)

Section html_facts.
Import py pandas datatodf.
Lemma mfoldl_pure {A B} (f : A -> B -> A) (a : A) (l : list B) :
  mfoldl (fun a b => ret (f a b)) a l = ret (foldl f a l).
Proof.
  revert a; induction l as [|b l IH]; intros a; cbn [mfoldl foldl]; [done |].
  by rewrite bind_ret_l, IH.
Qed.

Lemma bind_ext {A B} (m : M A) (k1 k2 : A -> M B) :
  (forall a, k1 a = k2 a) -> bind m k1 = bind m k2.
Proof. intros Hk. destruct m as [[e | a] out]; simpl; [done | by rewrite Hk]. Qed.

Lemma mfoldl_ext {A B} (f g : A -> B -> M A) (a : A) (l : list B) :
  (forall a b, f a b = g a b) -> mfoldl f a l = mfoldl g a l.
Proof.
  intros Hfg; revert a; induction l as [|b l IH]; intros a; cbn [mfoldl]; [done |].
  rewrite Hfg. apply bind_ext. intros a'. apply IH.
Qed.

(** A loop of which each step returns or raises as [p] says, whatever
    was accumulated: it returns when [p] holds of every element and
    raises otherwise. *)
Lemma mfoldl_decided {A B} (f : A -> B -> M A) (p : B -> bool) (l : list B) :
  (forall a b, p b = true -> exists a' out, f a b = (inr a', out)) ->
  (forall a b, p b = false -> exists e out, f a b = (inl e, out)) ->
  forall a,
    if forallb p l then exists a' out, mfoldl f a l = (inr a', out)
    else exists e out, mfoldl f a l = (inl e, out).
Proof.
  intros Hret Hraise. induction l as [|b l IH]; intros a; cbn [forallb mfoldl].
  - by exists a, [].
  - destruct (p b) eqn:Hb; cbn [andb].
    + destruct (Hret a b Hb) as (a1 & out1 & ->). rewrite bind_value.
      specialize (IH a1). destruct (forallb p l).
      * destruct IH as (a2 & out2 & ->). by eexists _, _.
      * destruct IH as (e & out2 & ->). by eexists _, _.
    + destruct (Hraise a b Hb) as (e & out & ->). by eexists _, _.
Qed.

Lemma existsb_eqb_In (c : string) (l : list string) :
  existsb (String.eqb c) l = true <-> In c l.
Proof.
  rewrite existsb_exists. split.
  - intros (x & Hx & ->%String.eqb_eq). done.
  - intros Hc. exists c. split; [done | apply String.eqb_refl].
Qed.

(** *** Dicts with distinct keys *)

Lemma dict_set_fresh {W} (k : string) (v : W) (d : list (string * W)) :
  ~ In k (map fst d) -> dict_set k v d = d ++ [(k, v)].
Proof.
  induction d as [|[k' v'] d IH]; simpl; [done |]. intros Hk.
  destruct (String.eqb_spec k' k) as [-> | Hne]; [destruct Hk; by left |].
  rewrite IH; [done | tauto].
Qed.

Lemma foldl_dict_set_distinct {W} (l d : list (string * W)) :
  NoDup (map fst (d ++ l)) -> foldl (fun d kv => dict_set kv.1 kv.2 d) d l = d ++ l.
Proof.
  revert d; induction l as [|[k v] l IH]; intros d Hnd; cbn [foldl fst snd].
  - by rewrite app_nil_r.
  - rewrite dict_set_fresh.
    + rewrite IH; by rewrite <- app_assoc.
    + rewrite map_app in Hnd. apply NoDup_app in Hnd as (_ & Hdis & _).
      intros Hin. apply (Hdis k); [by apply list_elem_of_In | by left].
Qed.

Lemma map_fst_zip {W} (keys : list string) (vals : list W) :
  (length keys <= length vals)%nat -> map fst (zip keys vals) = keys.
Proof.
  revert vals; induction keys as [|k keys IH]; intros [|v vals] Hlen; simpl in *;
    try done; try lia.
  by rewrite IH by lia.
Qed.

(** [dict(zip(keys, vals))] keeps every pair when the keys are distinct. *)
Lemma dict_zip_distinct {W} (keys : list string) (vals : list W) :
  NoDup keys -> (length keys <= length vals)%nat -> dict_zip keys vals = zip keys vals.
Proof.
  intros Hnd Hlen. unfold dict_zip. rewrite foldl_dict_set_distinct; [done |].
  cbn [app]. by rewrite map_fst_zip.
Qed.

Lemma assoc_zip_distinct {W} (keys : list string) (vals : list W) :
  NoDup keys -> (length keys <= length vals)%nat ->
  map (fun c => assoc String.eqb c (zip keys vals)) keys = map Some (take (length keys) vals).
Proof.
  revert vals; induction keys as [|k keys IH]; intros [|v vals] Hnd Hlen; simpl in *;
    try done; try lia.
  apply NoDup_cons in Hnd as [Hk Hnd]. rewrite String.eqb_refl. f_equal.
  rewrite <- IH by (done || lia). apply map_ext_in. intros c Hc.
  destruct (String.eqb_spec k c) as [-> | _]; [| done]. destruct Hk. by apply list_elem_of_In.
Qed.

Lemma new_labels_first (keys : list string) : new_labels [] keys = keys.
Proof.
  unfold new_labels. simpl. induction keys as [|k keys IH]; simpl; [done | by rewrite IH].
Qed.

Lemma new_labels_known (keys : list string) : new_labels keys keys = [].
Proof.
  assert (H : forall l, (forall c, In c l -> In c keys) ->
              List.filter (fun c => negb (existsb (String.eqb c) keys)) l = []).
  { induction l as [|c l IH]; intros Hl; simpl; [done |].
    rewrite (proj2 (existsb_eqb_In c keys)) by (apply Hl; by left). simpl.
    apply IH. intros c' Hc'. apply Hl. by right. }
  unfold new_labels. rewrite H by done. by destruct keys.
Qed.

(** The first dict appended gives the columns, in its order. *)
Lemma append_dict_first (names : list string) (vals : list value) :
  NoDup names -> (length names <= length vals)%nat ->
  append_dict empty (zip names vals)
  = mkDF names (enumerate_from 0 [map Some (take (length names) vals)]).
Proof.
  intros Hnd Hlen. unfold append_dict, empty. cbn [columns rows map app].
  rewrite map_fst_zip by done. rewrite new_labels_first. cbn [app].
  rewrite reset_index_enumerate. cbn [map snd]. by rewrite assoc_zip_distinct.
Qed.

(** A dict with the keys of the frame adds a row and no column. *)
Lemma append_dict_same_keys (names : list string) (rs : list (list (option value)))
    (vals : list value) :
  NoDup names -> (length names <= length vals)%nat ->
  append_dict (mkDF names (enumerate_from 0 rs)) (zip names vals)
  = mkDF names (enumerate_from 0 (rs ++ [map Some (take (length names) vals)])).
Proof.
  intros Hnd Hlen. unfold append_dict. cbn [columns rows].
  rewrite map_fst_zip by done. rewrite new_labels_known. cbn [length replicate].
  rewrite !app_nil_r, reset_index_enumerate. f_equal. f_equal.
  rewrite map_app, map_map. cbn [map snd]. f_equal.
  - rewrite <- (enumerate_from_snd 0 rs) at 2. apply map_ext. intros r. cbn [snd].
    by rewrite app_nil_r.
  - by rewrite assoc_zip_distinct.
Qed.

Lemma zipped_distinct (names : list string) (row : lxml.Row) :
  NoDup names -> (length names <= length (lxml.td row))%nat ->
  zipped names row
  = zip names (map VStr (get_text_of_matching_elements_lxml (lxml.td row))) /\
  (length names
   <= length (map VStr (get_text_of_matching_elements_lxml (lxml.td row))))%nat.
Proof.
  intros Hnd Hlen.
  assert (Hl : (length names
                <= length (map VStr (get_text_of_matching_elements_lxml (lxml.td row))))%nat)
    by (unfold get_text_of_matching_elements_lxml; by rewrite !List.length_map).
  split; [| done]. unfold zipped. by apply dict_zip_distinct.
Qed.

Lemma html_rows_same_keys (names : list string) (rest : list lxml.Row)
    (rs : list (list (option value))) :
  NoDup names ->
  Forall (fun row => (length names <= length (lxml.td row))%nat) rest ->
  foldl (fun df row => append_dict df (zipped names row)) (mkDF names (enumerate_from 0 rs)) rest
  = mkDF names (enumerate_from 0 (rs ++ map (first_cells (length names)) rest)).
Proof.
  intros Hnd Hrest. revert rs.
  induction Hrest as [|row rest Hrow Hrest IH]; intros rs; cbn [foldl map].
  - by rewrite app_nil_r.
  - destruct (zipped_distinct names row Hnd Hrow) as [-> Hlen].
    rewrite append_dict_same_keys, IH by done.
    by rewrite <- app_assoc.
Qed.

Variable urljoin : string -> string -> exn + string.

Lemma row_fields_no_links (base_url : string) (columns : list string) (row : lxml.Row) :
  row_fields urljoin base_url None columns row = ret (zipped columns row).
Proof. reflexivity. Qed.

(** Where [urljoin] takes the link of the row, [row_fields] returns. *)
Lemma row_fields_value (base_url : string) (link_col : option Z) (columns : list string)
    (row : lxml.Row) :
  joins urljoin base_url link_col row = true ->
  exists out, row_fields urljoin base_url link_col columns row
              = (inr (fields_of urljoin base_url link_col columns row), out).
Proof.
  unfold joins, fields_of, row_fields. destruct link_col as [c|]; [| by eexists].
  destruct (lxml.href row) as [|h hs]; [by eexists |].
  destruct (urljoin base_url h) as [e | u]; [done |]. by eexists.
Qed.

(** Where it does not, the exception of [urljoin] leaves [row_fields]. *)
Lemma row_fields_raises (base_url : string) (link_col : option Z) (columns : list string)
    (row : lxml.Row) :
  joins urljoin base_url link_col row = false ->
  exists e, row_fields urljoin base_url link_col columns row = (inl e, []).
Proof.
  unfold joins, row_fields. destruct link_col as [c|]; [| done].
  destruct (lxml.href row) as [|h hs]; [done |].
  destruct (urljoin base_url h) as [e | u]; [| done]. by exists e.
Qed.

(** A table without header cells: the first row names the columns and
    every later row is zipped against those names and appended. *)
Lemma html_table_headerless (base_url : string) (df_all : DataFrame value) (t : lxml.Table)
    (r0 : lxml.Row) (rest : list lxml.Row) :
  lxml.th t = [] ->
  table_rows t = r0 :: rest ->
  html_table urljoin base_url None false df_all t
  = ret (foldl (fun df row =>
                  append_dict df
                    (zipped (get_text_of_matching_elements_lxml (lxml.td r0)) row))
               df_all rest).
Proof.
  intros Hth Hrows. unfold html_table. fold (table_rows t). rewrite Hth, Hrows.
  cbn [length Nat.eqb map get_text_of_matching_elements_lxml]. rewrite bind_ret_l.
  cbn [length Nat.eqb Nat.ltb Nat.leb andb pop0]. rewrite !bind_ret_l. cbn [fst snd].
  rewrite <- mfoldl_pure. apply mfoldl_ext. intros df row.
  by rewrite row_fields_no_links, bind_ret_l.
Qed.

(** The loop over the rows of one table returns when [urljoin] takes
    the link of every row, and raises otherwise. *)
Lemma html_rows_decided (base_url : string) (link_col : option Z) (columns : list string)
    (rows : list lxml.Row) (df : DataFrame value) :
  if forallb (joins urljoin base_url link_col) rows
  then exists df' out,
         mfoldl (fun df_all row =>
                   do fields <- row_fields urljoin base_url link_col columns row;
                   ret (append_dict df_all fields)) df rows = (inr df', out)
  else exists e out,
         mfoldl (fun df_all row =>
                   do fields <- row_fields urljoin base_url link_col columns row;
                   ret (append_dict df_all fields)) df rows = (inl e, out).
Proof.
  revert df. apply mfoldl_decided.
  - intros a b Hb. destruct (row_fields_value base_url link_col columns b Hb) as (out & ->).
    rewrite bind_value. by eexists _, _.
  - intros a b Hb. destruct (row_fields_raises base_url link_col columns b Hb) as (e & ->).
    by eexists _, _.
Qed.

(** What [html] does with one table, in terms of the names and rows it
    settles on. *)
Lemma html_table_loop (base_url : string) (link_col : option Z) (drop_first_row : bool)
    (df_all : DataFrame value) (t : lxml.Table) :
  table_rows t <> [] ->
  html_table urljoin base_url link_col drop_first_row df_all t
  = mfoldl (fun df_all row =>
              do fields <- row_fields urljoin base_url link_col
                             (names_and_rows drop_first_row t).1 row;
              ret (append_dict df_all fields))
           df_all (names_and_rows drop_first_row t).2.
Proof.
  intros Hne. unfold html_table, names_and_rows. fold (table_rows t).
  destruct (table_rows t) as [|r0 rows]; [done |]. cbn [length Nat.eqb tail].
  destruct drop_first_row; cbn [pop0]; rewrite !bind_ret_l; cbn [fst snd].
  - destruct (get_text_of_matching_elements_lxml (lxml.th t)) as [|c cs];
      [destruct rows as [|r1 rows] |]; cbn [length Nat.eqb Nat.ltb Nat.leb andb pop0];
      by rewrite !bind_ret_l.
  - destruct (get_text_of_matching_elements_lxml (lxml.th t)) as [|c cs];
      cbn [length Nat.eqb Nat.ltb Nat.leb andb pop0]; by rewrite !bind_ret_l.
Qed.

Lemma names_and_rows_none (drop_first_row : bool) (t : lxml.Table) :
  table_rows t = [] -> (names_and_rows drop_first_row t).2 = [].
Proof.
  intros Ht. unfold names_and_rows. rewrite Ht.
  by destruct drop_first_row, (get_text_of_matching_elements_lxml (lxml.th t)).
Qed.

Lemma html_table_decided (base_url : string) (link_col : option Z) (drop_first_row : bool)
    (df : DataFrame value) (t : lxml.Table) :
  if forallb (joins urljoin base_url link_col) (names_and_rows drop_first_row t).2
  then exists df' out,
         html_table urljoin base_url link_col drop_first_row df t = (inr df', out)
  else exists e out,
         html_table urljoin base_url link_col drop_first_row df t = (inl e, out).
Proof.
  destruct (table_rows t) as [|r0 rows] eqn:Hrows.
  - rewrite (names_and_rows_none drop_first_row t Hrows). cbn [forallb].
    unfold html_table. fold (table_rows t). rewrite Hrows. cbn [length Nat.eqb].
    by eexists _, _.
  - rewrite html_table_loop by (by rewrite Hrows). apply html_rows_decided.
Qed.

(** The loop over the tables. *)
Lemma html_tables_decided (base_url : string) (link_col : option Z) (drop_first_row : bool)
    (tables : list lxml.Table) (df : DataFrame value) :
  if joinable urljoin base_url link_col drop_first_row tables
  then exists df' out,
         mfoldl (html_table urljoin base_url link_col drop_first_row) df tables
         = (inr df', out)
  else exists e out,
         mfoldl (html_table urljoin base_url link_col drop_first_row) df tables
         = (inl e, out).
Proof.
  unfold joinable. revert df. apply mfoldl_decided.
  - intros a b Hb. pose proof (html_table_decided base_url link_col drop_first_row a b) as Ht.
    by rewrite Hb in Ht.
  - intros a b Hb. pose proof (html_table_decided base_url link_col drop_first_row a b) as Ht.
    by rewrite Hb in Ht.
Qed.

(** [html] on a parsed document: the search raising, and the search
    returning. *)
Lemma html_search_raises (read_html : exn + list (DataFrame value)) (doc : lxml.Document)
    (filepath base_url : string) (tag table_class : option string) (link_col : option Z)
    (drop_first_row : bool) (e : exn) :
  doc (search_str tag table_class) = inl e ->
  html urljoin read_html (inr doc) filepath base_url false tag table_class link_col
    drop_first_row = (inl e, []).
Proof. intros Hdoc. unfold html. by rewrite Hdoc. Qed.

Lemma html_decided (read_html : exn + list (DataFrame value)) (doc : lxml.Document)
    (filepath base_url : string) (tag table_class : option string) (link_col : option Z)
    (drop_first_row : bool) (tables : list lxml.Table) :
  doc (search_str tag table_class) = inr tables ->
  if joinable urljoin base_url link_col drop_first_row tables
  then exists df out,
         html urljoin read_html (inr doc) filepath base_url false tag table_class link_col
           drop_first_row = (inr df, out)
  else exists e out,
         html urljoin read_html (inr doc) filepath base_url false tag table_class link_col
           drop_first_row = (inl e, out).
Proof.
  intros Hdoc. unfold html. rewrite Hdoc. cbn [lift]. rewrite bind_ret_l.
  destruct tables as [|t tables]; [unfold joinable; cbn [forallb]; by eexists _, _ |].
  apply html_tables_decided.
Qed.

Lemma joinable_no_links (base_url : string) (drop_first_row : bool)
    (tables : list lxml.Table) :
  joinable urljoin base_url None drop_first_row tables = true.
Proof.
  unfold joinable. apply forallb_forall. intros t _. apply forallb_forall.
  intros row _. reflexivity.
Qed.

(** C7.  Tabular-HTML extraction with the default parameters.  A table
    without header cells gives its first row as the column names, and
    every later row is zipped against those names by position and
    appended as one row of the result.  Where the names are distinct
    and no later row has fewer cells than there are names, the result
    has the names as its columns, in the order of the document, and one
    row for each later row, numbered from 0, holding the row's first
    cells in order.  In particular a document whose only table has the
    rows A, B and 1, 2 gives the columns A, B and exactly one data row,
    holding 1 under A and 2 under B; with the rows B, A and 1, 2 the
    columns are B, A. *)
Theorem html_headerless_table :
  (forall (base_url : string) (df_all : DataFrame value) (t : lxml.Table)
          (r0 : lxml.Row) (rest : list lxml.Row),
     lxml.th t = [] ->
     table_rows t = r0 :: rest ->
     html_table urljoin base_url None false df_all t
     = ret (foldl (fun df row =>
                     append_dict df
                       (dict_zip (get_text_of_matching_elements_lxml (lxml.td r0))
                          (map VStr (get_text_of_matching_elements_lxml (lxml.td row)))))
                  df_all rest)) /\
  (forall (doc : lxml.Document) (filepath : string) (t : lxml.Table)
          (r0 : lxml.Row) (rest : list lxml.Row),
     doc "//table" = inr [t] ->
     lxml.th t = [] ->
     table_rows t = r0 :: rest ->
     html_default urljoin (inr doc) filepath
     = ret (foldl (fun df row =>
                     append_dict df
                       (dict_zip (get_text_of_matching_elements_lxml (lxml.td r0))
                          (map VStr (get_text_of_matching_elements_lxml (lxml.td row)))))
                  empty rest)) /\
  (forall (doc : lxml.Document) (filepath : string) (t : lxml.Table)
          (r0 r1 : lxml.Row) (rest : list lxml.Row),
     doc "//table" = inr [t] ->
     lxml.th t = [] ->
     table_rows t = r0 :: r1 :: rest ->
     NoDup (get_text_of_matching_elements_lxml (lxml.td r0)) ->
     Forall (fun row => (length (lxml.td r0) <= length (lxml.td row))%nat) (r1 :: rest) ->
     html_default urljoin (inr doc) filepath
     = ret (mkDF (get_text_of_matching_elements_lxml (lxml.td r0))
              (enumerate_from 0 (map (first_cells (length (lxml.td r0))) (r1 :: rest))))) /\
  (forall (doc : lxml.Document) (filepath : string) (h1 h2 : list string),
     doc "//table"
     = inr [lxml.mkTable [] [] [lxml.mkRow ["A"; "B"] h1; lxml.mkRow ["1"; "2"] h2]] ->
     html_default urljoin (inr doc) filepath
     = (inr (mkDF ["A"; "B"] [(0%Z, [Some (VStr "1"); Some (VStr "2")])]), [])) /\
  (forall (doc : lxml.Document) (filepath : string) (h1 h2 : list string),
     doc "//table"
     = inr [lxml.mkTable [] [] [lxml.mkRow ["B"; "A"] h1; lxml.mkRow ["1"; "2"] h2]] ->
     html_default urljoin (inr doc) filepath
     = (inr (mkDF ["B"; "A"] [(0%Z, [Some (VStr "1"); Some (VStr "2")])]), [])) /\
  dict_zip ["A"; "B"] [VStr "1"; VStr "2"] = [("A", VStr "1"); ("B", VStr "2")].
Proof.
  assert (Hone : forall (doc : lxml.Document) (filepath : string) (t : lxml.Table)
                         (r0 : lxml.Row) (rest : list lxml.Row),
             doc "//table" = inr [t] -> lxml.th t = [] -> table_rows t = r0 :: rest ->
             html_default urljoin (inr doc) filepath
             = ret (foldl (fun df row =>
                             append_dict df
                               (zipped (get_text_of_matching_elements_lxml (lxml.td r0)) row))
                          empty rest)).
  { intros doc filepath t r0 rest Hdoc Hth Hrows. unfold html_default, html.
    change (search_str None None) with "//table". rewrite Hdoc. cbn [lift mfoldl].
    rewrite bind_ret_l. cbn [mfoldl].
    by rewrite (html_table_headerless EmptyString empty t r0 rest Hth Hrows), bind_ret_l. }
  split; [exact html_table_headerless |]. split; [exact Hone |].
  split; [| split; [| split; [| reflexivity]]].
  - intros doc filepath t r0 r1 rest Hdoc Hth Hrows Hnd Hlen.
    rewrite (Hone doc filepath t r0 (r1 :: rest) Hdoc Hth Hrows). f_equal. f_equal.
    set (names := get_text_of_matching_elements_lxml (lxml.td r0)) in *.
    assert (Hn : length names = length (lxml.td r0))
      by (unfold names, get_text_of_matching_elements_lxml; by rewrite List.length_map).
    rewrite <- Hn in *. apply Forall_cons in Hlen as [Hr1 Hrest].
    cbn [foldl map]. destruct (zipped_distinct names r1 Hnd Hr1) as [-> Hlen1].
    rewrite append_dict_first by done.
    by rewrite html_rows_same_keys.
  - intros doc filepath h1 h2 Hdoc.
    by rewrite (Hone doc filepath _ (lxml.mkRow ["A"; "B"] h1) [lxml.mkRow ["1"; "2"] h2] Hdoc).
  - intros doc filepath h1 h2 Hdoc.
    by rewrite (Hone doc filepath _ (lxml.mkRow ["B"; "A"] h1) [lxml.mkRow ["1"; "2"] h2] Hdoc).
Qed.

Lemma try_except_all_returns {A} (m : M A) (h : exn -> M A) :
  (forall e, exists a out, h e = (inr a, out)) ->
  exists a out, try_except m (fun _ => true) h = (inr a, out).
Proof.
  intros Hh. destruct m as [[e | a] out]; simpl; [| by eexists _, _].
  destruct (Hh e) as (a & out' & ->). by eexists _, _.
Qed.

(** C8, as amended.  When no tabular structure is found the extractor
    logs an error and returns the empty table: for [html], when the
    search returns no element or none of the elements it returns has a
    row; for [html_pandas], when [pd.read_html] raises [ValueError] or
    [XMLSyntaxError] or returns no frame.  Neither function keeps every
    exception from the caller.  [html] catches none: the exception of
    opening or parsing the file reaches the caller, so does the one of
    the search ([tree.xpath] raises on a tree without a root and on an
    expression that is no XPath), and so does the one of [urljoin] on a
    link it refuses; [html] returns when the search returns and
    [urljoin] takes the first link of every data row (no link is joined
    without [link_col]), and raises when it refuses one.  [html_pandas]
    does not raise when [pd.read_html] returns or raises one of the two
    errors named; any other exception of [pd.read_html] reaches the
    caller.  With [use_pandas] set, [html] is [html_pandas]. *)
Theorem html_structural_miss :
  (forall read_html (doc : lxml.Document) filepath base_url tag table_class link_col
          drop_first_row,
     doc (search_str tag table_class) = inr [] ->
     html urljoin read_html (inr doc) filepath base_url false tag table_class link_col
       drop_first_row
     = (inr empty, [(ERROR, "No table found; may need to updated xpath selectors or url")])) /\
  (forall read_html (doc : lxml.Document) filepath base_url tag table_class link_col
          drop_first_row tables,
     doc (search_str tag table_class) = inr tables ->
     Forall (fun t => lxml.body_tr t = [] /\ lxml.tr t = []) tables ->
     exists out,
       html urljoin read_html (inr doc) filepath base_url false tag table_class link_col
         drop_first_row = (inr empty, out) /\
       out <> [] /\ Forall (fun r => r.1 = ERROR) out) /\
  (forall read_html e filepath base_url tag table_class link_col drop_first_row,
     html urljoin read_html (inl e) filepath base_url false tag table_class link_col
       drop_first_row = (inl e, [])) /\
  (forall read_html (doc : lxml.Document) filepath base_url tag table_class link_col
          drop_first_row,
     match doc (search_str tag table_class) with
     | inl e =>
         html urljoin read_html (inr doc) filepath base_url false tag table_class link_col
           drop_first_row = (inl e, [])
     | inr tables =>
         if joinable urljoin base_url link_col drop_first_row tables
         then exists df out,
                html urljoin read_html (inr doc) filepath base_url false tag table_class
                  link_col drop_first_row = (inr df, out)
         else exists e out,
                html urljoin read_html (inr doc) filepath base_url false tag table_class
                  link_col drop_first_row = (inl e, out)
     end) /\
  (forall base_url drop_first_row tables,
     joinable urljoin base_url None drop_first_row tables = true) /\
  (forall (read_html : exn + list (DataFrame value)) url,
     match read_html with
     | inl (XMLSyntaxError _) | inl (ValueError _) | inr [] =>
         exists msg, html_pandas read_html url = (inr empty, [(ERROR, msg)])
     | inl e => html_pandas read_html url = (inl e, [])
     | inr _ => exists df out, html_pandas read_html url = (inr df, out)
     end) /\
  (forall read_html parsed filepath base_url tag table_class link_col drop_first_row,
     html urljoin read_html parsed filepath base_url true tag table_class link_col
       drop_first_row
     = html_pandas read_html filepath).
Proof.
  split; [| split; [| split; [| split; [| split; [| split; [| reflexivity]]]]]].
  - intros read_html doc filepath base_url tag table_class link_col drop_first_row Hnone.
    unfold html. by rewrite Hnone.
  - intros read_html doc filepath base_url tag table_class link_col drop_first_row tables
           Hdoc Hrows.
    unfold html. rewrite Hdoc. cbn [lift]. rewrite bind_ret_l.
    destruct tables as [|t ts].
    { eexists. split; [reflexivity |]. split; [done | by repeat constructor]. }
    assert (Hloop : forall l : list lxml.Table,
               Forall (fun t => lxml.body_tr t = [] /\ lxml.tr t = []) l ->
               exists out, mfoldl (html_table urljoin base_url link_col drop_first_row) empty l
                           = (inr empty, out)
                           /\ (l <> [] -> out <> []) /\ Forall (fun r => r.1 = ERROR) out).
    { induction 1 as [|t' l [Hb Ht] Hl (out & Hout & Hne & Herr)]; cbn [mfoldl].
      - exists []. by repeat split.
      - unfold html_table at 1. rewrite Hb, Ht. cbn [length Nat.eqb].
        replace (log ERROR "No table rows found in this table; may need to updated xpath selectors or url" ;;;
                 ret (@empty value))
          with (@inr exn _ (@empty value),
                [(ERROR, "No table rows found in this table; may need to updated xpath selectors or url")])
          by reflexivity.
        rewrite bind_value, Hout.
        eexists. split; [reflexivity |].
        split; [done |]. cbn [fst snd app]. constructor; [done |]. exact Herr. }
    destruct (Hloop (t :: ts) Hrows) as (out & Hout & Hne & Herr).
    exists out. split; [exact Hout |]. split; [by apply Hne | exact Herr].
  - reflexivity.
  - intros read_html doc filepath base_url tag table_class link_col drop_first_row.
    destruct (doc (search_str tag table_class)) as [e | tables] eqn:Hdoc.
    + by apply html_search_raises.
    + by apply html_decided.
  - exact joinable_no_links.
  - intros [e | dfs] url.
    + destruct e; try reflexivity; by eexists.
    + destruct dfs as [|df [|df' dfs]]; [by eexists | by eexists _, _ |].
      unfold html_pandas. cbn [length Nat.ltb Nat.leb].
      apply try_except_all_returns. intros e. by eexists _, _.
Qed.

End html_facts.

Lemma html_headerless_table_witness :
  ba_document "//table"
  = inr [lxml.mkTable [] []
           [lxml.mkRow ["B"; "A"] []; lxml.mkRow ["1"; "2"] [];
            lxml.mkRow [" 3"; "4 "; "5"] []]] /\
  NoDup (datatodf.get_text_of_matching_elements_lxml ["B"; "A"]) /\
  datatodf.html_default join_url (inr ba_document) "page.html"
  = (inr (pandas.mkDF ["B"; "A"]
            [(0%Z, [Some (datatodf.VStr "1"); Some (datatodf.VStr "2")]);
             (1%Z, [Some (datatodf.VStr "3"); Some (datatodf.VStr "4")])]), []).
Proof.
  assert (Hnd : NoDup (datatodf.get_text_of_matching_elements_lxml ["B"; "A"])).
  { apply (bool_decide_unpack _). vm_compute. reflexivity. }
  split; [reflexivity |]. split; [exact Hnd |].
  apply (proj1 (proj2 (proj2 (html_headerless_table join_url)))
           ba_document "page.html"
           (lxml.mkTable [] []
              [lxml.mkRow ["B"; "A"] []; lxml.mkRow ["1"; "2"] [];
               lxml.mkRow [" 3"; "4 "; "5"] []])
           (lxml.mkRow ["B"; "A"] []) (lxml.mkRow ["1"; "2"] [])
           [lxml.mkRow [" 3"; "4 "; "5"] []]).
  - reflexivity.
  - reflexivity.
  - reflexivity.
  - exact Hnd.
  - repeat constructor; simpl; lia.
Defined.

Lemma html_structural_miss_witness :
  empty_document (datatodf.search_str None None) = inr [] /\
  datatodf.html join_url (inr []) (inr empty_document) "page.html" EmptyString false
    None None None false
  = (inr pandas.empty,
     [(py.ERROR, "No table found; may need to updated xpath selectors or url")]).
Proof.
  split; [reflexivity |].
  apply (proj1 (html_structural_miss join_url)). reflexivity.
Defined.

Example html_links_example :
  datatodf.html join_url (inr [])
    (inr (fun _ => inr [lxml.mkTable ["Company"; "Date"] []
                          [lxml.mkRow ["Acme"; "2020-01-02"] ["/a.pdf"; "/a2.pdf"];
                           lxml.mkRow ["Bolt"; "2020-02-03"] []]]))
    "page.html" "https://warn.example" false None None (Some 0%Z) false
  = (inr (pandas.mkDF ["Company"; "Date"; "Notice Link"; "Updated Notices"]
            [(0%Z, [Some (datatodf.VStr "Acme"); Some (datatodf.VStr "2020-01-02");
                    Some (datatodf.VStr "https://warn.example/a.pdf");
                    Some (datatodf.VList ["/a2.pdf"])]);
             (1%Z, [Some (datatodf.VStr "Bolt"); Some (datatodf.VStr "2020-02-03");
                    None; None])]),
     [(py.WARNING,
       "Expecting a link table entry to contain a link; may need to update column")]).
Proof. reflexivity. Qed.

(** The labels a later row brings come after the columns in sorted
    order: the first row has one cell, the second three. *)
Example html_late_columns_example :
  datatodf.html_default join_url
    (inr (fun _ => inr [lxml.mkTable ["C"; "B"; "A"] []
                          [lxml.mkRow ["1"] []; lxml.mkRow ["2"; "3"; "4"] []]]))
    "page.html"
  = (inr (pandas.mkDF ["C"; "A"; "B"]
            [(0%Z, [Some (datatodf.VStr "1"); None; None]);
             (1%Z, [Some (datatodf.VStr "2"); Some (datatodf.VStr "4");
                    Some (datatodf.VStr "3")])]),
     []).
Proof. reflexivity. Qed.

(** C8 as the specification states it fails.  An unreachable URL makes
    [pd.read_html] raise [URLError], and [html_pandas] lets it through
    to the caller; an empty file parses to a tree without a root, on
    which the search of [html] raises; and a link that is no URL makes
    [urljoin] raise inside [html]. *)
Lemma html_pandas_raises_example :
  datatodf.html_pandas (V := datatodf.value)
    (inl (py.URLError "<urlopen error [Errno -2] Name or service not known>"))
    "https://warn.example.invalid/notices"
  = (inl (py.URLError "<urlopen error [Errno -2] Name or service not known>"), []) /\
  ~ (forall (read_html : py.exn + list (pandas.DataFrame datatodf.value)) (url : string),
       exists df out, datatodf.html_pandas read_html url = (inr df, out)) /\
  datatodf.html_default join_url (inr rootless_document) "empty.html"
  = (inl (py.AssertionError "ElementTree not initialized, missing root"), []) /\
  datatodf.html join_url (inr [])
    (inr (fun _ => inr [lxml.mkTable ["Company"] []
                          [lxml.mkRow ["Acme"] ["http://[x"]]]))
    "page.html" "https://warn.example" false None None (Some 0%Z) false
  = (inl (py.ValueError "Invalid IPv6 URL"), []).
Proof.
  split; [reflexivity |]. split; [| split; reflexivity]. intros Hall.
  destruct (Hall (inl (py.URLError EmptyString)) EmptyString) as (df & out & Heq).
  discriminate Heq.
Qed.

(** * Further properties of the code *)

(** ** Whitespace in labels *)

Section whitespace_facts.
Import py utils pandas datatodf.

Lemma string_app_cons (x : ascii) (a b : string) : String x a +:+ b = String x (a +:+ b).
Proof. reflexivity. Qed.

Lemma string_app_assoc (a b c : string) : (a +:+ b) +:+ c = a +:+ (b +:+ c).
Proof. induction a as [|x a IH]; [done | by rewrite !string_app_cons, IH]. Qed.

Lemma string_app_nil_r (a : string) : a +:+ EmptyString = a.
Proof. induction a as [|x a IH]; [done | by rewrite string_app_cons, IH]. Qed.

Lemma no_space_nil : no_space EmptyString.
Proof. constructor. Qed.

Lemma no_space_cons (c : ascii) (s : string) :
  no_space (String c s) <-> is_space c = false /\ no_space s.
Proof.
  unfold no_space; simpl.
  apply (Forall_cons (fun c => is_space c = false) c (list_ascii_of_string s)).
Qed.

Lemma no_space_app (a b : string) : no_space a -> no_space b -> no_space (a +:+ b).
Proof.
  induction a as [|x a IH]; [done |].
  rewrite string_app_cons, !no_space_cons. intros [Hx Ha] Hb. auto.
Qed.

(** Reading a run of non-whitespace characters extends the word being
    read. *)
Lemma split_from_word (cur : option string) (w rest : string) :
  no_space w -> w <> EmptyString ->
  split_from cur (w +:+ rest) = split_from (Some (default EmptyString cur +:+ w)) rest.
Proof.
  revert cur; induction w as [|c w IH]; intros cur Hw Hne; [done |].
  apply no_space_cons in Hw as [Hc Hw]. rewrite string_app_cons. cbn [split_from].
  rewrite Hc. destruct w as [|c' w'].
  - reflexivity.
  - rewrite IH by done. cbn [default from_option id].
    by rewrite string_app_assoc.
Qed.

Lemma split_from_words (cur : option string) (s : string) :
  from_option word True cur -> Forall word (split_from cur s).
Proof.
  revert cur; induction s as [|c s IH]; intros cur Hcur; simpl.
  - destruct cur; [by constructor | constructor].
  - destruct (is_space c) eqn:Hc.
    + destruct cur; [constructor; [done |] |]; by apply IH.
    + apply IH. simpl. split.
      * by destruct (default EmptyString cur).
      * destruct cur as [w|]; simpl.
        -- destruct Hcur as [_ Hw]. apply no_space_app; [done |].
           apply no_space_cons. split; [done | apply no_space_nil].
        -- apply no_space_cons. split; [done | apply no_space_nil].
Qed.

(** Splitting the words joined by single spaces gives the words back. *)
Lemma split_join (ws : list string) : Forall word ws -> split (join " " ws) = ws.
Proof.
  unfold split. induction 1 as [|w ws [Hne Hw] Hws IH]; [done |].
  destruct ws as [|w' ws'].
  - simpl. rewrite <- (string_app_nil_r w) at 1.
    rewrite split_from_word by done. reflexivity.
  - change (join " " (w :: w' :: ws')) with (w +:+ " " +:+ join " " (w' :: ws')).
    rewrite split_from_word by done.
    change (split_from (Some (default EmptyString None +:+ w)) (" " +:+ join " " (w' :: ws')))
      with (w :: split_from None (join " " (w' :: ws'))).
    by rewrite IH.
Qed.

Lemma join_single_word (s : string) : word s -> split s = [s].
Proof. intros Hw. apply (split_join [s]). by constructor. Qed.

Lemma whitespace_to_singlespace_split (s : string) :
  split (whitespace_to_singlespace s) = split s.
Proof. unfold whitespace_to_singlespace. apply split_join. by apply split_from_words. Qed.

Lemma whitespace_to_singlespace_twice (s : string) :
  whitespace_to_singlespace (whitespace_to_singlespace s) = whitespace_to_singlespace s.
Proof.
  unfold whitespace_to_singlespace at 1. by rewrite whitespace_to_singlespace_split.
Qed.

(** X1.  [whitespace_to_singlespace] is idempotent, leaves a string
    without whitespace as it is, and what it returns splits into the
    same words as its argument. *)
Theorem whitespace_to_singlespace_idempotent (s : string) :
  whitespace_to_singlespace (whitespace_to_singlespace s) = whitespace_to_singlespace s /\
  split (whitespace_to_singlespace s) = split s /\
  (no_space s -> whitespace_to_singlespace s = s).
Proof.
  split; [apply whitespace_to_singlespace_twice |].
  split; [apply whitespace_to_singlespace_split |].
  unfold whitespace_to_singlespace. destruct s as [|c s]; [done |].
  intros Hs. by rewrite join_single_word.
Qed.

(** The no-break space and NEL are whitespace to [str.split]. *)
Example whitespace_to_singlespace_latin1 :
  whitespace_to_singlespace
    (String "a" (String (ascii_of_nat 160) (String (ascii_of_nat 133) "b")))
  = "a b".
Proof. reflexivity. Qed.

(** X2.  [reset_spacing_in_column_names] never raises, changes the
    labels only (every label is normalised, the rows stay), and
    applying it again changes nothing. *)
Theorem reset_spacing_in_column_names_labels {V : Type} (df : DataFrame V) :
  let out := mkDF (map whitespace_to_singlespace (columns df)) (rows df) in
  reset_spacing_in_column_names df = ret out /\
  reset_spacing_in_column_names out = ret out /\
  (wf df -> wf out).
Proof.
  unfold reset_spacing_in_column_names, set_columns; simpl.
  rewrite !List.length_map, Nat.eqb_refl. split; [done |]. split.
  - rewrite map_map. do 2 f_equal. apply map_ext. intros c.
    apply whitespace_to_singlespace_twice.
  - unfold wf; simpl. by rewrite List.length_map.
Qed.

End whitespace_facts.

Lemma whitespace_to_singlespace_idempotent_witness :
  no_space "WARN" /\ utils.whitespace_to_singlespace "WARN" = "WARN".
Proof.
  split; [by repeat constructor |].
  apply (proj2 (proj2 (whitespace_to_singlespace_idempotent "WARN"))).
  by repeat constructor.
Defined.

(** ** Text normalisation in [utils] *)

Section text_facts.
Import py utils.

Ltac by_cases_on c :=
  destruct c as [[] [] [] [] [] [] [] []]; vm_compute; try reflexivity; try discriminate.

Lemma low_under_keeps_nonspace (c : ascii) :
  is_space c = false -> is_space (low_under c) = false.
Proof. by_cases_on c. Qed.

Lemma low_under_idem (c : ascii) : low_under (low_under c) = low_under c.
Proof. by_cases_on c. Qed.

Lemma low_under_not_blank (c : ascii) : low_under c <> " "%char.
Proof. by_cases_on c. Qed.

Lemma low_under_lower (c : ascii) : lower_char (low_under c) = low_under c.
Proof. by_cases_on c. Qed.

Lemma lower_upper_char (c : ascii) : lower_char (upper_char c) = lower_char c.
Proof. by_cases_on c. Qed.

Lemma map_chars_compose (g h : ascii -> ascii) (s : string) :
  map_chars g (map_chars h s) = map_chars (fun c => g (h c)) s.
Proof. induction s as [|c s IH]; simpl; [done | by rewrite IH]. Qed.

Lemma map_chars_ext (g h : ascii -> ascii) (s : string) :
  (forall c, g c = h c) -> map_chars g s = map_chars h s.
Proof. intros Hgh. induction s as [|c s IH]; simpl; [done | by rewrite Hgh, IH]. Qed.

Lemma map_chars_list (g : ascii -> ascii) (s : string) :
  list_ascii_of_string (map_chars g s) = map g (list_ascii_of_string s).
Proof. induction s as [|c s IH]; simpl; [done | by rewrite IH]. Qed.

Lemma lstrip_length (s : string) : (String.length (lstrip s) <= String.length s)%nat.
Proof.
  induction s as [|c s IH]; simpl; [done |].
  destruct (is_space c); simpl; lia.
Qed.

(** What [lstrip] returns is empty or starts with a character that is
    not whitespace. *)
Lemma lstrip_head (s : string) :
  lstrip s = EmptyString \/ exists c r, lstrip s = String c r /\ is_space c = false.
Proof.
  induction s as [|c s IH]; simpl; [by left |].
  destruct (is_space c) eqn:Hc; [exact IH | right; eauto].
Qed.

Lemma rstrip_head (c : ascii) (s : string) :
  is_space c = false -> exists r, rstrip (String c s) = String c r.
Proof. intros Hc. simpl. rewrite Hc. destruct (rstrip s); eauto. Qed.

Lemma rstrip_idem (s : string) : rstrip (rstrip s) = rstrip s.
Proof.
  induction s as [|c s IH]; simpl; [done |].
  destruct (rstrip s) as [|c' r] eqn:Hr.
  - destruct (is_space c) eqn:Hc; simpl; [done | by rewrite Hc].
  - cbn [rstrip] in IH |- *. cbn [rstrip]. by rewrite IH.
Qed.

Lemma strip_trimmed (s : string) : trimmed (strip s).
Proof.
  unfold trimmed, strip. split; [| apply rstrip_idem].
  destruct (lstrip_head s) as [-> | (c & r & -> & Hc)]; [done |].
  destruct (rstrip_head c r Hc) as [r' ->]. simpl. by rewrite Hc.
Qed.

Lemma trimmed_strip (s : string) : trimmed s -> strip s = s.
Proof. intros [Hl Hr]. unfold strip. by rewrite Hl, Hr. Qed.

Lemma lstrip_map (g : ascii -> ascii) (s : string) :
  (forall c, is_space c = false -> is_space (g c) = false) ->
  lstrip s = s -> lstrip (map_chars g s) = map_chars g s.
Proof.
  intros Hg. destruct s as [|c s]; simpl; [done |].
  destruct (is_space c) eqn:Hc.
  - intros Heq. pose proof (lstrip_length s) as Hlen. rewrite Heq in Hlen. simpl in Hlen. lia.
  - intros _. by rewrite (Hg c Hc).
Qed.

Lemma rstrip_map (g : ascii -> ascii) (s : string) :
  (forall c, is_space c = false -> is_space (g c) = false) ->
  rstrip s = s -> rstrip (map_chars g s) = map_chars g s.
Proof.
  intros Hg. induction s as [|c s IH]; [done |].
  cbn [rstrip map_chars]. destruct (rstrip s) as [|c' r] eqn:Hr.
  - destruct (is_space c) eqn:Hc; [discriminate |].
    intros [= <-]. cbn [rstrip map_chars]. by rewrite (Hg c Hc).
  - intros [= Hs]. rewrite Hs in IH. rewrite (IH eq_refl).
    rewrite <- Hs. reflexivity.
Qed.

Lemma lower_and_underscore_map (s : string) :
  lower_and_underscore s = map_chars low_under (strip s).
Proof.
  unfold lower_and_underscore, lower.
  exact (map_chars_compose (fun c => if Ascii.eqb c " "%char then "_"%char else c)
           lower_char (strip s)).
Qed.

Lemma lower_and_underscore_twice (s : string) :
  lower_and_underscore (lower_and_underscore s) = lower_and_underscore s.
Proof.
  rewrite !lower_and_underscore_map.
  destruct (strip_trimmed s) as [Hl Hr].
  rewrite trimmed_strip.
  - rewrite map_chars_compose. apply map_chars_ext, low_under_idem.
  - split; [apply lstrip_map | apply rstrip_map]; auto using low_under_keeps_nonspace.
Qed.

(** X3.  [lower_and_underscore] is idempotent, and what it returns has
    no space, no upper-case ASCII letter and no whitespace at either
    end. *)
Theorem lower_and_underscore_normal_form (s : string) :
  lower_and_underscore (lower_and_underscore s) = lower_and_underscore s /\
  Forall (fun c => c <> " "%char /\ lower_char c = c)
         (list_ascii_of_string (lower_and_underscore s)) /\
  strip (lower_and_underscore s) = lower_and_underscore s.
Proof.
  split; [apply lower_and_underscore_twice |]. split.
  - rewrite lower_and_underscore_map, map_chars_list. apply Forall_forall.
    intros c [c0 [-> _]]%list_elem_of_fmap.
    split; [apply low_under_not_blank | apply low_under_lower].
  - rewrite lower_and_underscore_map. destruct (strip_trimmed s) as [Hl Hr].
    apply trimmed_strip.
    split; [apply lstrip_map | apply rstrip_map]; auto using low_under_keeps_nonspace.
Qed.

(** [to_bool] reads its argument without regard to case. *)
Lemma lower_upper (s : string) : lower (upper s) = lower s.
Proof.
  unfold lower, upper. rewrite map_chars_compose. apply map_chars_ext, lower_upper_char.
Qed.

Lemma lower_lower (s : string) : lower (lower s) = lower s.
Proof.
  unfold lower. rewrite map_chars_compose. apply map_chars_ext.
  intros c. by_cases_on c.
Qed.

(** X4.  [to_bool] ignores the case of a text: upper-casing or
    lower-casing the argument does not change the value returned.  It
    logs one warning, which names the argument, exactly when the
    lower-cased text is none of the eleven words it knows, and nothing
    otherwise. *)
Theorem to_bool_case_and_log (s : string) (x : pyobj) :
  (to_bool (PyStr (upper s))).1 = (to_bool (PyStr s)).1 /\
  (to_bool (PyStr (lower s))).1 = (to_bool (PyStr s)).1 /\
  (to_bool x).2
  = if str_in (lower (str x)) (truthy ++ falsy ++ blank) then []
    else [(WARNING, "Could not convert " +:+ str x +:+ " to bool")].
Proof.
  split; [| split].
  - unfold to_bool. cbn [str]. rewrite lower_upper.
    by repeat destruct (str_in _ _).
  - unfold to_bool. cbn [str]. rewrite lower_lower.
    by repeat destruct (str_in _ _).
  - unfold to_bool, str_in. rewrite !existsb_app.
    by repeat destruct (existsb _ _).
Qed.

End text_facts.

(** ** The shape of a cleaned table *)

Section cleaner_shape.
Import py pandas datatodf.
Context {V : Type} `{CellValue V}.

Lemma is_clean_rows_columns (df : DataFrame V) :
  is_clean df -> (rows df = [] <-> columns df = []).
Proof.
  intros (Hwf & _ & Hrow & Hcol). split.
  - intros Hr. unfold any_axis0 in Hcol. rewrite Hr in Hcol. simpl in Hcol.
    destruct (columns df); [done | discriminate].
  - intros Hc. destruct (rows df) as [|r rs] eqn:Hr; [done |].
    unfold wf in Hwf. rewrite Hr in Hwf.
    inversion Hwf as [|? ? Hlen _]; subst. inversion Hrow as [|? ? Hne _]; subst.
    rewrite Hc in Hlen. destruct (r.2); [discriminate | discriminate].
Qed.

(** X5.  What [drop_empty_rows_cols] returns is rectangular and holds
    no null; it has no rows exactly when it has no columns, and that
    is exactly when no cell of the argument is non-empty: the result
    is never a frame of rows without columns or of columns without
    rows. *)
Theorem drop_empty_rows_cols_shape (df : DataFrame V) :
  wf df ->
  let out := drop_empty_rows_cols df in
  wf out /\
  Forall (fun r => Forall (fun c => is_Some c) r.2) (rows out) /\
  (rows out = [] <-> columns out = []) /\
  (rows out = [] <-> Forall (fun r => existsb nonempty r.2 = false) (rows df)).
Proof.
  intros Hwf out.
  assert (Hout : out = Cleaner_spec df) by apply (drop_empty_rows_cols_spec df Hwf).
  pose proof (Cleaner_spec_clean df Hwf) as Hclean. rewrite <- Hout in Hclean.
  split; [apply Hclean |]. split; [apply Hclean |].
  split; [by apply is_clean_rows_columns |].
  rewrite Hout. unfold Cleaner_spec; simpl. split.
  - intros Hnil%fmap_nil_inv. apply Forall_forall. intros r Hr.
    destruct (existsb nonempty r.2) eqn:He; [| done].
    assert (Hin : In r (List.filter (fun r => existsb nonempty r.2) (rows df)))
      by (apply List.filter_In; split; [by apply list_elem_of_In | done]).
    rewrite Hnil in Hin. destruct Hin.
  - intros Hall. induction Hall as [|r rs Hr Hrs IH]; [done |]. simpl. by rewrite Hr.
Qed.

End cleaner_shape.

Lemma drop_empty_rows_cols_shape_witness :
  pandas.wf cleaner_example /\
  pandas.wf (datatodf.drop_empty_rows_cols cleaner_example).
Proof.
  split; [repeat constructor |].
  apply (drop_empty_rows_cols_shape cleaner_example). repeat constructor.
Defined.

(** ** Header and footer rows of a spreadsheet *)

Section excel_rows.
Import py pandas datatodf.

Lemma enumerate_from_app {A} (k : nat) (l1 l2 : list A) :
  enumerate_from k (l1 ++ l2)
  = enumerate_from k l1 ++ enumerate_from (k + length l1) l2.
Proof.
  revert k; induction l1 as [|x l1 IH]; intros k; cbn [app length].
  - by rewrite Nat.add_0_r.
  - rewrite !enumerate_from_cons, IH. cbn [app]. do 3 f_equal. lia.
Qed.

Lemma enumerate_from_bounds {A} (k : nat) (l : list A) :
  Forall (fun r => (Z.of_nat k <= r.1 < Z.of_nat (k + length l))%Z) (enumerate_from k l).
Proof.
  revert k; induction l as [|x l IH]; intros k; [constructor |].
  rewrite enumerate_from_cons. constructor; simpl; [lia |].
  eapply Forall_impl; [apply (IH (S k)) |]. intros r Hr. simpl in Hr. lia.
Qed.

Lemma enumerate_from_fst {A} (k : nat) (l : list A) :
  map fst (enumerate_from k l) = range (Z.of_nat k) (Z.of_nat (k + length l)).
Proof.
  unfold range. replace (Z.to_nat (Z.of_nat (k + length l) - Z.of_nat k)) with (length l) by lia.
  revert k; induction l as [|x l IH]; intros k; [done |].
  rewrite enumerate_from_cons. cbn [map fst length seq]. f_equal; [lia |].
  rewrite IH, <- seq_shift, map_map. apply map_ext. intros i. lia.
Qed.

Lemma enumerate_from_lookup {A} (k i : nat) (l : list A) :
  enumerate_from k l !! i = (fun x => (Z.of_nat (k + i), x)) <$> l !! i.
Proof.
  revert k i; induction l as [|x l IH]; intros k i; [done |].
  rewrite enumerate_from_cons. destruct i as [|i]; simpl.
  - by rewrite Nat.add_0_r.
  - rewrite IH. by replace (S k + i)%nat with (k + S i)%nat by lia.
Qed.

Lemma in_range (a b i : Z) : In i (range a b) <-> (a <= i < b)%Z.
Proof.
  unfold range. rewrite in_map_iff. split.
  - intros (j & <- & Hj%in_seq). lia.
  - intros Hi. exists (Z.to_nat (i - a)). split; [lia |]. apply in_seq. lia.
Qed.

Lemma existsb_Zeqb (i : Z) (l : list Z) : existsb (Z.eqb i) l = true <-> In i l.
Proof.
  rewrite existsb_exists. split.
  - intros (j & Hj & He%Z.eqb_eq). by subst.
  - intros Hi. exists i. split; [done | apply Z.eqb_refl].
Qed.

Lemma filter_none {A} (f : A -> bool) (l : list A) :
  Forall (fun x => f x = false) l -> List.filter f l = [].
Proof. induction 1 as [|x l Hx Hl IH]; simpl; [done | by rewrite Hx]. Qed.

(** Dropping the labels [0..h] and the last [f] labels of a frame
    numbered from 0 leaves the rows in between. *)
Lemma drop_rows_interval {A} (data : list A) (h f : Z) :
  (0 <= h < Z.of_nat (length data))%Z ->
  List.filter (fun r : Z * A =>
                 negb (existsb (Z.eqb r.1)
                         (range 0 (h + 1)
                          ++ range (Z.of_nat (length data) - f) (Z.of_nat (length data)))))
              (enumerate_from 0 data)
  = enumerate_from (S (Z.to_nat h))
      (List.firstn (Z.to_nat (Z.of_nat (length data) - f) - S (Z.to_nat h))
                   (List.skipn (S (Z.to_nat h)) data)).
Proof.
  intros Hh. remember (length data) as n eqn:Hn.
  set (k := S (Z.to_nat h)). set (m := (Z.to_nat (Z.of_nat n - f) - k)%nat).
  set (p := fun r : Z * A =>
              negb (existsb (Z.eqb r.1) (range 0 (h + 1) ++ range (Z.of_nat n - f) (Z.of_nat n)))).
  assert (Hp : forall r, p r = true <-> ~ ((0 <= r.1 < h + 1)%Z \/ (Z.of_nat n - f <= r.1 < Z.of_nat n)%Z)).
  { intros r. unfold p. rewrite negb_true_iff, <- not_true_iff_false, existsb_Zeqb, in_app_iff.
    by rewrite !in_range. }
  transitivity (List.filter p (enumerate_from 0
                  (List.firstn k data
                   ++ List.firstn m (List.skipn k data)
                   ++ List.skipn m (List.skipn k data)))).
  { by rewrite !firstn_skipn. }
  rewrite !enumerate_from_app, !List.filter_app.
  assert (Hl1 : length (List.firstn k data) = k) by (rewrite length_firstn; lia).
  assert (Hl2 : length (List.firstn m (List.skipn k data)) = Nat.min m (n - k))
    by (rewrite length_firstn, length_skipn; lia).
  assert (Hl3 : length (List.skipn m (List.skipn k data)) = (n - k - m)%nat)
    by (rewrite !length_skipn; lia).
  rewrite (filter_none p (enumerate_from 0 (List.firstn k data))).
  2:{ eapply Forall_impl; [apply enumerate_from_bounds |]. intros r Hr. simpl in Hr.
      rewrite Hl1 in Hr. apply not_true_iff_false. rewrite Hp. lia. }
  rewrite (filter_none p (enumerate_from _ (List.skipn m (List.skipn k data)))).
  2:{ eapply Forall_impl; [apply enumerate_from_bounds |]. intros r Hr. simpl in Hr.
      rewrite Hl1, Hl2, Hl3 in Hr. apply not_true_iff_false. rewrite Hp. lia. }
  rewrite filter_all.
  2:{ eapply Forall_impl; [apply enumerate_from_bounds |]. intros r Hr. simpl in Hr.
      rewrite Hl1, Hl2 in Hr. apply Hp. lia. }
  simpl. by rewrite Hl1, app_nil_r.
Qed.

Lemma getitem_nonneg {A} (l : list A) (i : Z) :
  (0 <= i)%Z -> getitem l i = l !! Z.to_nat i.
Proof. intros Hi. unfold getitem. by destruct (Z.leb_spec 0 i); [| lia]. Qed.

Lemma getitem_out_of_range {A} (l : list A) (i : Z) :
  (Z.of_nat (length l) <= i \/ i < - Z.of_nat (length l))%Z -> getitem l i = None.
Proof.
  intros Hi. unfold getitem. destruct (Z.leb_spec 0 i).
  - apply lookup_ge_None. lia.
  - destruct (Z.leb_spec 0 (Z.of_nat (length l) + i)); [lia | done].
Qed.

Lemma enumerate_from_length {A} (k : nat) (l : list A) : length (enumerate_from k l) = length l.
Proof. by rewrite <- (enumerate_from_snd k l) at 2; rewrite List.length_map. Qed.

Lemma values_length (ws : openpyxl.Worksheet) :
  length (openpyxl.values ws) = length (openpyxl.cells ws).
Proof. unfold openpyxl.values. by rewrite List.length_map. Qed.

Lemma max_row_length (ws : openpyxl.Worksheet) :
  openpyxl.cells ws <> [] -> openpyxl.max_row ws = Z.of_nat (length (openpyxl.cells ws)).
Proof. unfold openpyxl.max_row. by destruct (openpyxl.cells ws). Qed.

(** A sheet with a header row, up to the removal of rows. *)
Lemma excel_sheet_header (lc : link_col_arg) (ws : openpyxl.Worksheet) (h f : Z)
    (hdr : list openpyxl.Cell) :
  (0 <= h)%Z -> rectangular ws -> openpyxl.cells ws !! Z.to_nat h = Some hdr ->
  excel_sheet lc h f ws
  = do df <- drop (range 0 (h + 1)
                   ++ range (Z.of_nat (length (openpyxl.values ws)) - f)
                            (Z.of_nat (length (openpyxl.values ws))))
                  (mkDF (header_labels hdr) (enumerate_from 0 (openpyxl.values ws)));
    mfoldl (add_link_column ws h f (header_labels hdr)) df (link_columns lc).
Proof.
  intros Hh Hrect Hrow.
  assert (Hlt : (Z.to_nat h < length (openpyxl.cells ws))%nat) by (by eapply lookup_lt_Some).
  assert (Hne : openpyxl.cells ws <> []) by (intros He; rewrite He in Hlt; simpl in Hlt; lia).
  unfold excel_sheet, iloc.
  rewrite rows_of_values, getitem_nonneg, enumerate_from_lookup by done.
  unfold openpyxl.values at 1. rewrite list_lookup_fmap, Hrow. cbn [fmap option_fmap option_map].
  cbn [snd]. rewrite bind_ret_l.
  replace (map (fun s => utils.whitespace_to_singlespace (str_cell s)) (map openpyxl.value hdr))
    with (header_labels hdr) by (unfold header_labels; by rewrite map_map).
  assert (Hset : set_columns (header_labels hdr) (of_values (openpyxl.values ws))
                 = ret (mkDF (header_labels hdr) (enumerate_from 0 (openpyxl.values ws)))).
  { unfold set_columns. cbn [columns of_values].
    rewrite List.length_map, length_seq.
    rewrite (width_rectangular (length (hd [] (openpyxl.cells ws)))).
    - unfold rectangular in Hrect. rewrite Forall_lookup in Hrect.
      unfold header_labels. rewrite List.length_map.
      by rewrite (Hrect _ _ Hrow), Nat.eqb_refl.
    - unfold openpyxl.values. by destruct (openpyxl.cells ws).
    - unfold openpyxl.values. apply Forall_fmap. eapply Forall_impl; [exact Hrect |].
      intros r Hr. simpl. by rewrite List.length_map. }
  rewrite Hset, bind_ret_l. clear Hset.
  by rewrite (max_row_length ws Hne), <- (values_length ws).
Qed.

(** A readable sheet up to the hyperlink loop: the labels of the
    header row over the rows between header and footer. *)
Lemma excel_sheet_readable (lc : link_col_arg) (ws : openpyxl.Worksheet) (h f : Z)
    (cols : list string) :
  (0 <= h)%Z -> readable h f cols ws ->
  excel_sheet lc h f ws
  = mfoldl (add_link_column ws h f cols) (mkDF cols (data_rows h f ws)) (link_columns lc).
Proof.
  intros Hh (Hrect & Hf & Hhdr).
  destruct (openpyxl.cells ws !! Z.to_nat h) as [hdr|] eqn:Hrow; [| discriminate].
  injection Hhdr as Hcols.
  assert (Hlt : (Z.to_nat h < length (openpyxl.cells ws))%nat) by (by eapply lookup_lt_Some).
  rewrite (excel_sheet_header lc ws h f hdr Hh Hrect Hrow), Hcols.
  unfold drop. cbn [columns rows].
  rewrite (proj2 (forallb_forall _ _)).
  2:{ intros l Hl. apply existsb_Zeqb. unfold index. cbn [rows].
      rewrite enumerate_from_fst. apply in_range.
      apply in_app_iff in Hl. rewrite !in_range in Hl. rewrite values_length in *. lia. }
  rewrite bind_ret_l. rewrite drop_rows_interval by (rewrite values_length; lia).
  unfold data_rows. by rewrite values_length.
Qed.

Lemma data_rows_index (ws : openpyxl.Worksheet) (h f : Z) :
  (0 <= h < Z.of_nat (length (openpyxl.cells ws)))%Z ->
  map fst (data_rows h f ws)
  = range (h + 1) (Z.of_nat (length (openpyxl.cells ws)) - Z.max 0 f).
Proof.
  intros Hh. unfold data_rows. rewrite enumerate_from_fst.
  rewrite length_firstn, length_skipn, values_length.
  replace (Z.of_nat (S (Z.to_nat h))) with (h + 1)%Z by lia.
  unfold range. do 2 f_equal. lia.
Qed.

Lemma append_same_columns {V} (a b : DataFrame V) :
  columns b = columns a -> append a b = ret (mkDF (columns a) (rows a ++ rows b)).
Proof.
  intros Hb. unfold append, union_columns. rewrite Hb.
  rewrite (filter_none _ (columns a)).
  2:{ apply Forall_forall. intros c Hc. apply negb_false_iff, existsb_exists.
      exists c. split; [by apply list_elem_of_In | apply String.eqb_refl]. }
  rewrite app_nil_r. unfold reindex_columns. rewrite Hb, labels_eqb_refl.
  by rewrite !bind_ret_l.
Qed.

(** Sheets with the same labels are stacked in order. *)
Lemma excel_stack (h f : Z) (cols : list string) (wb : list openpyxl.Worksheet)
    (acc : DataFrame string) :
  (0 <= h)%Z -> Forall (readable h f cols) wb -> columns acc = cols ->
  mfoldl (fun df_all ws => do df <- excel_sheet LinkNone h f ws; append df_all df) acc wb
  = ret (mkDF cols (rows acc ++ List.flat_map (data_rows h f) wb)).
Proof.
  intros Hh Hall; revert acc; induction Hall as [|ws wb Hws Hwb IH]; intros acc Hacc;
    cbn [mfoldl flat_map].
  - rewrite app_nil_r. destruct acc; simpl in *. by subst.
  - rewrite (excel_sheet_readable LinkNone ws h f cols Hh Hws). cbn [link_columns mfoldl].
    rewrite bind_ret_l, append_same_columns by done.
    rewrite bind_ret_l, IH by done. cbn [rows]. by rewrite app_assoc.
Qed.

(** X6.  Sheets whose header row [skip_header] gives the same labels
    are stacked in workbook order under those labels; of each sheet
    the rows after the header row and before the last [drop_footer]
    rows are kept, under their positions in the sheet: the index is
    not renumbered, and a sheet of n rows gives the labels
    skip_header+1 .. n-drop_footer-1. *)
Theorem excel_rows_between_header_and_footer (wb : list openpyxl.Worksheet) (h f : Z)
    (cols : list string) :
  (0 <= h)%Z -> wb <> [] -> Forall (readable h f cols) wb ->
  excel wb LinkNone (Some h) (Some f) None
  = ret (mkDF cols (List.flat_map (data_rows h f) wb)) /\
  Forall (fun ws => map fst (data_rows h f ws)
                    = range (h + 1) (Z.of_nat (length (openpyxl.cells ws)) - Z.max 0 f)) wb.
Proof.
  intros Hh Hne Hall. split.
  - unfold excel. cbn [default from_option id]. rewrite bind_ret_l.
    destruct Hall as [|ws wb Hws Hwb]; [done |]. cbn [mfoldl flat_map].
    rewrite (excel_sheet_readable LinkNone ws h f cols Hh Hws). cbn [link_columns mfoldl].
    rewrite bind_ret_l, append_empty, bind_ret_l.
    by rewrite (excel_stack h f cols wb (mkDF cols (data_rows h f ws)) Hh Hwb eq_refl).
  - eapply Forall_impl; [exact Hall |]. intros ws (_ & _ & Hhdr).
    apply data_rows_index. split; [done |].
    destruct (openpyxl.cells ws !! Z.to_nat h) eqn:Hrow; [| discriminate].
    apply lookup_lt_Some in Hrow. lia.
Qed.

Lemma excel_sheet_short (lc : link_col_arg) (ws : openpyxl.Worksheet) (h f : Z) :
  (Z.of_nat (length (openpyxl.cells ws)) <= h \/ h < - Z.of_nat (length (openpyxl.cells ws)))%Z ->
  excel_sheet lc h f ws = raise (IndexError "single positional indexer is out-of-bounds").
Proof.
  intros Hh. unfold excel_sheet, iloc. rewrite getitem_out_of_range; [done |].
  by rewrite rows_of_values, enumerate_from_length, values_length.
Qed.

(** A loop stops at the first step that raises. *)
Lemma mfoldl_raises {A B} (f : A -> B -> M A) (a : A) (pre post : list B) (b : B) :
  (forall a, exists e, f a b = raise e) ->
  exists e out, mfoldl f a (pre ++ b :: post) = (inl e, out).
Proof.
  intros Hb; revert a; induction pre as [|x pre IH]; intros a; cbn [app mfoldl].
  - destruct (Hb a) as (e & ->). by exists e, [].
  - destruct (f a x) as [[e | a'] out]; [by exists e, out |].
    destruct (IH a') as (e & out' & He). rewrite bind_value, He. eauto.
Qed.

(** X7.  A sheet that has no row at position [skip_header] cannot be
    read: a sheet without rows for every [skip_header], a sheet of n
    rows for [skip_header] >= n.  Reading a workbook with such a sheet
    raises whatever the other sheets hold, and raises IndexError before
    anything is logged when the sheet comes first. *)
Theorem excel_short_sheet_raises (pre post : list openpyxl.Worksheet) (ws : openpyxl.Worksheet)
    (lc : link_col_arg) (skip_header drop_footer : option Z) :
  (let n := Z.of_nat (length (openpyxl.cells ws)) in
   n <= default 0 skip_header \/ default 0 skip_header < - n)%Z ->
  (exists e out, excel (pre ++ ws :: post) lc skip_header drop_footer None = (inl e, out)) /\
  excel (ws :: post) lc skip_header drop_footer None
  = raise (IndexError "single positional indexer is out-of-bounds").
Proof.
  intros Hh. cbv zeta in Hh. split.
  - unfold excel. rewrite bind_ret_l. apply mfoldl_raises. intros a.
    rewrite (excel_sheet_short lc ws _ _ Hh). by eexists.
  - unfold excel. rewrite bind_ret_l. cbn [mfoldl].
    by rewrite (excel_sheet_short lc ws _ _ Hh).
Qed.

Lemma seq_map_offset {A} (g : nat -> A) (m k : nat) :
  map g (seq m k) = map (fun i => g (m + i)%nat) (seq 0 k).
Proof.
  revert g m; induction k as [|k IH]; intros g m; [done |].
  cbn [seq map]. rewrite Nat.add_0_r. f_equal.
  rewrite (IH g (S m)), (IH (fun i => g (m + i)%nat) 1%nat).
  apply map_ext. intros i. f_equal. lia.
Qed.

Lemma range_app (a b c : Z) :
  (a <= b <= c)%Z -> range a c = range a b ++ range b c.
Proof.
  intros Habc. unfold range.
  replace (Z.to_nat (c - a)) with (Z.to_nat (b - a) + Z.to_nat (c - b))%nat by lia.
  rewrite seq_app, map_app. f_equal. cbn [Nat.add].
  rewrite seq_map_offset. apply map_ext. intros i. lia.
Qed.

(** The labels [df.drop] misses when the footer reaches above the
    sheet: the negative ones. *)
Lemma missing_footer_labels {A} (data : list A) (h f : Z) :
  (0 <= h < Z.of_nat (length data))%Z -> (Z.of_nat (length data) < f)%Z ->
  List.filter (fun l => negb (existsb (Z.eqb l) (map fst (enumerate_from 0 data))))
              (range 0 (h + 1) ++ range (Z.of_nat (length data) - f) (Z.of_nat (length data)))
  = range (Z.of_nat (length data) - f) 0.
Proof.
  intros Hh Hf. rewrite enumerate_from_fst. cbn [Nat.add].
  set (n := Z.of_nat (length data)).
  assert (Hp : forall l, negb (existsb (Z.eqb l) (range (Z.of_nat 0) n)) = true
                         <-> ~ (0 <= l < n)%Z).
  { intros l. by rewrite negb_true_iff, <- not_true_iff_false, existsb_Zeqb, in_range. }
  rewrite (range_app (n - f) 0 n) by lia. rewrite !List.filter_app.
  rewrite (filter_none _ (range 0 (h + 1))).
  2:{ apply Forall_forall. intros l Hl%list_elem_of_In%in_range.
      apply not_true_iff_false. rewrite Hp. lia. }
  rewrite (filter_none _ (range 0 n)).
  2:{ apply Forall_forall. intros l Hl%list_elem_of_In%in_range.
      apply not_true_iff_false. rewrite Hp. lia. }
  rewrite app_nil_r. cbn [app]. apply filter_all, Forall_forall.
  intros l Hl%list_elem_of_In%in_range. apply Hp. lia.
Qed.

(** X8.  A [drop_footer] greater than the number of rows of the first
    sheet does not give an empty table: the footer labels start below
    0, [df.drop] does not find them and [excel] raises KeyError,
    whatever [link_col] is; the error names the labels below 0. *)
Theorem excel_footer_too_long (ws : openpyxl.Worksheet) (post : list openpyxl.Worksheet)
    (lc : link_col_arg) (h f : Z) :
  (0 <= h < Z.of_nat (length (openpyxl.cells ws)))%Z ->
  rectangular ws ->
  (Z.of_nat (length (openpyxl.cells ws)) < f)%Z ->
  excel (ws :: post) lc (Some h) (Some f) None
  = raise (KeyError (repr_ints (range (Z.of_nat (length (openpyxl.cells ws)) - f) 0)
                     +:+ " not found in axis")).
Proof.
  intros Hh Hrect Hf.
  destruct (openpyxl.cells ws !! Z.to_nat h) as [hdr|] eqn:Hrow.
  2:{ apply lookup_ge_None in Hrow. lia. }
  unfold excel. cbn [default from_option id]. rewrite bind_ret_l. cbn [mfoldl].
  rewrite (excel_sheet_header lc ws h f hdr (proj1 Hh) Hrect Hrow).
  unfold drop, index. cbn [rows].
  rewrite missing_footer_labels by (rewrite values_length; lia).
  rewrite values_length.
  destruct (forallb _ _) eqn:Hall; [| done].
  rewrite forallb_forall in Hall.
  specialize (Hall (Z.of_nat (length (openpyxl.cells ws)) - f)%Z).
  rewrite existsb_Zeqb in Hall.
  rewrite enumerate_from_fst, in_app_iff, !in_range, values_length in Hall. lia.
Qed.

End excel_rows.

Lemma excel_rows_between_header_and_footer_witness :
  datatodf.excel [five_row_sheet; five_row_sheet] datatodf.LinkNone (Some 1%Z) (Some 1%Z) None
  = py.ret (pandas.mkDF ["Date"; "Company"]
              (List.flat_map (data_rows 1 1) [five_row_sheet; five_row_sheet])) /\
  Forall (fun ws => map fst (data_rows 1 1 ws)
                    = py.range (1 + 1) (Z.of_nat (length (openpyxl.cells ws)) - Z.max 0 1))
         [five_row_sheet; five_row_sheet].
Proof.
  apply (excel_rows_between_header_and_footer [five_row_sheet; five_row_sheet] 1 1
           ["Date"; "Company"]); [lia | discriminate |].
  repeat constructor; by vm_compute.
Defined.

Lemma excel_short_sheet_raises_witness :
  (exists e out, datatodf.excel ([five_row_sheet] ++ empty_sheet :: []) datatodf.LinkNone
                   None None None = (inl e, out)) /\
  datatodf.excel (empty_sheet :: []) datatodf.LinkNone None None None
  = py.raise (py.IndexError "single positional indexer is out-of-bounds").
Proof.
  apply (excel_short_sheet_raises [five_row_sheet] [] empty_sheet datatodf.LinkNone None None).
  simpl. lia.
Defined.

Lemma excel_footer_too_long_witness :
  datatodf.excel (five_row_sheet :: []) datatodf.LinkNone (Some 0%Z) (Some 6%Z) None
  = py.raise (py.KeyError "[-1] not found in axis").
Proof.
  apply (excel_footer_too_long five_row_sheet [] datatodf.LinkNone 0 6);
    [simpl; lia | repeat constructor | simpl; lia].
Defined.

(** ** Selected sheets and hyperlink columns *)

Section excel_selection.
Import py pandas datatodf.

Lemma workbook_getitem_missing (wb : list openpyxl.Worksheet) (name : string) :
  ~ In name (map openpyxl.title wb) ->
  workbook_getitem wb name = raise (KeyError ("Worksheet " +:+ name +:+ " does not exist.")).
Proof.
  intros Hn. unfold workbook_getitem.
  destruct (List.find _ wb) as [ws|] eqn:Hfind; [| done].
  apply find_some in Hfind as [Hin Heq]. apply String.eqb_eq in Heq.
  destruct Hn. apply in_map_iff. by exists ws.
Qed.

Lemma workbook_getitem_present (wb : list openpyxl.Worksheet) (name : string) :
  In name (map openpyxl.title wb) -> exists ws, workbook_getitem wb name = ret ws.
Proof.
  intros (ws & Ht & Hin)%in_map_iff. unfold workbook_getitem.
  destruct (List.find _ wb) as [ws'|] eqn:Hfind; [by exists ws' |].
  pose proof (find_none _ _ Hfind ws Hin) as Hno. simpl in Hno.
  rewrite Ht, String.eqb_refl in Hno. discriminate.
Qed.

Lemma mmap_ret {A B} (f : A -> M B) (l : list A) (l' : list B) :
  Forall2 (fun a b => f a = ret b) l l' -> mmap f l = ret l'.
Proof.
  induction 1 as [|a b l l' Ha Hl IH]; cbn [mmap]; [done |].
  by rewrite Ha, bind_ret_l, IH, bind_ret_l.
Qed.

(** A comprehension stops at the first element that raises. *)
Lemma mmap_raises {A B} (f : A -> M B) (pre post : list A) (a : A) (e : exn) :
  Forall (fun x => exists b, f x = ret b) pre -> f a = raise e ->
  mmap f (pre ++ a :: post) = raise e.
Proof.
  intros Hpre Ha. induction Hpre as [|x pre (b & Hx) Hpre IH]; cbn [app mmap].
  - by rewrite Ha.
  - by rewrite Hx, bind_ret_l, IH.
Qed.

(** X9.  With a non-empty [sheets_to_use] the sheets are looked up by
    title before any of them is read: when every name is the title of
    a sheet, the result is that of reading the sheets found, in the
    order of the names; the first name that is no title raises
    KeyError and nothing is logged, whatever the sheets hold. *)
Theorem excel_sheets_to_use (wb : list openpyxl.Worksheet) (names : list string)
    (lc : link_col_arg) (skip_header drop_footer : option Z) :
  (forall sheets,
     names <> [] ->
     Forall2 (fun name ws => workbook_getitem wb name = ret ws) names sheets ->
     excel wb lc skip_header drop_footer (Some names)
     = excel sheets lc skip_header drop_footer None) /\
  (forall pre m post,
     names = pre ++ m :: post ->
     Forall (fun n => In n (map openpyxl.title wb)) pre ->
     ~ In m (map openpyxl.title wb) ->
     excel wb lc skip_header drop_footer (Some names)
     = raise (KeyError ("Worksheet " +:+ m +:+ " does not exist."))).
Proof.
  split.
  - intros sheets Hne Hall. unfold excel.
    destruct names as [|n ns]; [done |].
    by rewrite (mmap_ret _ _ _ Hall), !bind_ret_l.
  - intros pre m post -> Hpre Hm. unfold excel.
    assert (Hraise : mmap (workbook_getitem wb) (pre ++ m :: post)
                     = raise (KeyError ("Worksheet " +:+ m +:+ " does not exist."))).
    { apply mmap_raises; [| by apply workbook_getitem_missing].
      eapply Forall_impl; [exact Hpre |]. intros n Hn. by apply workbook_getitem_present. }
    destruct (pre ++ m :: post) as [|n ns] eqn:Hl; [by destruct pre |].
    by rewrite Hraise.
Qed.

Lemma zip_with_const {A B C} (g : A -> B -> C) (c : B) (l : list A) {D} (l' : list D) :
  length l = length l' ->
  zip_with g l (map (fun _ => c) l') = map (fun r => g r c) l.
Proof.
  revert l'; induction l as [|x l IH]; intros [|y l'] Hlen; simpl in *; try done.
  f_equal. apply IH. lia.
Qed.

Lemma flat_map_const {A B} (c : B) (l : list A) :
  List.flat_map (fun _ => [c]) l = replicate (length l) c.
Proof. induction l as [|x l IH]; simpl; [done | by rewrite IH]. Qed.

(** X10.  On a readable sheet a link column [col] other than 0 whose
    label is not empty adds the column '<label> Link', and every value
    of it is the empty string, with one warning for each data row: no
    hyperlink of the sheet reaches the table. *)
Theorem excel_link_column_blank (ws : openpyxl.Worksheet) (h f col : Z) (cols : list string)
    (name : string) :
  (0 <= h)%Z -> (0 <= f)%Z -> readable h f cols ws ->
  col <> 0%Z -> getitem cols col = Some name -> name <> EmptyString ->
  ~ In (name +:+ " Link") cols ->
  excel [ws] (LinkInt col) (Some h) (Some f) None
  = (inr (mkDF (cols ++ [name +:+ " Link"])
               (map (fun r => (r.1, r.2 ++ [Some EmptyString])) (data_rows h f ws))),
     replicate (length (data_rows h f ws))
               (WARNING, "Expecting column " +:+ str_of_Z col
                         +:+ " to contain a link, but none found")).
Proof.
  intros Hh Hf Hr Hcol Hname Hne Hnew.
  pose proof Hr as (_ & Hfn & Hhdr).
  destruct (openpyxl.cells ws !! Z.to_nat h) as [hdr|] eqn:Hrow; [| discriminate].
  apply lookup_lt_Some in Hrow.
  assert (Hcells : openpyxl.cells ws <> []) by (intros He; rewrite He in Hrow; simpl in Hrow; lia).
  unfold excel. cbn [default from_option id]. rewrite bind_ret_l. cbn [mfoldl].
  rewrite (excel_sheet_readable (LinkInt col) ws h f cols Hh Hr).
  cbn [link_columns]. destruct (Z.eqb_spec col 0) as [|_]; [done |]. cbn [mfoldl].
  unfold add_link_column. rewrite Hname, bind_ret_l.
  destruct name as [|c name]; [done |]. rewrite bind_ret_l.
  set (label := String c name +:+ " Link") in *.
  set (rng := range (openpyxl.min_row ws + h) (openpyxl.max_row ws - f)).
  set (w := (WARNING, "Expecting column " +:+ str_of_Z col +:+ " to contain a link, but none found")).
  assert (Hlen : length rng = length (data_rows h f ws)).
  { unfold rng, range, data_rows, openpyxl.min_row. rewrite (max_row_length ws Hcells).
    rewrite List.length_map, length_seq, enumerate_from_length, length_firstn, length_skipn,
      values_length. lia. }
  rewrite (mmap_values _ (fun _ => Some EmptyString) (fun _ => [w])).
  2:{ apply Forall_forall. intros i _. apply row_link_always_empty. }
  rewrite bind_value. unfold set_column. cbn [rows columns].
  rewrite List.length_map, Hlen, Nat.eqb_refl. cbn [negb].
  assert (Hex : existsb (String.eqb label) cols = false).
  { apply not_true_iff_false. intros (c' & Hin & Heq%String.eqb_eq)%existsb_exists.
    apply Hnew. by rewrite Heq. }
  rewrite Hex. cbn [ret fst snd]. rewrite app_nil_r.
  rewrite (zip_with_const (fun r v => (r.1, r.2 ++ [v]))) by done.
  rewrite bind_value. cbn [fst snd ret mfoldl]. rewrite bind_value, append_empty.
  cbn [fst snd ret]. rewrite bind_value. cbn [fst snd ret].
  by rewrite !app_nil_r, flat_map_const, Hlen.
Qed.

End excel_selection.

Lemma excel_sheets_to_use_witness :
  datatodf.excel [five_row_sheet] datatodf.LinkNone (Some 1%Z) (Some 1%Z) (Some ["Sheet1"])
  = datatodf.excel [five_row_sheet] datatodf.LinkNone (Some 1%Z) (Some 1%Z) None /\
  datatodf.excel [five_row_sheet] datatodf.LinkNone (Some 1%Z) (Some 1%Z)
    (Some ["Sheet1"; "Sheet2"])
  = py.raise (py.KeyError "Worksheet Sheet2 does not exist.").
Proof.
  split.
  - apply (proj1 (excel_sheets_to_use [five_row_sheet] ["Sheet1"] datatodf.LinkNone
                    (Some 1%Z) (Some 1%Z)) [five_row_sheet]); [discriminate |].
    repeat constructor.
  - apply (proj2 (excel_sheets_to_use [five_row_sheet] ["Sheet1"; "Sheet2"] datatodf.LinkNone
                    (Some 1%Z) (Some 1%Z)) ["Sheet1"] "Sheet2" []); [reflexivity | |].
    + repeat constructor.
    + simpl. intros [H | []]. discriminate H.
Defined.

Lemma excel_link_column_blank_witness :
  datatodf.excel [linked_sheet] (datatodf.LinkInt 1) (Some 0%Z) (Some 0%Z) None
  = (inr (pandas.mkDF (["Date"; "Company"] ++ ["Company" +:+ " Link"])
            (map (fun r => (r.1, r.2 ++ [Some EmptyString])) (data_rows 0 0 linked_sheet))),
     replicate (length (data_rows 0 0 linked_sheet))
               (py.WARNING, "Expecting column " +:+ py.str_of_Z 1
                            +:+ " to contain a link, but none found")).
Proof.
  apply (excel_link_column_blank linked_sheet 0 0 1 ["Date"; "Company"] "Company");
    [lia | lia | | discriminate | reflexivity | discriminate |].
  - split; [repeat constructor | split; [by vm_compute | reflexivity]].
  - simpl. intros [H | [H | []]]; discriminate H.
Defined.

(** ** PDF extraction under all parameters *)

Section pdf_parameters.
Import py pandas datatodf.














End pdf_parameters.



(** ** The table [html] builds *)

Section html_frames.
Import py pandas datatodf.

Lemma insert_sorted_In (c x : string) (l : list string) :
  In c (insert_sorted x l) <-> c = x \/ In c l.
Proof.
  induction l as [|y l IH]; simpl; [intuition auto |].
  destruct (String.leb x y); simpl; [intuition auto |]. rewrite IH. intuition auto.
Qed.

Lemma sort_labels_In (c : string) (l : list string) : In c (sort_labels l) <-> In c l.
Proof.
  unfold sort_labels. induction l as [|x l IH]; simpl; [done |].
  rewrite insert_sorted_In, IH. intuition auto.
Qed.

Lemma assoc_is_Some {W} (c : string) (f : list (string * W)) :
  is_Some (assoc String.eqb c f) <-> In c (map fst f).
Proof.
  induction f as [|[k v] f IH]; simpl.
  - split; [by intros [? ?] | done].
  - destruct (String.eqb_spec k c) as [-> | Hne].
    + split; [by left | by eexists].
    + rewrite IH. intuition auto.
Qed.

Lemma new_labels_In {W} (c : string) (cols : list string) (f : list (string * W)) :
  In c (new_labels cols (map fst f)) <-> In c (map fst f) /\ ~ In c cols.
Proof.
  unfold new_labels. destruct cols as [|c0 cols]; [| rewrite sort_labels_In];
    by rewrite filter_In, negb_true_iff, <- not_true_iff_false, existsb_eqb_In.
Qed.

Lemma enumerate_from_Forall_snd {A} (P : A -> Prop) (k : nat) (l : list A) :
  Forall P l -> Forall (fun r => P r.2) (enumerate_from k l).
Proof.
  intros Hl; revert k; induction Hl as [|x l Hx Hl IH]; intros k; [constructor |].
  rewrite enumerate_from_cons. constructor; [done | apply IH].
Qed.

Lemma index_enumerate_from {A} (l : list A) :
  map fst (enumerate_from 0 l) = map Z.of_nat (seq 0 (length l)).
Proof.
  generalize 0%nat. induction l as [|x l IH]; intros k; [done |].
  rewrite enumerate_from_cons. cbn [map fst length seq]. by rewrite IH.
Qed.

(** Appending a dict keeps a tabulation. *)
Lemma append_dict_tabulates (df : DataFrame value) (fs : list (list (string * value)))
    (f : list (string * value)) :
  tabulates df fs -> tabulates (append_dict df f) (fs ++ [f]).
Proof.
  intros (Hlen & Hwf & _ & Hcols & Hcells).
  unfold append_dict. rewrite reset_index_enumerate.
  set (new := new_labels (columns df) (map fst f)).
  set (cols := columns df ++ new).
  rewrite map_app, map_map. cbn [map snd].
  set (old := map (fun r : Z * list (option value) => r.2 ++ replicate (length new) None)
                  (rows df)).
  assert (Hold : length old = length fs) by (unfold old; by rewrite List.length_map).
  unfold tabulates. cbn [columns rows]. rewrite enumerate_from_length.
  rewrite !length_app, Hold. cbn [length].
  split; [done |]. split; [| split; [| split]].
  - unfold wf. cbn [columns rows].
    apply (enumerate_from_Forall_snd (fun cells => length cells = length cols)).
    apply Forall_app. split.
    + unfold old. apply Forall_fmap. eapply Forall_impl; [exact Hwf |].
      intros r Hr. simpl in *. unfold cols. by rewrite !length_app, length_replicate, Hr.
    + constructor; [| constructor]. by rewrite List.length_map.
  - unfold index. cbn [rows]. rewrite index_enumerate_from.
    by rewrite length_app, Hold.
  - intros c. unfold cols. rewrite in_app_iff, Hcols. unfold new. rewrite new_labels_In.
    split.
    + intros [(g & Hg & Hc) | [Hc _]].
      * exists g. split; [apply in_app_iff; by left | done].
      * exists f. split; [apply in_app_iff; right; by left | by apply assoc_is_Some].
    + intros (g & [Hg | [<- | []]]%in_app_iff & Hc).
      * left. by exists g.
      * destruct (in_dec String.string_dec c (columns df)) as [Hin | Hout].
        -- left. by apply Hcols.
        -- right. split; [by apply assoc_is_Some | done].
  - intros i r g j c Hr Hg Hc.
    destruct r as [l cells]. cbn [snd].
    assert (Hcell : (old ++ [map (fun c => assoc String.eqb c f) cols]) !! i = Some cells).
    { rewrite enumerate_from_lookup in Hr.
      destruct (_ !! i) as [x|]; [| discriminate]. by injection Hr as _ ->. }
    destruct (decide (i < length fs)%nat) as [Hi | Hi].
    + rewrite lookup_app_l in Hg by done. rewrite lookup_app_l in Hcell by lia.
      unfold old in Hcell. rewrite list_lookup_fmap in Hcell.
      destruct (rows df !! i) as [r0|] eqn:Hr0; [| discriminate].
      injection Hcell as <-.
      pose proof (Forall_lookup_1 _ _ _ _ Hwf Hr0) as Hw. simpl in Hw.
      unfold cols in Hc. destruct (decide (j < length (columns df))%nat) as [Hj | Hj].
      * rewrite lookup_app_l in Hc by done. rewrite lookup_app_l by lia.
        by apply (Hcells i r0 g j c).
      * rewrite lookup_app_r in Hc by lia. rewrite lookup_app_r by lia.
        assert (Hnew : In c new) by (apply list_elem_of_In; by eapply list_elem_of_lookup_2).
        apply new_labels_In in Hnew as [_ Hout].
        rewrite Hw. apply lookup_lt_Some in Hc.
        rewrite lookup_replicate_2 by done. f_equal.
        destruct (assoc String.eqb c g) eqn:Ha; [| done].
        destruct Hout. apply Hcols. exists g.
        split; [apply list_elem_of_In; by eapply list_elem_of_lookup_2 | by rewrite Ha].
    + rewrite lookup_app_r in Hg by lia. rewrite lookup_app_r in Hcell by lia.
      rewrite Hold in Hcell.
      destruct (i - length fs)%nat as [|n]; [| by destruct n].
      injection Hg as <-. injection Hcell as <-.
      by rewrite list_lookup_fmap, Hc.
Qed.

Lemma empty_tabulates : tabulates empty [].
Proof.
  unfold tabulates, empty, wf. cbn. split; [done |]. split; [constructor |].
  split; [done |]. split; [| by intros [] ?].
  intros c. split; [done | by intros (f & [] & _)].
Qed.

Variable urljoin : string -> string -> exn + string.

(** The frame it returns. *)
Lemma html_rows_tabulate (base_url : string) (link_col : option Z) (columns : list string)
    (rows : list lxml.Row) (df : DataFrame value) (fs : list (list (string * value))) :
  forallb (joins urljoin base_url link_col) rows = true ->
  tabulates df fs ->
  exists df' out,
    mfoldl (fun df_all row =>
              do fields <- row_fields urljoin base_url link_col columns row;
              ret (append_dict df_all fields)) df rows = (inr df', out) /\
    tabulates df' (fs ++ map (fields_of urljoin base_url link_col columns) rows).
Proof.
  revert df fs; induction rows as [|row rows IH]; intros df fs Hj Hdf; cbn [mfoldl map].
  - exists df, []. by rewrite app_nil_r.
  - cbn [forallb] in Hj. apply andb_true_iff in Hj as [Hrow Hj].
    destruct (row_fields_value urljoin base_url link_col columns row Hrow) as (out & ->).
    rewrite bind_value. cbn [ret fst snd].
    destruct (IH _ _ Hj (append_dict_tabulates df fs
                           (fields_of urljoin base_url link_col columns row) Hdf))
      as (df' & out' & Hrun & Htab).
    rewrite bind_value, Hrun. cbn [fst snd]. eexists _, _. split; [reflexivity |].
    by rewrite <- app_assoc in Htab.
Qed.

Lemma html_table_tabulates (base_url : string) (link_col : option Z) (drop_first_row : bool)
    (df : DataFrame value) (fs : list (list (string * value))) (t : lxml.Table) :
  forallb (joins urljoin base_url link_col) (names_and_rows drop_first_row t).2 = true ->
  tabulates df fs ->
  exists df' out,
    html_table urljoin base_url link_col drop_first_row df t = (inr df', out) /\
    tabulates df' (fs ++ html_fields urljoin base_url link_col drop_first_row [t]).
Proof.
  intros Hj Hdf. unfold html_fields. cbn [flat_map]. rewrite app_nil_r.
  destruct (table_rows t) as [|r0 rows] eqn:Hrows.
  - rewrite (names_and_rows_none drop_first_row t Hrows). cbn [map]. rewrite app_nil_r.
    unfold html_table. fold (table_rows t). rewrite Hrows. cbn [length Nat.eqb].
    by eexists _, _.
  - rewrite (html_table_loop urljoin) by (by rewrite Hrows).
    by apply html_rows_tabulate.
Qed.

(** The loop over the tables. *)
Lemma html_tables_tabulate (base_url : string) (link_col : option Z) (drop_first_row : bool)
    (tables : list lxml.Table) (df : DataFrame value) (fs : list (list (string * value))) :
  joinable urljoin base_url link_col drop_first_row tables = true ->
  tabulates df fs ->
  exists df' out,
    mfoldl (html_table urljoin base_url link_col drop_first_row) df tables = (inr df', out) /\
    tabulates df' (fs ++ html_fields urljoin base_url link_col drop_first_row tables).
Proof.
  unfold joinable.
  revert df fs; induction tables as [|t tables IH]; intros df fs Hj Hdf; cbn [mfoldl].
  - exists df, []. unfold html_fields. cbn [flat_map]. by rewrite app_nil_r.
  - cbn [forallb] in Hj. apply andb_true_iff in Hj as [Ht Hj].
    destruct (html_table_tabulates base_url link_col drop_first_row df fs t Ht Hdf)
      as (df1 & out1 & -> & Hdf1).
    destruct (IH _ _ Hj Hdf1) as (df2 & out2 & Hrun & Hdf2).
    rewrite bind_value, Hrun. cbn [fst snd]. eexists _, _. split; [reflexivity |].
    rewrite <- app_assoc in Hdf2. unfold html_fields in *. cbn [flat_map] in *.
    by rewrite app_nil_r in Hdf2.
Qed.

Lemma html_run (read_html : exn + list (DataFrame value)) (doc : lxml.Document)
    (filepath base_url : string) (tag table_class : option string) (link_col : option Z)
    (drop_first_row : bool) (tables : list lxml.Table) :
  doc (search_str tag table_class) = inr tables ->
  joinable urljoin base_url link_col drop_first_row tables = true ->
  exists df out,
    html urljoin read_html (inr doc) filepath base_url false tag table_class link_col
      drop_first_row = (inr df, out) /\
    tabulates df (html_fields urljoin base_url link_col drop_first_row tables).
Proof.
  intros Hdoc Hj. unfold html. rewrite Hdoc. cbn [lift]. rewrite bind_ret_l.
  destruct tables as [|t tables].
  - eexists _, _. split; [reflexivity | apply empty_tabulates].
  - destruct (html_tables_tabulate base_url link_col drop_first_row (t :: tables) empty []
                Hj empty_tabulates) as (df & out & Hrun & Hdf).
    by exists df, out.
Qed.

(** X13.  What [html] does with a parsed document.  When the search
    raises, its exception reaches the caller.  When the search returns
    and [urljoin] takes the first link of every data row of the tables
    found (no link is joined without [link_col]), [html] returns, and
    the table returned tabulates the dicts built from the data rows, in
    document order: one row for each data row, numbered from 0 across
    the tables, every row with one cell for each column, a column for
    exactly the keys that occur in some dict, and under each label the
    value the row's dict has for it or NaN.  When [urljoin] refuses one
    of these links, [html] raises.  A table's data rows are its rows
    without the first when [drop_first_row] is set and without the
    next when there are no header cells. *)
Theorem html_tabulates_rows (read_html : exn + list (DataFrame value)) (doc : lxml.Document)
    (filepath base_url : string) (tag table_class : option string) (link_col : option Z)
    (drop_first_row : bool) :
  match doc (search_str tag table_class) with
  | inl e =>
      html urljoin read_html (inr doc) filepath base_url false tag table_class link_col
        drop_first_row = (inl e, [])
  | inr tables =>
      joinable urljoin base_url None drop_first_row tables = true /\
      if joinable urljoin base_url link_col drop_first_row tables
      then exists df out,
             html urljoin read_html (inr doc) filepath base_url false tag table_class
               link_col drop_first_row = (inr df, out) /\
             tabulates df (html_fields urljoin base_url link_col drop_first_row tables)
      else exists e out,
             html urljoin read_html (inr doc) filepath base_url false tag table_class
               link_col drop_first_row = (inl e, out)
  end.
Proof.
  destruct (doc (search_str tag table_class)) as [e | tables] eqn:Hdoc.
  - by apply (html_search_raises urljoin).
  - split; [apply (joinable_no_links urljoin) |].
    destruct (joinable urljoin base_url link_col drop_first_row tables) eqn:Hj.
    + by apply html_run.
    + pose proof (html_decided urljoin read_html doc filepath base_url tag table_class
                    link_col drop_first_row tables Hdoc) as Hraise.
      by rewrite Hj in Hraise.
Qed.

End html_frames.

(** ** The dict of one HTML row *)

Section html_row_dicts.
Import py pandas datatodf.
Variable urljoin : string -> string -> exn + string.

Lemma assoc_dict_set_eq {W} (k : string) (v : W) (d : list (string * W)) :
  assoc String.eqb k (dict_set k v d) = Some v.
Proof.
  induction d as [|[k' v'] d IH]; simpl; [by rewrite String.eqb_refl |].
  destruct (String.eqb_spec k' k) as [-> | Hne]; simpl.
  - by rewrite String.eqb_refl.
  - by destruct (String.eqb_spec k' k).
Qed.

Lemma assoc_dict_set_ne {W} (k k' : string) (v : W) (d : list (string * W)) :
  k <> k' -> assoc String.eqb k (dict_set k' v d) = assoc String.eqb k d.
Proof.
  intros Hne. induction d as [|[k0 v0] d IH]; simpl.
  - by destruct (String.eqb_spec k' k) as [-> | _].
  - destruct (String.eqb_spec k0 k') as [-> | Hk0]; simpl.
    + destruct (String.eqb_spec k' k) as [-> | _]; [done |].
      by destruct (String.eqb_spec k' k).
    + by rewrite IH.
Qed.

Lemma assoc_app {W} (k : string) (a b : list (string * W)) :
  assoc String.eqb k (a ++ b)
  = match assoc String.eqb k a with Some v => Some v | None => assoc String.eqb k b end.
Proof.
  induction a as [|[k' v'] a IH]; simpl; [done |]. by destruct (String.eqb k' k).
Qed.

Lemma assoc_foldl_dict_set {W} (k : string) (l d : list (string * W)) :
  assoc String.eqb k (foldl (fun d kv => dict_set kv.1 kv.2 d) d l)
  = match assoc String.eqb k (reverse l) with
    | Some v => Some v
    | None => assoc String.eqb k d
    end.
Proof.
  revert d; induction l as [|[k' v'] l IH]; intros d; [done |].
  cbn [foldl fst snd]. rewrite IH, reverse_cons, assoc_app.
  destruct (assoc String.eqb k (reverse l)); [done |]. simpl.
  destruct (String.eqb_spec k' k) as [-> | Hne].
  - apply assoc_dict_set_eq.
  - by apply assoc_dict_set_ne.
Qed.

(** X14.  The dict built for a row.  The cells are paired with the
    column names by position, surplus cells or names are left out, and
    of several cells under the same name the last one counts.  The
    value of [link_col] plays no part beyond being given.  When it is
    given and the row has links, the first link is joined with
    [base_url]: if [urljoin] raises, its exception leaves [row_fields]
    and nothing is logged; if it returns, 'Notice Link' holds the URL
    it returns, 'Updated Notices' the list of the other links as they
    stand in the document if there are any, and every other key is as
    without [link_col].  When the row has no link the dict is as
    without [link_col] and one warning is logged. *)
Theorem row_fields_links (base_url : string) (columns : list string) (row : lxml.Row) :
  (forall c,
     assoc String.eqb c (fields_of urljoin base_url None columns row)
     = assoc String.eqb c
         (reverse (zip columns (map (fun s => VStr (strip s)) (lxml.td row))))) /\
  row_fields urljoin base_url None columns row
  = ret (fields_of urljoin base_url None columns row) /\
  (forall a b,
     row_fields urljoin base_url (Some a) columns row
     = row_fields urljoin base_url (Some b) columns row) /\
  (forall a h hs u,
     lxml.href row = h :: hs ->
     urljoin base_url h = inr u ->
     let fields := fields_of urljoin base_url (Some a) columns row in
     row_fields urljoin base_url (Some a) columns row = ret fields /\
     assoc String.eqb "Notice Link" fields = Some (VStr u) /\
     (hs <> [] -> assoc String.eqb "Updated Notices" fields = Some (VList hs)) /\
     (forall c, c <> "Notice Link" -> c <> "Updated Notices" \/ hs = [] ->
                assoc String.eqb c fields
                = assoc String.eqb c (fields_of urljoin base_url None columns row))) /\
  (forall a h hs e,
     lxml.href row = h :: hs ->
     urljoin base_url h = inl e ->
     row_fields urljoin base_url (Some a) columns row = raise e) /\
  (forall a,
     lxml.href row = [] ->
     row_fields urljoin base_url (Some a) columns row
     = (inr (fields_of urljoin base_url None columns row),
        [(WARNING,
          "Expecting a link table entry to contain a link; may need to update column")])).
Proof.
  split; [| split; [| split; [| split; [| split]]]].
  - intros c. unfold fields_of, row_fields. cbn [fst ret]. unfold dict_zip.
    rewrite assoc_foldl_dict_set. cbn [assoc].
    unfold get_text_of_matching_elements_lxml. rewrite map_map.
    by destruct (assoc String.eqb c _).
  - reflexivity.
  - reflexivity.
  - intros a h hs u Hhref Hu. cbv zeta. unfold fields_of, row_fields. rewrite Hhref, Hu.
    cbn [lift]. rewrite bind_ret_l.
    cbn [fst ret]. split; [done |].
    destruct hs as [|h' hs]; cbn [length Nat.ltb Nat.leb].
    + split; [apply assoc_dict_set_eq |]. split; [done |].
      intros c Hc _. by apply assoc_dict_set_ne.
    + split; [by rewrite assoc_dict_set_ne, assoc_dict_set_eq |].
      split; [intros _; apply assoc_dict_set_eq |].
      intros c Hc [Hc' | Hnil]; [| done].
      by rewrite !assoc_dict_set_ne.
  - intros a h hs e Hhref He. unfold row_fields. by rewrite Hhref, He.
  - intros a Hhref. unfold fields_of, row_fields. by rewrite Hhref.
Qed.

End html_row_dicts.

Lemma row_fields_links_witness :
  let row := lxml.mkRow ["Acme "; "2020-01-02"] ["/a.pdf"; "/a2.pdf"] in
  let fields := fields_of join_url "https://warn.example" (Some 0%Z) ["Company"; "Date"] row in
  datatodf.row_fields join_url "https://warn.example" (Some 0%Z) ["Company"; "Date"] row
  = py.ret fields /\
  pandas.assoc String.eqb "Notice Link" fields
  = Some (datatodf.VStr "https://warn.example/a.pdf") /\
  (["/a2.pdf"] <> [] ->
   pandas.assoc String.eqb "Updated Notices" fields = Some (datatodf.VList ["/a2.pdf"])) /\
  (forall c, c <> "Notice Link" -> c <> "Updated Notices" \/ ["/a2.pdf"] = [] ->
             pandas.assoc String.eqb c fields
             = pandas.assoc String.eqb c
                 (fields_of join_url "https://warn.example" None ["Company"; "Date"] row)).
Proof.
  apply (proj1 (proj2 (proj2 (proj2 (row_fields_links join_url "https://warn.example"
                                       ["Company"; "Date"]
                                       (lxml.mkRow ["Acme "; "2020-01-02"]
                                          ["/a.pdf"; "/a2.pdf"])))))
           0%Z "/a.pdf" ["/a2.pdf"] "https://warn.example/a.pdf");
    reflexivity.
Defined.

(** ** The link search of the spiders *)

Section link_search.
Import py pandas datatodf base.
Variable list_set : list string -> list string.
Variable repr_list : list string -> string.
Hypothesis list_set_spec : is_list_set list_set.

Lemma leb_trans (a b c : string) :
  String.leb a b = true -> String.leb b c = true -> String.leb a c = true.
Proof.
  intros Hab Hbc. apply Is_true_true. apply Is_true_true in Hab, Hbc.
  exact (PreOrder_Transitive (R := String.le) a b c Hab Hbc).
Qed.

Lemma insert_sorted_ascending (x : string) (l : list string) :
  ascending l -> ascending (insert_sorted x l).
Proof.
  unfold ascending. induction 1 as [|y l Hl IH Hy]; simpl.
  - by repeat constructor.
  - destruct (String.leb x y) eqn:Hxy.
    + constructor; [by constructor |]. constructor; [done |].
      eapply Forall_impl; [exact Hy |]. intros z Hz. by eapply leb_trans.
    + constructor; [done |]. apply Forall_forall. intros z Hz%list_elem_of_In.
      apply insert_sorted_In in Hz as [-> | Hz].
      * destruct (String.leb_total x y) as [Ht | Ht]; [congruence | done].
      * rewrite Forall_forall in Hy. apply Hy. by apply list_elem_of_In.
Qed.

Lemma sort_labels_ascending (l : list string) : ascending (sort_labels l).
Proof.
  unfold sort_labels. induction l as [|x l IH]; simpl; [constructor |].
  by apply insert_sorted_ascending.
Qed.

Lemma insert_sorted_perm (x : string) (l : list string) : insert_sorted x l ≡ₚ x :: l.
Proof.
  induction l as [|y l IH]; simpl; [done |].
  destruct (String.leb x y); [done |]. rewrite IH. apply perm_swap.
Qed.

Lemma sort_labels_perm (l : list string) : sort_labels l ≡ₚ l.
Proof.
  unfold sort_labels. induction l as [|x l IH]; simpl; [done |].
  by rewrite insert_sorted_perm, IH.
Qed.

Lemma link_query_both (t h : option string) :
  given t = true -> given h = true ->
  link_query t h
  = "//a[contains(text(), " +:+ dquote +:+ fmt t +:+ dquote +:+ ")][contains(@href, "
    +:+ dquote +:+ fmt h +:+ dquote +:+ ")]/@href".
Proof.
  intros Ht Hh. unfold link_query. rewrite Ht, Hh.
  rewrite !string_app_assoc. reflexivity.
Qed.

Lemma link_query_cases (response : Response) (t h : option string) :
  given t || given h = true ->
  (if given t && given h
   then xpath response ("//a[contains(text(), " +:+ dquote +:+ fmt t +:+ dquote
                        +:+ ")][contains(@href, " +:+ dquote +:+ fmt h +:+ dquote
                        +:+ ")]/@href")
   else if given t
   then xpath response ("//a[contains(text(), " +:+ dquote +:+ fmt t +:+ dquote +:+ ")]/@href")
   else if given h
   then xpath response ("//a[contains(@href, " +:+ dquote +:+ fmt h +:+ dquote +:+ ")]/@href")
   else [])
  = xpath response (link_query t h).
Proof.
  intros Hg. destruct (given t) eqn:Ht, (given h) eqn:Hh; try discriminate; cbn [andb].
  - by rewrite link_query_both.
  - f_equal. unfold link_query. rewrite Ht, Hh. rewrite !string_app_assoc. reflexivity.
  - f_equal. unfold link_query. rewrite Ht, Hh. rewrite !string_app_assoc. reflexivity.
Qed.

(** The links found, when there are some. *)
Lemma get_links_found (response : Response) (t h e : option string) :
  given t || given h = true -> xpath response (link_query t h) <> [] ->
  get_links list_set repr_list response t h e
  = (let l := sort_labels
                (if given e
                 then List.filter (fun x => negb (contains (fmt e) x))
                        (list_set (xpath response (link_query t h)))
                 else list_set (xpath response (link_query t h))) in
     (inr (Some l), [(INFO, "Found links: " +:+ repr_list l)])).
Proof.
  intros Hg Hne. unfold get_links. rewrite Hg. cbn [negb]. cbv zeta.
  rewrite (link_query_cases response t h Hg).
  by destruct (xpath response (link_query t h)).
Qed.

(** X15.  [get_links].  Without a search criterion ([find_in_text] and
    [find_in_href] both missing or empty) it logs an error and returns
    [None]; when the search selects nothing it logs an error and
    returns the empty list.  Otherwise it returns the hrefs selected
    that do not contain [exclude_from_href] (all of them when that is
    missing or empty), each once and in ascending order, whatever
    order the set conversion yields them in, and logs the list at
    level INFO. *)
Theorem get_links_sorted_once (response : Response) (t h e : option string) :
  let hrefs := xpath response (link_query t h) in
  (given t || given h = false ->
   exists msg, get_links list_set repr_list response t h e = (inr None, [(ERROR, msg)])) /\
  (given t || given h = true -> hrefs = [] ->
   exists msg, get_links list_set repr_list response t h e = (inr (Some []), [(ERROR, msg)])) /\
  (given t || given h = true -> hrefs <> [] ->
   exists l,
     get_links list_set repr_list response t h e
     = (inr (Some l), [(INFO, "Found links: " +:+ repr_list l)]) /\
     ascending l /\ NoDup l /\
     forall x, In x l <-> In x hrefs /\ (given e = true -> contains (fmt e) x = false)).
Proof.
  cbv zeta. split; [| split].
  - intros Hg. unfold get_links. rewrite Hg. by eexists.
  - intros Hg Hnil. unfold get_links. rewrite Hg. cbn [negb]. cbv zeta.
    rewrite (link_query_cases response t h Hg), Hnil. by eexists.
  - intros Hg Hne. rewrite (get_links_found response t h e Hg Hne). cbv zeta.
    eexists. split; [reflexivity |].
    destruct (list_set_spec (xpath response (link_query t h))) as [Hnd Hin].
    split; [apply sort_labels_ascending |]. split.
    + rewrite sort_labels_perm. destruct (given e); [| done].
      apply NoDup_ListNoDup, List.NoDup_filter. by apply NoDup_ListNoDup.
    + intros x. rewrite sort_labels_In. destruct (given e).
      * rewrite filter_In, Hin, negb_true_iff. intuition auto.
      * rewrite Hin. intuition auto. discriminate.
Qed.

(** X16.  [parse_links] hands to [response.follow] the links
    [get_links] returns, in that order, replaced by their export links
    when the format is 'google_sheets'; without a search criterion
    [get_links] returns [None] and iterating over it raises TypeError,
    after the error record of [get_links]. *)
Theorem parse_links_follows (response : Response) (t h e format : option string) :
  (given t || given h = false ->
   exists msg,
     parse_links list_set repr_list response t h e format
     = (inl (TypeError "'NoneType' object is not iterable"), [(ERROR, msg)])) /\
  (forall l out,
     get_links list_set repr_list response t h e = (inr (Some l), out) ->
     (parse_links list_set repr_list response t h e format).1
     = inr (if String.eqb (fmt format) "google_sheets"
            then map get_google_sheets_export_link l
            else l)).
Proof.
  split.
  - intros Hg. unfold parse_links, get_links. rewrite Hg. by eexists.
  - intros l out Hl. unfold parse_links. rewrite Hl, bind_value. cbn [fst].
    destruct (String.eqb (fmt format) "google_sheets").
    + rewrite (mmap_values _ get_google_sheets_export_link
                 (fun link => [(INFO, "updating link to "
                                      +:+ get_google_sheets_export_link link)])); [done |].
      apply Forall_forall. by intros link _.
    + rewrite (mmap_values _ (fun link => link) (fun _ => [])).
      * by rewrite map_id.
      * apply Forall_forall. by intros link _.
Qed.

End link_search.

Lemma remove_dups_is_list_set : is_list_set remove_dups.
Proof.
  intros l. split; [apply NoDup_remove_dups |].
  intros x. rewrite <- !list_elem_of_In. apply elem_of_remove_dups.
Qed.

Lemma get_links_sorted_once_witness :
  let response := base.mkResponse "https://warn.example/notices"
                    (fun _ => ["/b.pdf"; "/a.pdf"; "/b.pdf"; "/old/c.pdf"]) in
  exists l,
    base.get_links remove_dups (py.join ", ") response (Some "WARN") None (Some "/old/")
    = (inr (Some l), [(py.INFO, "Found links: " +:+ py.join ", " l)]) /\
    ascending l /\ NoDup l /\
    forall x, In x l <-> In x (base.xpath response (link_query (Some "WARN") None))
                         /\ (base.given (Some "/old/") = true ->
                             py.contains (base.fmt (Some "/old/")) x = false).
Proof.
  apply (proj2 (proj2 (get_links_sorted_once remove_dups (py.join ", ")
                         remove_dups_is_list_set
                         (base.mkResponse "https://warn.example/notices"
                            (fun _ => ["/b.pdf"; "/a.pdf"; "/b.pdf"; "/old/c.pdf"]))
                         (Some "WARN") None (Some "/old/")))); [reflexivity | discriminate].
Defined.

Lemma parse_links_follows_witness :
  exists msg,
    base.parse_links remove_dups (py.join ", ")
      (base.mkResponse "https://warn.example/notices" (fun _ => ["/a.pdf"])) None (Some EmptyString)
      None (Some "pdf")
    = (inl (py.TypeError "'NoneType' object is not iterable"), [(py.ERROR, msg)]).
Proof.
  apply (proj1 (parse_links_follows remove_dups (py.join ", ")
                  (base.mkResponse "https://warn.example/notices" (fun _ => ["/a.pdf"]))
                  None (Some EmptyString) None (Some "pdf"))).
  reflexivity.
Defined.

(** ** The items of a parsed table *)

Section items_of_rows.
Import py pandas datatodf base.
Context {V : Type} `{CellValue V}.

Lemma foldl_insert_fresh {W} (k : string) (l : list (string * W)) (m : gmap string W) :
  ~ In k (map fst l) -> foldl (fun d kv => <[kv.1 := kv.2]> d) m l !! k = m !! k.
Proof.
  revert m; induction l as [|[k' v'] l IH]; intros m Hk; [done |].
  cbn [foldl fst snd]. rewrite IH by (intros Hin; apply Hk; by right).
  apply lookup_insert_ne. intros ->. apply Hk. by left.
Qed.

Lemma foldl_insert_nodup {W} (k : string) (v : W) (l : list (string * W)) (m : gmap string W) :
  NoDup (map fst l) -> In (k, v) l -> foldl (fun d kv => <[kv.1 := kv.2]> d) m l !! k = Some v.
Proof.
  revert m; induction l as [|[k' v'] l IH]; intros m Hnd Hin; [done |].
  cbn [map fst] in Hnd. apply NoDup_cons in Hnd as [Hk' Hnd]. cbn [foldl fst snd].
  destruct Hin as [[= -> ->] | Hin].
  - rewrite foldl_insert_fresh by (by rewrite <- list_elem_of_In). apply lookup_insert_eq.
  - by apply IH.
Qed.

(** The dict of a row with distinct labels: the cell under each label. *)
Lemma to_dict_lookup {W} (cols : list string) (cells : list (option W)) (c : string) :
  NoDup cols -> length cells = length cols ->
  (forall j, cols !! j = Some c -> to_dict cols cells !! c = cells !! j) /\
  (~ In c cols -> to_dict cols cells !! c = None).
Proof.
  intros Hnd Hlen. unfold to_dict. split.
  - intros j Hj. destruct (lookup_lt_is_Some_2 cells j) as [v Hv].
    { rewrite Hlen. by eapply lookup_lt_Some. }
    rewrite Hv. apply foldl_insert_nodup.
    + by rewrite fst_zip by lia.
    + apply list_elem_of_In, list_elem_of_lookup. exists j. by apply lookup_zip_with_Some; eauto.
  - intros Hc. rewrite foldl_insert_fresh; [done |]. by rewrite fst_zip by lia.
Qed.

Lemma mask_select_In {A} (m : list bool) (l : list A) (x : A) :
  In x (mask_select m l) -> In x l.
Proof.
  revert l; induction m as [|b m IH]; intros [|y l]; simpl; try done.
  destruct b; simpl; [intros [-> | Hx]; [by left | right; by apply IH] |].
  intros Hx. right. by apply IH.
Qed.

Lemma NoDup_mask_select {A} (m : list bool) (l : list A) : NoDup l -> NoDup (mask_select m l).
Proof.
  revert l; induction m as [|b m IH]; intros [|x l] Hnd; simpl; try constructor.
  apply NoDup_cons in Hnd as [Hx Hnd]. destruct b; [| by apply IH].
  apply NoDup_cons. split; [| by apply IH].
  intros Hin%list_elem_of_In%mask_select_In. by apply Hx, list_elem_of_In.
Qed.

(** X17.  The items [parse_as_df] yields for a table with distinct
    labels: one for each row that holds a non-empty cell, in order,
    each under the state name and URL given; the raw fields of an item
    have as keys exactly the columns that hold a non-empty cell
    somewhere in the table, none of their values is null, and at least
    one of them is not the empty string. *)
Theorem parse_as_df_items_fields (state : string) (ts : Z) (link : string)
    (fields_dict : gmap string (option string)) (df : DataFrame V) :
  wf df -> NoDup (columns df) ->
  let its := parse_as_df_items state ts link fields_dict df in
  length its = length (List.filter (fun r => existsb nonempty r.2) (rows df)) /\
  Forall (fun it =>
            state_name it = state /\ url it = link /\
            (forall c, is_Some (fields it !! c) <-> In c (columns (drop_empty_rows_cols df))) /\
            (forall c, fields it !! c <> Some None) /\
            exists c v, fields it !! c = Some (Some v) /\ eq_str v EmptyString = false)
         its.
Proof.
  intros Hwf Hnd. cbv zeta. unfold parse_as_df_items.
  pose proof (Cleaner_spec_clean df Hwf) as (Hcwf & Hsome & Hrow & _).
  rewrite (drop_empty_rows_cols_spec df Hwf).
  assert (Hcnd : NoDup (columns (Cleaner_spec df))) by (by apply NoDup_mask_select).
  split.
  { rewrite List.length_map. unfold Cleaner_spec. cbn [rows]. by rewrite List.length_map. }
  apply Forall_fmap, Forall_forall. intros r Hr. unfold compose.
  cbn [state_name url fields].
  pose proof (proj1 (Forall_forall _ _) Hcwf r Hr) as Hlen.
  pose proof (proj1 (Forall_forall _ _) Hsome r Hr) as Hcells.
  pose proof (proj1 (Forall_forall _ _) Hrow r Hr) as Hne.
  cbv beta in Hlen, Hcells, Hne.
  split; [done |]. split; [done |]. split; [| split].
  - intros c. split.
    + intros Hc. destruct (in_dec String.string_dec c (columns (Cleaner_spec df))); [done |].
      rewrite (proj2 (to_dict_lookup _ r.2 c Hcnd Hlen)) in Hc by done. by destruct Hc.
    + intros (j & Hj)%list_elem_of_In%list_elem_of_lookup.
      rewrite (proj1 (to_dict_lookup _ r.2 c Hcnd Hlen) j Hj).
      apply lookup_lt_is_Some_2. rewrite Hlen. by eapply lookup_lt_Some.
  - intros c Hc.
    destruct (in_dec String.string_dec c (columns (Cleaner_spec df))) as [Hin | Hout].
    + apply list_elem_of_In, list_elem_of_lookup in Hin as (j & Hj).
      rewrite (proj1 (to_dict_lookup _ r.2 c Hcnd Hlen) j Hj) in Hc.
      pose proof (Forall_lookup_1 _ _ _ _ Hcells Hc) as Hs. by destruct Hs.
    + by rewrite (proj2 (to_dict_lookup _ r.2 c Hcnd Hlen)) in Hc.
  - apply existsb_exists in Hne as (cell & Hin & Hcell).
    apply list_elem_of_In, list_elem_of_lookup in Hin as (j & Hj).
    destruct (lookup_lt_is_Some_2 (columns (Cleaner_spec df)) j) as [c Hc].
    { rewrite <- Hlen. by eapply lookup_lt_Some. }
    destruct cell as [v|]; [| discriminate]. exists c, v. split.
    + by rewrite (proj1 (to_dict_lookup _ r.2 c Hcnd Hlen) j Hc).
    + simpl in Hcell. by apply negb_true_iff.
Qed.

End items_of_rows.

Lemma parse_as_df_items_fields_witness :
  length (base.parse_as_df_items "Alabama" 0 "https://warn.example" fields_example
            cleaner_example)
  = length (List.filter (fun r => existsb nonempty r.2) (pandas.rows cleaner_example)).
Proof.
  apply (parse_as_df_items_fields "Alabama" 0 "https://warn.example" fields_example
           cleaner_example).
  - repeat constructor.
  - apply NoDup_ListNoDup. repeat constructor; simpl; intuition discriminate.
Defined.

(** ** The export pipelines *)

Section pipeline_facts.
Context {A : Type} (state_name : A -> string).
Variable name2abbrev : gmap string string.
Variable SAVEDIR : string.
Variable path_join : string -> string -> string.

Lemma items_of_cons (s : string) (item : A) (items : list A) :
  items_of state_name name2abbrev s (item :: items)
  = if bool_decide (name2abbrev !! state_name item = Some s)
    then item :: items_of state_name name2abbrev s items
    else items_of state_name name2abbrev s items.
Proof. reflexivity. Qed.

(** Feeding items to the JSONL pipeline from any state of the
    exporters: every state's exporter gains its items, in order. *)
Lemma jsonl_feed (st : gmap string (pipelines.Exporter (A := A))) (items : list A) :
  (feed (pipelines.process_item state_name name2abbrev SAVEDIR path_join) st items).1
  = map (fun item => match name2abbrev !! state_name item with
                     | Some _ => inr item
                     | None => inl (pipelines.KeyError (state_name item))
                     end) items /\
  forall s,
    (feed (pipelines.process_item state_name name2abbrev SAVEDIR path_join) st items).2 !! s
    = match st !! s with
      | Some ex =>
          Some (pipelines.mkExporter (pipelines.file_path ex)
                  (pipelines.exported ex ++ items_of state_name name2abbrev s items))
      | None =>
          match items_of state_name name2abbrev s items with
          | [] => None
          | its => Some (pipelines.mkExporter
                           (path_join SAVEDIR (s +:+ "_WARN_Notices.jsonl")) its)
          end
      end.
Proof.
  revert st; induction items as [|item items IH]; intros st.
  - split; [done |]. intros s. cbn [feed snd items_of List.filter].
    destruct (st !! s) as [[fp ex]|]; [| done]. cbn. by rewrite app_nil_r.
  - cbn [feed map]. unfold pipelines.process_item, pipelines._exporter_for_item.
    destruct (name2abbrev !! state_name item) as [s0|] eqn:Hs0.
    + set (st0 := match st !! s0 with
                  | Some _ => st
                  | None => <[s0 := pipelines.mkExporter
                                      (path_join SAVEDIR (s0 +:+ "_WARN_Notices.jsonl")) []]> st
                  end).
      set (st1 := alter (fun ex => pipelines.mkExporter (pipelines.file_path ex)
                                     (pipelines.exported ex ++ [item])) s0 st0).
      assert (Hstep : (match st !! s0 with
                       | Some _ => inr (s0, st)
                       | None => inr (s0, <[s0 := pipelines.mkExporter
                                                    (path_join SAVEDIR
                                                       (s0 +:+ "_WARN_Notices.jsonl")) []]> st)
                       end : pipelines.raised + _) = inr (s0, st0)).
      { unfold st0. by destruct (st !! s0). }
      rewrite Hstep. fold st1.
      destruct (IH st1) as [IHout IHst].
      destruct (feed _ st1 items) as [outs st'] eqn:Hfeed. cbn [fst snd] in *.
      split; [by rewrite IHout |]. intros s. rewrite IHst, items_of_cons, Hs0.
      destruct (decide (s = s0)) as [-> | Hne].
      * rewrite bool_decide_eq_true_2 by done. unfold st1, st0.
        rewrite lookup_alter_eq.
        destruct (st !! s0) as [[fp ex]|] eqn:Hst.
        -- rewrite Hst. cbn. by rewrite <- app_assoc.
        -- rewrite lookup_insert_eq. by cbn.
      * rewrite bool_decide_eq_false_2 by congruence. unfold st1, st0.
        rewrite lookup_alter_ne by done.
        destruct (st !! s0); [done | by rewrite lookup_insert_ne].
    + destruct (IH st) as [IHout IHst].
      destruct (feed _ st items) as [outs st'] eqn:Hfeed. cbn [fst snd] in *.
      split; [by rewrite IHout |]. intros s. rewrite IHst, items_of_cons, Hs0.
      by rewrite bool_decide_eq_false_2 by done.
Qed.

(** X18.  The JSONL pipeline fed the items of a crawl after
    [open_spider]: an item whose state name [config.name2abbrev] knows
    is returned as it is, any other raises KeyError and is exported
    nowhere; in the end there is an exporter for exactly the states
    that had an item, on the file '<state>_WARN_Notices.jsonl' under
    the save directory, and it has exported the items of its state
    and no other, in the order they came. *)
Theorem jsonl_pipeline_routes_by_state (items : list A) :
  let run := feed (pipelines.process_item state_name name2abbrev SAVEDIR path_join)
               pipelines.open_spider items in
  run.1 = map (fun item => match name2abbrev !! state_name item with
                           | Some _ => inr item
                           | None => inl (pipelines.KeyError (state_name item))
                           end) items /\
  forall s,
    run.2 !! s
    = match items_of state_name name2abbrev s items with
      | [] => None
      | its => Some (pipelines.mkExporter (path_join SAVEDIR (s +:+ "_WARN_Notices.jsonl")) its)
      end.
Proof.
  cbv zeta. destruct (jsonl_feed pipelines.open_spider items) as [Hout Hst].
  split; [exact Hout |]. intros s. rewrite Hst. unfold pipelines.open_spider.
  by rewrite lookup_empty.
Qed.

(** X19.  The CSV pipeline exports nothing: for a state without an
    exporter [_exporter_for_item] reads the name [exporter], which is
    not defined, before it stores anything, so after [open_spider]
    every item raises, NameError when [config.name2abbrev] knows its
    state name and KeyError when not, and no exporter is ever
    registered. *)
Theorem csv_pipeline_never_exports (items : list A) :
  let run := feed (pipelines.csv_process_item state_name name2abbrev)
               (pipelines.open_spider (A := A)) items in
  run.1 = map (fun item => match name2abbrev !! state_name item with
                           | Some _ => inl (pipelines.NameError "exporter")
                           | None => inl (pipelines.KeyError (state_name item))
                           end) items /\
  run.2 = ∅.
Proof.
  cbv zeta. unfold pipelines.open_spider.
  assert (Hstep : forall item,
             pipelines.csv_process_item state_name name2abbrev ∅ item
             = inl (match name2abbrev !! state_name item with
                    | Some _ => pipelines.NameError "exporter"
                    | None => pipelines.KeyError (state_name item)
                    end)).
  { intros item. unfold pipelines.csv_process_item, pipelines.csv_exporter_for_item.
    destruct (name2abbrev !! state_name item) as [s|]; [| done]. by rewrite lookup_empty. }
  induction items as [|item items [IHout IHst]]; [done |].
  cbn [feed map]. rewrite Hstep.
  destruct (feed _ ∅ items) as [outs st'] eqn:Hfeed. cbn [fst snd] in *.
  rewrite IHout, IHst. by destruct (name2abbrev !! state_name item).
Qed.

End pipeline_facts.

(** ** The field mapping of a configuration row *)

Section field_mapping.
Import py pandas.

Lemma find_app {A} (p : A -> bool) (a b : list A) :
  List.find p (a ++ b) = match List.find p a with Some x => Some x | None => List.find p b end.
Proof. induction a as [|x a IH]; simpl; [done |]. by destruct (p x). Qed.

Lemma upper_upper_char (c : ascii) : upper_char (upper_char c) = upper_char c.
Proof. destruct c as [[] [] [] [] [] [] [] []]; reflexivity. Qed.

Lemma upper_upper (s : string) : upper (upper s) = upper s.
Proof.
  unfold upper. rewrite map_chars_compose. apply map_chars_ext, upper_upper_char.
Qed.

Lemma FIELDS_lookup_from {V} (row : list (string * V)) (acc : gmap string V) (K : string) :
  foldl (fun acc kv =>
           if endswith kv.1 "_field"
           then <[upper (delete_all "_field" kv.1) := kv.2]> acc
           else acc) acc row !! K
  = match List.find (fun kv => endswith kv.1 "_field" && String.eqb (canonical kv.1) K)
            (rev row) with
    | Some kv => Some kv.2
    | None => acc !! K
    end.
Proof.
  revert acc; induction row as [|[k v] row IH]; intros acc; [done |].
  cbn [foldl rev fst snd]. rewrite IH, find_app.
  destruct (List.find _ (rev row)); [done |]. cbn [List.find fst snd].
  unfold canonical. destruct (endswith k "_field"); cbn [andb]; [| done].
  destruct (String.eqb_spec (upper (delete_all "_field" k)) K) as [-> | Hne].
  - apply lookup_insert_eq.
  - by apply lookup_insert_ne.
Qed.

(** X20.  The field mapping [StateConfig] builds from a configuration
    row: under a canonical name it holds the value of the last item of
    the row whose key ends in '_field' and has that canonical name
    (the key in upper case with every '_field' in it deleted), and
    nothing under a name no such key has; items whose key does not end
    in '_field' play no part; every key of the mapping is its own
    upper case. *)
Theorem FIELDS_last_item_wins {V} (row : list (string * V)) (K : string) :
  config.FIELDS row !! K
  = snd <$> List.find (fun kv => endswith kv.1 "_field" && String.eqb (canonical kv.1) K)
              (rev row) /\
  (is_Some (config.FIELDS row !! K) -> upper K = K).
Proof.
  assert (Hlookup : config.FIELDS row !! K
                    = snd <$> List.find (fun kv => endswith kv.1 "_field"
                                                   && String.eqb (canonical kv.1) K)
                                (rev row)).
  { unfold config.FIELDS. rewrite FIELDS_lookup_from, lookup_empty.
    by destruct (List.find _ (rev row)). }
  split; [exact Hlookup |]. rewrite Hlookup. intros [v Hv].
  destruct (List.find _ (rev row)) as [[k v']|] eqn:Hfind; [| discriminate].
  apply find_some in Hfind as [_ [_ Hk%String.eqb_eq]%andb_true_iff].
  cbn [fst] in Hk. rewrite <- Hk. unfold canonical. apply upper_upper.
Qed.

End field_mapping.

Lemma FIELDS_last_item_wins_witness :
  ((config.FIELDS [("company_field", "Employer"); ("Company_field", "Company")]
      : gmap string string) !! "COMPANY")
  = snd <$> List.find (fun kv => py.endswith kv.1 "_field" && String.eqb (canonical kv.1) "COMPANY")
              (rev [("company_field", "Employer"); ("Company_field", "Company")]) /\
  py.upper "COMPANY" = "COMPANY".
Proof.
  split.
  - apply (FIELDS_last_item_wins [("company_field", "Employer"); ("Company_field", "Company")]
             "COMPANY").
  - apply (proj2 (FIELDS_last_item_wins
                    [("company_field", "Employer"); ("Company_field", "Company")] "COMPANY")).
    by eexists.
Defined.

(** ** Entries of the state-specific parsers *)

Section custom_entries.
Import py pandas datatodf customdatatodf.

Lemma endswith_last_char (s : string) (c : ascii) :
  endswith s (String c EmptyString) = true <-> last_char s = Some c.
Proof.
  unfold endswith. cbn [String.length].
  induction s as [|a s IH]; [done |].
  destruct s as [|b s].
  - cbn. rewrite Ascii.eqb_sym. destruct (Ascii.eqb_spec c a) as [-> | Hne]; [done |].
    split; [done | intros [= ->]; done].
  - rewrite <- IH. cbn [String.length Nat.leb Nat.sub andb]. rewrite Nat.sub_0_r.
    reflexivity.
Qed.

Lemma rstrip_by_last (p : ascii -> bool) (s : string) (c : ascii) :
  last_char (rstrip_by p s) = Some c -> p c = false.
Proof.
  induction s as [|a s IH]; [done |]. cbn [rstrip_by].
  destruct (rstrip_by p s) as [|b r] eqn:Hr.
  - destruct (p a) eqn:Ha; [done |]. by intros [= <-].
  - intros Hc. by apply IH.
Qed.

(** X21.  [make_HI_Series].  The entry has the five keys Date
    Received, Company, Notice Link, Updated Links, Notes, in this
    order; the date is the date text trimmed, the link the one given,
    and there are no updated links.  Its company never ends in an
    asterisk: a company text that ends in one (after trimming) is
    trimmed and then loses the asterisks and spaces at both ends, and
    the notes are the scraping note; any other company text is kept
    trimmed and the notes are empty. *)
Theorem make_HI_Series_company (date_str company_str href_str : string) :
  let entry := make_HI_Series date_str company_str href_str in
  map fst entry = ["Date Received"; "Company"; "Notice Link"; "Updated Links"; "Notes"] /\
  assoc String.eqb "Date Received" entry = Some (VStr (strip date_str)) /\
  assoc String.eqb "Notice Link" entry = Some (VStr href_str) /\
  assoc String.eqb "Updated Links" entry = Some (VList []) /\
  exists company,
    assoc String.eqb "Company" entry = Some (VStr company) /\
    endswith company "*" = false /\
    (endswith (strip company_str) "*" = false ->
     company = strip company_str /\ assoc String.eqb "Notes" entry = Some (VStr EmptyString)) /\
    (endswith (strip company_str) "*" = true ->
     company = strip_by (fun c => Ascii.eqb c "*"%char || Ascii.eqb c " "%char)
                 (strip company_str) /\
     assoc String.eqb "Notes" entry
     = Some (VStr "(Scraping note: see HI WARN notice website for further information)") /\
     assoc String.eqb "Notes" entry <> Some (VStr EmptyString)).
Proof.
  cbv zeta. unfold make_HI_Series.
  destruct (endswith (strip company_str) "*") eqn:Hstar.
  - repeat split; try reflexivity. eexists. split; [reflexivity |].
    split; [| split; [done | intros _; repeat split; discriminate]].
    apply not_true_iff_false. intros Hlast%endswith_last_char.
    by apply rstrip_by_last in Hlast.
  - repeat split; try reflexivity. exists (strip company_str).
    split; [reflexivity |]. split; [done |]. split; [done | discriminate].
Qed.

(** X22.  [make_TN_Series].  Whatever the texts, the entry has seven
    keys in a fixed order, the link second because it is set again
    after every field; the link is the one given; every field is
    trimmed, and it is empty when no text contains its key. *)
Theorem make_TN_Series_fields (str_list : list string) (href : string) :
  let entry := make_TN_Series str_list href in
  map fst entry = ["Date Notice Posted"; "Notice Link"; "Company"; "County";
                   "Affected Workers"; "Closure/Layoff Date"; "Notice/Type"] /\
  assoc String.eqb "Notice Link" entry = Some (VStr href) /\
  forall key,
    In key ["Date Notice Posted"; "Company"; "County"; "Affected Workers";
            "Closure/Layoff Date"; "Notice/Type"] ->
    exists v,
      assoc String.eqb key entry = Some (VStr v) /\ trimmed v /\
      (Forall (fun s => contains key s = false) str_list -> v = EmptyString).
Proof.
  cbv zeta. unfold make_TN_Series. cbn [foldl].
  assert (Hfield : forall key,
             let field := map (fun s => strip (delete_all (key +:+ ":") s))
                              (List.filter (contains key) str_list) in
             trimmed (match field with [] => EmptyString | f :: _ => f end) /\
             (Forall (fun s => contains key s = false) str_list ->
              match field with [] => EmptyString | f :: _ => f end = EmptyString)).
  { intros key. cbv zeta. split.
    - destruct (List.filter (contains key) str_list) as [|s l]; [done |]. apply strip_trimmed.
    - intros Hnone. by rewrite (filter_none _ _ Hnone). }
  split; [reflexivity |]. split; [reflexivity |].
  intros key Hkey. simpl in Hkey.
  destruct Hkey as [<- | [<- | [<- | [<- | [<- | [<- | []]]]]]];
    (eexists; split; [reflexivity | apply Hfield]).
Qed.

End custom_entries.

Lemma make_HI_Series_company_witness :
  py.endswith (py.strip " Acme Hotels * ") "*" = true /\
  pandas.assoc String.eqb "Company"
    (customdatatodf.make_HI_Series " 3/2/2020 " " Acme Hotels * " "/warn/acme.pdf")
  = Some (datatodf.VStr "Acme Hotels") /\
  pandas.assoc String.eqb "Notes"
    (customdatatodf.make_HI_Series " 3/2/2020 " " Acme Hotels * " "/warn/acme.pdf")
  = Some (datatodf.VStr "(Scraping note: see HI WARN notice website for further information)").
Proof.
  split; [reflexivity |].
  pose proof (make_HI_Series_company " 3/2/2020 " " Acme Hotels * " "/warn/acme.pdf") as H.
  cbv zeta in H. destruct H as (_ & _ & _ & _ & company & Hc & _ & _ & Hstar).
  destruct (Hstar eq_refl) as (Hcompany & Hnotes & _). split; [| exact Hnotes].
  rewrite Hc, Hcompany. reflexivity.
Defined.

Lemma make_TN_Series_fields_witness :
  exists v,
    pandas.assoc String.eqb "County"
      (customdatatodf.make_TN_Series ["Company: Acme "; " County: Knox "] "/acme.pdf")
    = Some (datatodf.VStr v) /\ trimmed v /\
    (Forall (fun s => py.contains "County" s = false) ["Company: Acme "; " County: Knox "] ->
     v = EmptyString).
Proof.
  apply (make_TN_Series_fields ["Company: Acme "; " County: Knox "] "/acme.pdf").
  simpl. tauto.
Defined.

(** ** File names *)

Section file_names.
Import py utils.

Lemma remove_reserved_chars_free (s : string) :
  Forall (fun c => reserved c = false) (list_ascii_of_string s) ->
  remove_reserved_chars s = s.
Proof.
  induction s as [|c s IH]; [done |]. cbn [list_ascii_of_string remove_reserved_chars].
  intros [Hc Hs]%Forall_cons. by rewrite Hc, IH.
Qed.

Lemma remove_reserved_chars_none (s : string) :
  Forall (fun c => reserved c = false) (list_ascii_of_string (remove_reserved_chars s)).
Proof.
  induction s as [|c s IH]; [constructor |]. cbn [remove_reserved_chars].
  destruct (reserved c) eqn:Hc; [done |]. by constructor.
Qed.

(** X23.  [remove_reserved_chars] leaves none of the characters
    less-than, greater-than, colon, double quote, slash, bar, question
    mark and asterisk in its result, keeps every other character in
    place, the backslash among them, is idempotent, and returns a
    string without these characters as it is. *)
Theorem remove_reserved_chars_result (s : string) :
  let r := remove_reserved_chars s in
  Forall (fun c => reserved c = false) (list_ascii_of_string r) /\
  list_ascii_of_string r
  = List.filter (fun c => negb (reserved c)) (list_ascii_of_string s) /\
  remove_reserved_chars r = r /\
  (Forall (fun c => reserved c = false) (list_ascii_of_string s) -> r = s) /\
  remove_reserved_chars (String "\"%char s) = String "\"%char r.
Proof.
  cbv zeta. split; [apply remove_reserved_chars_none |]. split; [| split; [| split]].
  - induction s as [|c s IH]; [done |].
    cbn [remove_reserved_chars list_ascii_of_string List.filter].
    destruct (reserved c); cbn [negb list_ascii_of_string]; by rewrite IH.
  - apply remove_reserved_chars_free, remove_reserved_chars_none.
  - apply remove_reserved_chars_free.
  - reflexivity.
Qed.

End file_names.

Lemma remove_reserved_chars_result_witness :
  Forall (fun c => utils.reserved c = false) (list_ascii_of_string "WARN_2020.pdf") /\
  utils.remove_reserved_chars "WARN_2020.pdf" = "WARN_2020.pdf".
Proof.
  assert (Hfree : Forall (fun c => utils.reserved c = false)
                    (list_ascii_of_string "WARN_2020.pdf"))
    by (repeat constructor).
  split; [exact Hfree |].
  apply (proj1 (proj2 (proj2 (proj2 (remove_reserved_chars_result "WARN_2020.pdf"))))).
  exact Hfree.
Defined.

(** ** Configuration rows *)

Section config_facts.
Import py pandas utils.
Variable name2abbrev : gmap string string.
Variable repr_row : list (string * pyobj) -> string.
Variable todf_has : string -> bool.
Variable has_spider : string -> bool.

(** The [try] block either sets the four required attributes or ends
    in a KeyError before the format is set. *)
Lemma required_cases (row : list (string * pyobj)) :
  (complete_row name2abbrev row /\
   (config.required name2abbrev row).2 = false /\
   (config.required name2abbrev row).1 !! "STATE_NAME" = assoc String.eqb "state_name" row /\
   (config.required name2abbrev row).1 !! "URL" = assoc String.eqb "archive_url" row /\
   (config.required name2abbrev row).1 !! "FORMAT" = assoc String.eqb "format" row /\
   exists name, assoc String.eqb "state_name" row = Some (PyStr name) /\
                (config.required name2abbrev row).1 !! "STATE_ABBREV"
                = PyStr <$> name2abbrev !! name) \/
  (~ complete_row name2abbrev row /\
   (config.required name2abbrev row).2 = true /\
   (config.required name2abbrev row).1 !! "FORMAT" = None /\
   (assoc String.eqb "state_name" row = None \/ assoc String.eqb "archive_url" row = None ->
    (config.required name2abbrev row).1 !! "URL" = None)).
Proof.
  unfold config.required, complete_row.
  destruct (assoc String.eqb "state_name" row) as [state_name|] eqn:Hname.
  2:{ right. split; [by intros (? & ? & ? & ? & ? & _) |]. by repeat split. }
  destruct (match state_name with PyStr s => name2abbrev !! s | _ => None end)
    as [abbrev|] eqn:Habbrev.
  2:{ right. split; [| by repeat split; intros [? | ?]].
      intros (n & a & u & f & [= ->] & Hn & _). by rewrite Hn in Habbrev. }
  destruct state_name as [name| | | |]; try discriminate.
  destruct (assoc String.eqb "archive_url" row) as [url|] eqn:Hurl.
  2:{ right. split; [by intros (? & ? & ? & ? & _ & _ & ? & _) |]. by repeat split. }
  destruct (assoc String.eqb "format" row) as [format|] eqn:Hformat.
  2:{ right. split; [by intros (? & ? & ? & ? & _ & _ & _ & ?) |].
      split; [done |]. split; [done |]. by intros [? | ?]. }
  left. split; [by exists name, abbrev, url, format |].
  cbn [fst snd]. repeat split; try done.
  exists name. split; [done |]. by rewrite Habbrev.
Qed.

(** Without a format the spider cannot be constructed. *)
Lemma WARNSpider_init_no_format (state_config : config.StateConfig) :
  config.attributes state_config !! "FORMAT" = None ->
  exists msg, base.WARNSpider_init todf_has state_config = raise (AttributeError msg).
Proof.
  intros Hformat. unfold base.WARNSpider_init, config.getattr. rewrite Hformat.
  destruct (config.attributes state_config !! "URL"); [| by eexists].
  rewrite !bind_ret_l.
  destruct (config.attributes state_config !! "STATE_NAME"); [| by eexists].
  rewrite bind_ret_l.
  destruct (config.attributes state_config !! "STATE_ABBREV"); [| by eexists].
  rewrite bind_ret_l. by eexists.
Qed.

(** X24.  [StateConfig.__init__] never raises and always sets the field
    mapping.  For a row with a state name [name2abbrev] knows, an
    archive URL and a format it logs nothing and sets the four
    required attributes from the row.  For any other row it logs one
    warning, sets [STATE_NAME] to [None] and leaves [FORMAT] unset, so
    [WARNSpider.__init__] raises AttributeError on the configuration;
    and when the state name or the archive URL is missing, [URL] is
    unset too and [add_state_to_process] raises AttributeError instead
    of skipping the state. *)
Theorem StateConfig_incomplete_row (row : list (string * pyobj)) :
  exists cfg out,
    config.StateConfig_init name2abbrev repr_row row = (inr cfg, out) /\
    config.fields_dict cfg = config.FIELDS row /\
    (complete_row name2abbrev row ->
     out = [] /\
     config.attributes cfg !! "STATE_NAME" = assoc String.eqb "state_name" row /\
     config.attributes cfg !! "URL" = assoc String.eqb "archive_url" row /\
     config.attributes cfg !! "FORMAT" = assoc String.eqb "format" row /\
     exists name, assoc String.eqb "state_name" row = Some (PyStr name) /\
                  config.attributes cfg !! "STATE_ABBREV" = PyStr <$> name2abbrev !! name) /\
    (~ complete_row name2abbrev row ->
     out = [(WARNING, "Could not find all necessary keys in entry " +:+ repr_row row)] /\
     config.attributes cfg !! "STATE_NAME" = Some PyNone /\
     config.attributes cfg !! "FORMAT" = None /\
     (exists msg, base.WARNSpider_init todf_has cfg = raise (AttributeError msg)) /\
     (assoc String.eqb "state_name" row = None \/ assoc String.eqb "archive_url" row = None ->
      forall CONFIG state,
        CONFIG !! state = Some cfg ->
        run_scrape.add_state_to_process has_spider CONFIG state
        = raise (AttributeError "'StateConfig' object has no attribute 'URL'"))).
Proof.
  unfold config.StateConfig_init.
  destruct (required_cases row)
    as [(Hc & -> & Hname & Hurl & Hformat & Habbrev) | (Hc & -> & Hformat & Hurl)].
  - rewrite bind_ret_l. eexists _, _. split; [reflexivity |]. split; [done |].
    split; [| done]. intros _. cbn [config.attributes].
    destruct Habbrev as (name & Hn & Ha).
    rewrite !lookup_insert_ne by done.
    split; [done |]. split; [done |]. split; [done |]. split; [done |].
    by exists name.
  - eexists _, _. split; [reflexivity |]. split; [done |].
    split; [done |]. intros _. split; [done |]. cbn [config.attributes].
    split; [by rewrite !lookup_insert_ne, lookup_insert_eq by done |].
    split; [by rewrite !lookup_insert_ne by done |]. split.
    + apply WARNSpider_init_no_format. cbn [config.attributes].
      by rewrite !lookup_insert_ne by done.
    + intros Hmiss CONFIG state Hcfg. unfold run_scrape.add_state_to_process.
      rewrite Hcfg. unfold config.getattr. cbn [config.attributes].
      rewrite !lookup_insert_ne by done. by rewrite (Hurl Hmiss).
Qed.

End config_facts.

Lemma StateConfig_incomplete_row_witness :
  exists cfg out,
    config.StateConfig_init {["Alabama" := "AL"]} (fun _ => "{...}")
      [("state_name", utils.PyStr "Alabama"); ("archive_url", utils.PyStr "https://warn.example")]
    = (inr cfg, out) /\
    config.attributes cfg !! "FORMAT" = None /\
    exists msg, base.WARNSpider_init (fun _ => true) cfg = py.raise (py.AttributeError msg).
Proof.
  destruct (StateConfig_incomplete_row {["Alabama" := "AL"]} (fun _ => "{...}")
              (fun _ => true) (fun _ => true)
              [("state_name", utils.PyStr "Alabama");
               ("archive_url", utils.PyStr "https://warn.example")])
    as (cfg & out & Hrun & _ & _ & Hinc).
  exists cfg, out. split; [exact Hrun |].
  destruct Hinc as (_ & _ & Hformat & Hspider & _).
  - intros (n & a & u & f & _ & _ & _ & Hf). discriminate Hf.
  - by split.
Defined.
